(** * The incremental Robot Framework interpreter
      (robotframework_interactive/interpreter.py)

    A shallow embedding of [_CustomErrorReporter] and
    [RobotFrameworkInterpreter], and the properties of its document model,
    block mode and evaluation text.

    Python [str] values are modelled by [string]; a character stands for the
    code point of the same number, so only code points below 256 occur.
    Methods of the interpreter are computations in a state-and-exception
    monad whose state survives a raised exception, as the attributes of a
    Python object do. *)

From Stdlib Require Import ZArith Ascii String.
From stdpp Require Import base option list strings pretty gmap.

Local Open Scope string_scope.
Set Warnings "-register-all".

(** ** Python string primitives used by the interpreter *)

Module Py.

(** The line feed character and the one-character string ["\n"]. *)
Definition lf : ascii := "010"%char.
Definition LF : string := String lf EmptyString.
Definition tab : ascii := "009"%char.

(** [str.isspace] on one character (code points below 256). *)
Definition isspace (c : ascii) : bool :=
  let n := nat_of_ascii c in
  ((9 <=? n)%nat && (n <=? 13)%nat) || ((28 <=? n)%nat && (n <=? 32)%nat)
  || (n =? 133)%nat || (n =? 160)%nat.

Fixpoint lstrip (s : string) : string :=
  match s with
  | EmptyString => EmptyString
  | String c s' => if isspace c then lstrip s' else s
  end.

Fixpoint rstrip (s : string) : string :=
  match s with
  | EmptyString => EmptyString
  | String c s' =>
      match rstrip s' with
      | EmptyString => if isspace c then EmptyString else String c EmptyString
      | r => String c r
      end
  end.

(** [s.strip()] *)
Definition strip (s : string) : string := rstrip (lstrip s).

(** [s.startswith(p)] *)
Definition startswith (s p : string) : bool := String.prefix p s.

(** [sep.join(ls)] *)
Definition join (sep : string) (ls : list string) : string :=
  String.concat sep ls.

(** [s.rpartition(sep)] for a one-character separator: the split is at
    the last occurrence; without one the result is [("", "", s)]. *)
Fixpoint rpartition (sep : ascii) (s : string) : string * string * string :=
  match s with
  | EmptyString => (EmptyString, EmptyString, EmptyString)
  | String c s' =>
      match rpartition sep s' with
      | (h, EmptyString, t) =>
          if decide (c = sep) then (EmptyString, String sep EmptyString, t)
          else (EmptyString, EmptyString, String c t)
      | (h, d, t) => (String c h, d, t)
      end
  end.

(** The boundaries of [str.splitlines]. *)
Definition is_linebreak (c : ascii) : bool :=
  let n := nat_of_ascii c in
  ((10 <=? n)%nat && (n <=? 13)%nat) || ((28 <=? n)%nat && (n <=? 30)%nat)
  || (n =? 133)%nat.

(** [s.splitlines(keepends=True)]; [cur] is the line being read, in
    reverse. A carriage return followed by a line feed is one boundary. *)
Fixpoint splitlines_go (cur : string) (s : string) : list string :=
  match s with
  | EmptyString =>
      match cur with EmptyString => [] | _ => [String.rev cur] end
  | String c s' =>
      if is_linebreak c then
        match s' with
        | String c' s'' =>
            if decide (c = "013"%char ∧ c' = lf)
            then String.rev (String c' (String c cur)) :: splitlines_go EmptyString s''
            else String.rev (String c cur) :: splitlines_go EmptyString s'
        | EmptyString => [String.rev (String c cur)]
        end
      else splitlines_go (String c cur) s'
  end.

Definition splitlines_keepends (s : string) : list string :=
  splitlines_go EmptyString s.

(** ["%s" % n] for an [int]. *)
Definition str_int (n : Z) : string := pretty n.

(** ["%s" % x] for a value that is [None] or a [str]. *)
Definition str_opt (x : option string) : string :=
  match x with Some s => s | None => "None" end.

End Py.

(** ** Exceptions and results *)

(** A Python exception: its class and the text [str(e)] gives. *)
Record Exception := mkException { exc_class : string; exc_str : string }.

Definition DataError (message : string) : Exception :=
  mkException "DataError" message.
Definition IndexError (sequence : string) : Exception :=
  mkException "IndexError" (sequence +:+ " index out of range").
Definition AttributeError (class_name attr : string) : Exception :=
  mkException "AttributeError"
    ("'" +:+ class_name +:+ "' object has no attribute '" +:+ attr +:+ "'").
Definition KeyError (key : string) : Exception :=
  mkException "KeyError" ("'" +:+ key +:+ "'").
Definition ValueError (message : string) : Exception :=
  mkException "ValueError" message.

(** The outcome of a call: a value, or a raised exception. *)
Inductive Result (A : Type) : Type :=
| Ok (a : A)
| Raise (e : Exception).
Arguments Ok {A} a.
Arguments Raise {A} e.

Definition is_Ok {A} (r : Result A) : bool :=
  match r with Ok _ => true | Raise _ => false end.

Definition rbind {A B} (r : Result A) (f : A → Result B) : Result B :=
  match r with Ok a => f a | Raise e => Raise e end.

(** ** The parsed model (robot.parsing.model) *)

(** robot.api.Token: the fields the interpreter reads. [lineno] is 1-based
    for a token of the source and -1 for a synthetic one. *)
Record Token := mkToken {
  type : string;
  value : string;
  lineno : Z;
  error : option string
}.

Module TokenType.
Definition EOL : string := "EOL".
Definition ERROR : string := "ERROR".
Definition FATAL_ERROR : string := "FATAL ERROR".
End TokenType.

(** [Token(type, value)]: the other fields take their defaults. *)
Definition Token_ (type value : string) : Token := mkToken type value (-1) None.

(** A node below a section. A [Statement] has [tokens] and no [body]
    (its class is [Error] for a line the parser marked, or [KeywordCall],
    [EmptyLine], [Comment] ...); a [Block] ([TestCase], [Keyword], [For],
    [If]) has a [body] and no [tokens], and its [_fields] are, in this
    order, header, body, orelse, end. *)
Inductive Node : Type :=
| Statement (class_name : string) (tokens : list Token)
| Block (class_name : string) (header : option Node) (body : list Node)
        (orelse : option Node) (end_ : option Node).

(** A section of a file; [sec_class] is [section.__class__.__name__]. *)
Record Section := mkSection {
  sec_class : string;
  sec_header : option Node;
  sec_body : list Node
}.

(** The model [get_model] returns. *)
Record File := mkFile { sections : list Section }.

(** [Statement.get_token(type)]: the first token of that type. *)
Definition get_token (tokens : list Token) (ty : string) : option Token :=
  List.find (λ t, bool_decide (type t = ty)) tokens.

(** [Statement.get_tokens(type)]: all tokens of that type, in order. *)
Definition get_tokens (tokens : list Token) (ty : string) : list Token :=
  List.filter (λ t, bool_decide (type t = ty)) tokens.

(** ** _CustomErrorReporter *)

Module _CustomErrorReporter.

Section Reporter.
(** [self.source] *)
Variable source : string.

Definition _format_message (token : Token) : string :=
  "Error in file '" +:+ source +:+ "' on line "
    +:+ Py.str_int (lineno token) +:+ ": " +:+ Py.str_opt (error token).

(** [visit_Error(node)]; [tokens] are the node's. *)
Definition visit_Error (tokens : list Token) : Result unit :=
  match get_token tokens TokenType.FATAL_ERROR with
  | Some fatal => Raise (DataError (_format_message fatal))
  | None =>
      match get_tokens tokens TokenType.ERROR with
      | error :: _ => Raise (DataError (_format_message error))
      | [] => Ok tt
      end
  end.

(** [NodeVisitor.visit]: a node of class [Error] goes to [visit_Error];
    every other node to [generic_visit], which visits the nodes in the
    fields of a block, in the order of [_fields], and finds none in a
    statement. [Error] is a class of statements; no block has it. *)
Fixpoint visit (node : Node) : Result unit :=
  let visit_field (f : option Node) : Result unit :=
    match f with Some n => visit n | None => Ok tt end in
  match node with
  | Statement cls tokens =>
      if decide (cls = "Error") then visit_Error tokens else Ok tt
  | Block _ header body orelse end_ =>
      rbind (visit_field header) (λ _,
      rbind ((fix visit_all (l : list Node) : Result unit :=
                match l with
                | [] => Ok tt
                | n :: l' => rbind (visit n) (λ _, visit_all l')
                end) body) (λ _,
      rbind (visit_field orelse) (λ _,
      visit_field end_)))
  end.

Fixpoint visit_all (l : list Node) : Result unit :=
  match l with
  | [] => Ok tt
  | n :: l' => rbind (visit n) (λ _, visit_all l')
  end.

Definition visit_field (f : option Node) : Result unit :=
  match f with Some n => visit n | None => Ok tt end.

Definition visit_Section (s : Section) : Result unit :=
  rbind (visit_field (sec_header s)) (λ _, visit_all (sec_body s)).

Fixpoint visit_sections (l : list Section) : Result unit :=
  match l with
  | [] => Ok tt
  | s :: l' => rbind (visit_Section s) (λ _, visit_sections l')
  end.

(** [visit(model)] on the file. *)
Definition visit_File (model : File) : Result unit :=
  visit_sections (sections model).

End Reporter.

End _CustomErrorReporter.

(** ** The collaborators of the interpreter *)

(** What [SettingsBuilder] and [SuiteBuilder] put into the new suite. *)
Record TestSuite (I V K T : Type) := mkTestSuite {
  imports : list I;
  variables : list V;
  keywords : list K;
  tests : list T
}.
Arguments mkTestSuite {I V K T}.
Arguments imports {I V K T}.
Arguments variables {I V K T}.
Arguments keywords {I V K T}.
Arguments tests {I V K T}.

(** [RobotFrameworkFacade]: the part of Robot Framework the interpreter
    calls. [Runtime] is the state of the running suite
    ([EXECUTION_CONTEXTS.current] and its namespace); an operation on it
    may raise, and what it did before raising stays done. The
    interpreter is called while the suite runs, so there is a current
    context. Stamping an import, a variable or a keyword with the
    in-memory source path is part of the operation that receives it.

    The parser may raise. The builders and the operations on the running
    suite also give the strings they wrote to [sys.__stderr__], one per
    call of [write], in order: during [evaluate] that stream is
    [self._stderr]. (What they write to [sys.__stdout__] goes to
    [self.on_stdout], which no method reads and the state leaves out.) *)
Class RobotFrameworkFacade := {
  Runtime : Type;
  ImportT : Type;
  VariableT : Type;
  UserKeywordT : Type;
  HandlerT : Type;
  TestT : Type;
  (** [get_model(StringIO(code), data_only=False, curdir=...)] *)
  get_model : string → Result File;
  (** [SettingsBuilder(new_suite, defaults).visit(model)] and then
      [SuiteBuilder(new_suite, defaults).visit(model)] *)
  build_suite :
    File → Result (TestSuite ImportT VariableT UserKeywordT TestT) * list string;
  (** [namespace._import(new_import)] *)
  _import : ImportT → Runtime → Result unit * Runtime * list string;
  (** [namespace.variables.set_from_variable_table(variables)] *)
  set_from_variable_table :
    list VariableT → Runtime → Result unit * Runtime * list string;
  (** [user_keywords._create_handler(kw)] *)
  _create_handler :
    UserKeywordT → Runtime → Result HandlerT * Runtime * list string;
  (** [isinstance(handler, facade.EmbeddedArgumentsHandler)] *)
  is_embedded : HandlerT → bool;
  (** [user_keywords.handlers.add(handler, embedded)] *)
  handlers_add :
    HandlerT → bool → Runtime → Result unit * Runtime * list string;
  (** [facade.run_test_body(context, test)] *)
  run_test_body : TestT → Runtime → Result unit * Runtime * list string
}.

(** ** RobotFrameworkInterpreter *)

(** [EvaluateTextTypedDict] *)
Record EvaluateTextTypedDict := mkEvaluateText {
  prefix : string;
  full_code : string
}.

(** [ActionResultDict] *)
Record ActionResultDict := mkActionResult {
  success : bool;
  message : option string;
  result : option unit
}.

(** [self._settings_section_name_to_block_mode], never assigned after
    [__init__]. *)
Definition _settings_section_name_to_block_mode : gmap string string :=
  {[ "SettingSection" := "*** Settings ***" +:+ Py.LF;
     "VariableSection" := "*** Variables ***" +:+ Py.LF;
     "TestCaseSection" :=
       "*** Test Case ***" +:+ Py.LF +:+ "Default Task/Test" +:+ Py.LF +:+ "    ";
     "KeywordSection" := "*** Keyword ***" +:+ Py.LF;
     "CommentSection" := "*** Comment ***" +:+ Py.LF ]}.

(** The block mode of a test case section, the one a new interpreter
    starts in. *)
Definition default_block_mode : string :=
  "*** Test Case ***" +:+ Py.LF +:+ "Default Task/Test" +:+ Py.LF +:+ "    ".

Section Interpreter.

Context {facade : RobotFrameworkFacade}.

(** [robotframework_interactive.ast_to_code.ast_to_code]: the text of a
    section. It reads the section and changes nothing. *)
Variable ast_to_code : Section → string.

(** [traceback.format_exc()] for the exception being handled. *)
Variable format_exc : Exception → string.

(** The attributes of the interpreter. [on_stderr_calls] lists the
    arguments of the calls of [self.on_stderr], oldest first: the calls
    the interpreter makes itself and the calls of [self._stderr.write].
    In [_doc_parts] a key maps to [None] as long as no section of that
    class was merged. *)
Record RobotFrameworkInterpreter := mkInterpreter {
  _last_section_name : string;
  _last_block_mode : string;
  _doc_parts : gmap string (option Section);
  on_stderr_calls : list string;
  runtime : Runtime
}.

(** A method: it reads and writes the attributes, and returns or raises. *)
Definition M (A : Type) : Type :=
  RobotFrameworkInterpreter → Result A * RobotFrameworkInterpreter.

#[export] Instance M_ret : MRet M := λ A a self, (Ok a, self).
#[export] Instance M_bind : MBind M := λ A B f m self,
  match m self with
  | (Ok a, self') => f a self'
  | (Raise e, self') => (Raise e, self')
  end.

Definition raise {A} (e : Exception) : M A := λ self, (Raise e, self).
Definition lift {A} (r : Result A) : M A := λ self, (r, self).
Definition gets {A} (f : RobotFrameworkInterpreter → A) : M A :=
  λ self, (Ok (f self), self).

Definition on_stderr (s : string) : M unit := λ self,
  (Ok tt, mkInterpreter (_last_section_name self) (_last_block_mode self)
            (_doc_parts self) (on_stderr_calls self ++ [s])%list (runtime self)).

Definition set_block_mode (block_mode section_name : string) : M unit :=
  λ self,
  (Ok tt, mkInterpreter section_name block_mode
            (_doc_parts self) (on_stderr_calls self) (runtime self)).

(** [self._doc_parts[name] = section], also the state of [_doc_parts]
    after a change made in place to the section stored at [name]. *)
Definition set_doc_part (name : string) (section : Section) : M unit :=
  λ self,
  (Ok tt, mkInterpreter (_last_section_name self) (_last_block_mode self)
            (<[name := Some section]> (_doc_parts self))
            (on_stderr_calls self) (runtime self)).

(** [_CustomStream.write] of [self._stderr], for each string of
    [written] in turn: [write(s)] is [self._on_output(s)], one call of
    [self.on_stderr]. ([flush] does nothing.) *)
Definition _stderr_write (written : list string)
    (self : RobotFrameworkInterpreter) : RobotFrameworkInterpreter :=
  mkInterpreter (_last_section_name self) (_last_block_mode self)
    (_doc_parts self) (on_stderr_calls self ++ written)%list (runtime self).

(** A call of the builders: what they wrote is on [on_stderr]. *)
Definition on_builders {A} (call : Result A * list string) : M A :=
  λ self, (call.1, _stderr_write call.2 self).

(** A call into the running suite: what it wrote is on [on_stderr]. *)
Definition on_runtime {A} (op : Runtime → Result A * Runtime * list string)
    : M A :=
  λ self,
  let '(r, rt, written) := op (runtime self) in
  (r, mkInterpreter (_last_section_name self) (_last_block_mode self)
        (_doc_parts self) (on_stderr_calls self ++ written)%list rt).

(** [for x in l: body(x)] *)
Fixpoint for_each {A} (l : list A) (body : A → M unit) : M unit :=
  match l with
  | [] => mret tt
  | x :: l' => body x ;; for_each l' body
  end.

(** [__init__]: the state of a new interpreter over a running suite. *)
Definition __init__ (rt : Runtime) : RobotFrameworkInterpreter :=
  mkInterpreter "TestCaseSection"
    (default "" (_settings_section_name_to_block_mode !! "TestCaseSection"))
    {[ "CommentSection" := None; "SettingSection" := None;
       "VariableSection" := None; "TestCaseSection" := None;
       "KeywordSection" := None ]}
    [] rt.

(** *** Rendering the document *)

(** [sections.remove(x)]: the first occurrence goes. *)
Fixpoint list_remove (x : string) (l : list string) : Result (list string) :=
  match l with
  | [] => Raise (ValueError "list.remove(x): x not in list")
  | y :: l' =>
      if decide (y = x) then Ok l'
      else rbind (list_remove x l') (λ r, Ok (y :: r))
  end.

Definition default_sections : list string :=
  ["CommentSection"; "SettingSection"; "VariableSection";
   "KeywordSection"; "TestCaseSection"].

(** The loop of [_compute_full_doc] over [sections]. *)
Fixpoint collect_parts (doc_parts : gmap string (option Section))
    (sections : list string) (full_doc : list string) : Result (list string) :=
  match sections with
  | [] => Ok full_doc
  | part :: rest =>
      match doc_parts !! part with
      | None => Raise (KeyError part)
      | Some None => collect_parts doc_parts rest full_doc
      | Some (Some part_as_ast) =>
          let as_code := Py.strip (ast_to_code part_as_ast) in
          if decide (as_code = "") then collect_parts doc_parts rest full_doc
          else collect_parts doc_parts rest (full_doc ++ [as_code])%list
      end
  end.

Definition _compute_full_doc (last_section_name : string) : M string :=
  sections ← lift (if decide (last_section_name = "") then Ok default_sections
                   else rbind (list_remove last_section_name default_sections)
                          (λ l, Ok (l ++ [last_section_name])%list));
  doc_parts ← gets _doc_parts;
  full_doc ← lift (collect_parts doc_parts sections []);
  mret (Py.strip (Py.join Py.LF full_doc)).

(** The property [full_doc]. *)
Definition full_doc : M string := _compute_full_doc "".

(** *** The text to evaluate or to complete *)

(** The loop over [last_line] that collects its leading tabs and spaces. *)
Fixpoint leading_whitespaces (last_line : string) : string :=
  match last_line with
  | String c rest =>
      if decide (c = Py.tab ∨ c = " "%char)
      then String c (leading_whitespaces rest)
      else EmptyString
  | EmptyString => EmptyString
  end.

Definition compute_evaluate_text (code target_type : string)
    : M EvaluateTextTypedDict :=
  if decide (target_type = "completions") then
    if Py.startswith (Py.strip code) "***" then
      doc ← full_doc;
      let prefix := doc +:+ Py.LF in
      mret (mkEvaluateText prefix (prefix +:+ code))
    else
      last_section_name ← gets _last_section_name;
      doc_parts ← gets _doc_parts;
      let has_section :=
        match doc_parts !! last_section_name with
        | Some (Some _) => true
        | _ => false
        end in
      if has_section then
        prefix ← _compute_full_doc last_section_name;
        let '(first_part, delimiter, last_line) := Py.rpartition Py.lf prefix in
        if decide (delimiter ≠ "") then
          let indent := leading_whitespaces last_line in
          let prefix :=
            first_part +:+ delimiter +:+ last_line +:+ Py.LF +:+ indent in
          mret (mkEvaluateText prefix (prefix +:+ code))
        else
          mret (mkEvaluateText prefix (prefix +:+ Py.LF +:+ code))
      else
        doc ← full_doc;
        last_block_mode ← gets _last_block_mode;
        let prefix := doc +:+ Py.LF +:+ last_block_mode in
        mret (mkEvaluateText prefix (prefix +:+ code))
  else
    if negb (Py.startswith (Py.strip code) "***") then
      last_block_mode ← gets _last_block_mode;
      mret (mkEvaluateText last_block_mode (last_block_mode +:+ code))
    else
      mret (mkEvaluateText "" code).

(** *** Evaluation *)

(** [l[:-1]] and [l[-1]] of a list that is not empty. *)
Fixpoint unsnoc {A} (l : list A) : option (list A * A) :=
  match l with
  | [] => None
  | x :: l' =>
      match unsnoc l' with
      | None => Some ([], x)
      | Some (init, y) => Some (x :: init, y)
      end
  end.

(** [for test_case in section.body: current.body.extend(test_case.body)]:
    the body of [current] when the loop ends or raises. A statement has
    no [body]. *)
Fixpoint extend_with_bodies (current_body section_body : list Node)
    : Result unit * list Node :=
  match section_body with
  | [] => (Ok tt, current_body)
  | Block _ _ body _ _ :: rest =>
      extend_with_bodies (current_body ++ body)%list rest
  | Statement cls _ :: _ => (Raise (AttributeError cls "body"), current_body)
  end.

(** The end of the merge, on the tokens of the last statement: an empty
    last [EOL] becomes a line feed, and otherwise an [EOL] token with a
    line feed is added. *)
Definition ensure_last_eol (tokens : list Token) : Result (list Token) :=
  match unsnoc tokens with
  | None => Raise (IndexError "tuple")
  | Some (init, last_token) =>
      if decide (type last_token = TokenType.EOL ∧ value last_token = "")
      then Ok (init ++ [mkToken (type last_token) Py.LF
                          (lineno last_token) (error last_token)])%list
      else Ok (tokens ++ [Token_ "EOL" Py.LF])%list
  end.

(** The walk [while not hasattr(last_in_body, "tokens"):
    last_in_body = last_in_body.body[-1]] from a node, and the change of
    the statement it ends at. *)
Fixpoint ensure_last_eol_node (last_in_body : Node) : Result Node :=
  match last_in_body with
  | Statement cls tokens =>
      rbind (ensure_last_eol tokens) (λ tokens', Ok (Statement cls tokens'))
  | Block cls header body orelse end_ =>
      rbind ((fix in_body (l : list Node) : Result (list Node) :=
                match l with
                | [] => Raise (IndexError "list")
                | n :: l' =>
                    match l' with
                    | [] => rbind (ensure_last_eol_node n) (λ n', Ok [n'])
                    | _ :: _ => rbind (in_body l') (λ r, Ok (n :: r))
                    end
                end) body)
        (λ body', Ok (Block cls header body' orelse end_))
  end.

(** The same from [current.body[-1]]. *)
Fixpoint ensure_last_eol_body (body : list Node) : Result (list Node) :=
  match body with
  | [] => Raise (IndexError "list")
  | n :: l' =>
      match l' with
      | [] => rbind (ensure_last_eol_node n) (λ n', Ok [n'])
      | _ :: _ => rbind (ensure_last_eol_body l') (λ r, Ok (n :: r))
      end
  end.

Definition with_body (s : Section) (body : list Node) : Section :=
  mkSection (sec_class s) (sec_header s) body.

(** One round of the loop [for section in model.sections] that updates
    [_doc_parts]. The lists of the stored section change in place, so
    [_doc_parts] is written before each point that can raise. *)
Definition merge_section (section : Section) : M unit :=
  let section_name := sec_class section in
  match sec_body section with
  | [] => mret tt
  | _ :: _ =>
      doc_parts ← gets _doc_parts;
      match doc_parts !! section_name with
      | None => mret tt
      | Some None =>
          set_doc_part section_name section;;
          body ← lift (ensure_last_eol_body (sec_body section));
          set_doc_part section_name (with_body section body)
      | Some (Some current) =>
          if decide (sec_class current = "TestCaseSection") then
            match unsnoc (sec_body current) with
            | None => raise (IndexError "list")
            | Some (_, Statement cls _) => raise (AttributeError cls "body")
            | Some (init, Block cls header body orelse end_) =>
                let '(r, body) := extend_with_bodies body (sec_body section) in
                let stored body :=
                  with_body current
                    (init ++ [Block cls header body orelse end_])%list in
                set_doc_part section_name (stored body);;
                lift r;;
                body' ← lift (ensure_last_eol_body body);
                set_doc_part section_name (stored body')
            end
          else
            let body := (sec_body current ++ sec_body section)%list in
            set_doc_part section_name (with_body current body);;
            body' ← lift (ensure_last_eol_body body);
            set_doc_part section_name (with_body current body')
      end
  end.

(** The part of [_evaluate] that handles what the builders loaded and
    runs the test content. *)
Definition dispatch (model : File) : M unit :=
  new_suite ← on_builders (build_suite model);
  for_each (imports new_suite) (λ new_import,
    on_runtime (_import new_import));;
  match variables new_suite with
  | [] => mret tt
  | _ :: _ => on_runtime (set_from_variable_table (variables new_suite))
  end;;
  for_each (keywords new_suite) (λ kw,
    handler ← on_runtime (_create_handler kw);
    on_runtime (handlers_add handler (is_embedded handler)));;
  for_each (tests new_suite) (λ test, on_runtime (run_test_body test)).

(** The code [_evaluate] parses: a fragment that does not start a
    section gets the block mode in front. *)
Definition code_to_parse (code : string) (self : RobotFrameworkInterpreter)
    : string :=
  if negb (Py.startswith (Py.strip code) "***")
  then _last_block_mode self +:+ code else code.

Definition no_sections_msg : string :=
  "Unable to interpret: no sections found.".

Definition _evaluate (code : string) : M ActionResultDict :=
  code ← gets (code_to_parse code);
  model ← lift (get_model code);
  match sections model with
  | [] =>
      on_stderr no_sections_msg;;
      mret (mkActionResult false
              (Some ("Error while evaluating: " +:+ no_sections_msg)) None)
  | _ :: _ =>
      lift (_CustomErrorReporter.visit_File code model);;
      let last_section_name := "TestCaseSection" in
      match _settings_section_name_to_block_mode !! last_section_name with
      | None =>
          on_stderr ("Unable to find block mode for: " +:+ last_section_name)
      | Some block_mode => set_block_mode block_mode last_section_name
      end;;
      dispatch model;;
      for_each (sections model) merge_section;;
      mret (mkActionResult true None None)
  end.

(** [evaluate]: every exception of [_evaluate] is caught; its trace goes
    to [on_stderr] line by line. (While [_evaluate] runs,
    [sys.__stdout__] and [sys.__stderr__] are [self._stdout] and
    [self._stderr]: this is why what Robot Framework writes reaches
    [on_stderr]. The [finally] clause puts the streams back.) *)
Definition evaluate (code : string) (self : RobotFrameworkInterpreter)
    : ActionResultDict * RobotFrameworkInterpreter :=
  match _evaluate code self with
  | (Ok r, self') => (r, self')
  | (Raise e, self') =>
      let s := format_exc e in
      let self'' :=
        if decide (s = "") then self'
        else (for_each (Py.splitlines_keepends s) on_stderr self').2 in
      (mkActionResult false
         (Some ("Error while evaluating: " +:+ exc_str e)) None, self'')
  end.

End Interpreter.

Arguments RobotFrameworkInterpreter : clear implicits.
Arguments RobotFrameworkInterpreter {facade}.

(** ** A small instance of the collaborators

    A parser that knows a handful of fragments, a running suite that logs
    what it is asked to run, and the text of a section. They give the
    general statements below concrete inputs to run on. The trees are
    shaped as Robot Framework builds them: a section has its header
    statement and a body; a test case is a block with its name statement
    as header and the statements of its lines as body; the tokens of a
    line end with an [EOL] token that holds the line end of the text, and
    is empty when the text stops without one. *)

Module Demo.

Definition tok (ty v : string) (line : Z) : Token := mkToken ty v line None.

Definition section_header (text eol : string) : Node :=
  Statement "SectionHeader" [tok "TESTCASE HEADER" text 1; tok "EOL" eol 1].

Definition test_name (name eol : string) : Node :=
  Statement "TestCaseName" [tok "TESTCASE NAME" name 2; tok "EOL" eol 2].

Definition keyword_call (name arg eol : string) : Node :=
  Statement "KeywordCall"
    [tok "SEPARATOR" "    " 3; tok "KEYWORD" name 3; tok "SEPARATOR" "    " 3;
     tok "ARGUMENT" arg 3; tok "EOL" eol 3].

(** The tree of a test section with one test. *)
Definition test_section (header name eol name_eol : string)
    (body : list Node) : Section :=
  mkSection "TestCaseSection" (Some (section_header header eol))
    [Block "TestCase" (Some (test_name name name_eol)) body None None].

Definition default_test (body : list Node) : File :=
  mkFile
    [test_section "*** Test Case ***" "Default Task/Test" Py.LF Py.LF body].

Definition CR : string := String "013"%char EmptyString.

(** The fragments the parser knows, as [evaluate] hands them over: three
    bare keyword calls, a keyword call followed by a line feed, a test
    case section whose test has a name and no body, and one whose lines
    end with carriage returns. *)
Definition log_a : string := default_block_mode +:+ "Log    a".
Definition log_b : string := default_block_mode +:+ "Log    b".
Definition log_a_newline : string :=
  default_block_mode +:+ "Log    a" +:+ Py.LF.
Definition fail_now : string := default_block_mode +:+ "Fail    now".
Definition test_without_body : string := "*** Test Cases ***" +:+ Py.LF +:+ "T".
Definition test_with_cr : string :=
  "*** Test Cases ***" +:+ CR +:+ "T" +:+ CR +:+ "    Log    x".

Definition parse (code : string) : File :=
  if decide (code = log_a) then default_test [keyword_call "Log" "a" ""]
  else if decide (code = log_b) then default_test [keyword_call "Log" "b" ""]
  else if decide (code = log_a_newline)
  then default_test [keyword_call "Log" "a" Py.LF]
  else if decide (code = fail_now)
  then default_test [keyword_call "Fail" "now" ""]
  else if decide (code = test_without_body)
  then mkFile [test_section "*** Test Cases ***" "T" Py.LF "" []]
  else if decide (code = test_with_cr)
  then mkFile [test_section "*** Test Cases ***" "T" CR CR
                 [keyword_call "Log" "x" ""]]
  else mkFile [].

(** The values of the tokens of a node, in document order. *)
Fixpoint node_code (n : Node) : string :=
  match n with
  | Statement _ tokens => String.concat "" (value <$> tokens)
  | Block _ header body orelse end_ =>
      from_option node_code "" header
      +:+ String.concat "" (List.map node_code body)
      +:+ from_option node_code "" orelse
      +:+ from_option node_code "" end_
  end.

(** Modelled from the spec: [ast_to_code] is not among the sources. The
    spec has the document model render a section back to text; here that
    is the values of its tokens in document order. *)
Definition ast_to_code (s : Section) : string :=
  from_option node_code "" (sec_header s)
  +:+ String.concat "" (List.map node_code (sec_body s)).

Definition format_exc (e : Exception) : string :=
  "Traceback (most recent call last):" +:+ Py.LF
  +:+ exc_class e +:+ ": " +:+ exc_str e +:+ Py.LF.

(** The bodies of the tests of a model. *)
Definition test_bodies (model : File) : list (list Node) :=
  s ← sections model;
  if decide (sec_class s = "TestCaseSection") then
    n ← sec_body s;
    match n with
    | Block _ _ body _ _ => [body]
    | Statement _ _ => []
    end
  else [].

Definition calls_Fail (n : Node) : bool :=
  match n with
  | Statement _ tokens =>
      existsb (λ t, bool_decide (type t = "KEYWORD" ∧ value t = "Fail"))
        tokens
  | Block _ _ _ _ _ => false
  end.

(** The running suite keeps the texts it ran; a body that calls [Fail]
    raises. Nothing is written to the error stream. *)
Definition run (body : list Node) (rt : list string)
    : Result unit * list string * list string :=
  if existsb calls_Fail body
  then (Raise (mkException "ExecutionFailed" "now"), rt, [])
  else (Ok tt, (rt ++ [String.concat "" (List.map node_code body)])%list, []).

#[export] Instance facade : RobotFrameworkFacade := {|
  Runtime := list string;
  ImportT := string;
  VariableT := string;
  UserKeywordT := string;
  HandlerT := string;
  TestT := list Node;
  get_model code := Ok (parse code);
  build_suite model := (Ok (mkTestSuite [] [] [] (test_bodies model)), []);
  _import i rt := (Ok tt, rt, []);
  set_from_variable_table vs rt := (Ok tt, rt, []);
  _create_handler kw rt := (Ok kw, rt, []);
  is_embedded h := false;
  handlers_add h embedded rt := (Ok tt, rt, []);
  run_test_body := run
|}.

(** A new interpreter, and the calls on it. *)
Definition new : RobotFrameworkInterpreter := __init__ [].
Definition eval (code : string) (self : RobotFrameworkInterpreter)
    : ActionResultDict * RobotFrameworkInterpreter :=
  evaluate format_exc code self.
Definition doc (self : RobotFrameworkInterpreter) : Result string :=
  (full_doc ast_to_code self).1.

End Demo.

(** * The vocabulary of the properties *)

(** ** Strings and trees *)

(** Whether a character occurs in a string. *)
Fixpoint contains (c : ascii) (s : string) : bool :=
  match s with
  | EmptyString => false
  | String x s' => bool_decide (x = c) || contains c s'
  end.

(** The tabs and spaces a line ends with. *)
Definition trailing_whitespace (line : string) : string :=
  String.rev (leading_whitespaces (String.rev line)).

(** The number of line feeds a text starts with, and ends with. *)
Fixpoint line_feeds_at_start (s : string) : nat :=
  match s with
  | EmptyString => 0
  | String c s' =>
      if decide (c = Py.lf) then S (line_feeds_at_start s') else 0
  end.

Definition line_feeds_at_end (s : string) : nat :=
  line_feeds_at_start (String.rev s).

(** The text of a statement: the values of its tokens. *)
Definition statement_text (tokens : list Token) : string :=
  String.concat "" (value <$> tokens).

(** Induction on nodes that reaches the nodes in the fields of a block. *)
Section NodeInduction.

Variable P : Node → Prop.
Hypothesis P_Statement : ∀ cls tokens, P (Statement cls tokens).
Hypothesis P_Block : ∀ cls header body orelse end_,
  (∀ n, header = Some n → P n) → Forall P body →
  (∀ n, orelse = Some n → P n) → (∀ n, end_ = Some n → P n) →
  P (Block cls header body orelse end_).

Fixpoint Node_induction (n : Node) : P n :=
  match n with
  | Statement cls tokens => P_Statement cls tokens
  | Block cls header body orelse end_ =>
      let field (f : option Node) : ∀ m, f = Some m → P m :=
        match f with
        | Some k => λ m (H : Some k = Some m),
            eq_ind k P (Node_induction k) m (f_equal (from_option id k) H)
        | None => λ m (H : None = Some m),
            False_ind (P m) (eq_ind None (λ o, if o is Some _ then False else True) I _ H)
        end in
      P_Block cls header body orelse end_ (field header)
        ((fix all (l : list Node) : Forall P l :=
            match l with
            | [] => @List.Forall_nil _ P
            | m :: l' => @List.Forall_cons _ P m l' (Node_induction m) (all l')
            end) body)
        (field orelse) (field end_)
  end.

End NodeInduction.

(** ** Validation *)

(** The token lists of the [Error] statements below a node, in document
    order: header, body, orelse, end. *)
Fixpoint error_statements (n : Node) : list (list Token) :=
  match n with
  | Statement cls tokens => if decide (cls = "Error") then [tokens] else []
  | Block _ header body orelse end_ =>
      from_option error_statements [] header
      ++ flat_map error_statements body
      ++ from_option error_statements [] orelse
      ++ from_option error_statements [] end_
  end%list.

Definition section_error_statements (s : Section) : list (list Token) :=
  (from_option error_statements [] (sec_header s)
   ++ flat_map error_statements (sec_body s))%list.

Definition file_error_statements (model : File) : list (list Token) :=
  flat_map section_error_statements (sections model).

(** The marker of an [Error] statement that is reported: its first fatal
    one, and without a fatal one its first recoverable one. *)
Definition reported_marker (tokens : list Token) : option Token :=
  match get_token tokens TokenType.FATAL_ERROR with
  | Some fatal => Some fatal
  | None => head (get_tokens tokens TokenType.ERROR)
  end.

(** The marker of the first statement that has one. *)
Fixpoint first_reported (l : list (list Token)) : option Token :=
  match l with
  | [] => None
  | tokens :: l' =>
      match reported_marker tokens with
      | Some marker => Some marker
      | None => first_reported l'
      end
  end.

(** The first fatal marker anywhere in the tree, in document order. *)
Definition first_fatal_anywhere (model : File) : option Token :=
  get_token (concat (file_error_statements model)) TokenType.FATAL_ERROR.

(** The outcome of the validation for the marker it found. *)
Definition raise_marker (source : string) (marker : option Token)
    : Result unit :=
  match marker with
  | None => Ok tt
  | Some token =>
      Raise (DataError (_CustomErrorReporter._format_message source token))
  end.

(** A settings section with an unknown setting on line 2 and, on line 3,
    the header of a section the file may not have: the first is a
    recoverable marker, the second a fatal one (the parser marks the
    header of a test case section so in a resource file). Both lines are
    [Error] statements of the settings section. *)
Definition unknown_setting : Token :=
  mkToken "ERROR" "Foo" 2 (Some "Non-existing setting 'Foo'.").
Definition invalid_section : Token :=
  mkToken "FATAL ERROR" "*** Test Cases ***" 3
    (Some "Resource file with 'Test Cases' section is invalid.").
Definition recoverable_before_fatal : File :=
  mkFile
    [mkSection "SettingSection"
       (Some (Statement "SectionHeader"
                [mkToken "SETTING HEADER" "*** Settings ***" 1 None;
                 mkToken "EOL" Py.LF 1 None]))
       [Statement "Error"
          [unknown_setting; mkToken "SEPARATOR" "    " 2 None;
           mkToken "ARGUMENT" "bar" 2 None; mkToken "EOL" Py.LF 2 None];
        Statement "Error" [invalid_section; mkToken "EOL" Py.LF 3 None]]].

(** ** Statements and the document parts *)

(** Tokens without the line-end tokens they end with. *)
Fixpoint without_trailing_eol (tokens : list Token) : list Token :=
  match tokens with
  | [] => []
  | t :: l =>
      match without_trailing_eol l with
      | [] => if decide (type t = TokenType.EOL) then [] else [t]
      | r => t :: r
      end
  end.

(** The statements below a node in document order, each with its class
    and its tokens up to the line end. *)
Fixpoint statements (n : Node) : list (string * list Token) :=
  match n with
  | Statement cls tokens => [(cls, without_trailing_eol tokens)]
  | Block _ header body orelse end_ =>
      from_option statements [] header
      ++ flat_map statements body
      ++ from_option statements [] orelse
      ++ from_option statements [] end_
  end%list.

Definition section_statements (s : Section) : list (string * list Token) :=
  (from_option statements [] (sec_header s)
   ++ flat_map statements (sec_body s))%list.

(** The tokens of the statement the walk
    [while not hasattr(last_in_body, "tokens")] ends at. *)
Fixpoint last_statement (n : Node) : option (list Token) :=
  match n with
  | Statement _ tokens => Some tokens
  | Block _ _ body _ _ =>
      (fix in_body (l : list Node) : option (list Token) :=
         match l with
         | [] => None
         | m :: l' =>
             match l' with
             | [] => last_statement m
             | _ :: _ => in_body l'
             end
         end) body
  end.

Fixpoint last_statement_of (body : list Node) : option (list Token) :=
  match body with
  | [] => None
  | m :: l' =>
      match l' with
      | [] => last_statement m
      | _ :: _ => last_statement_of l'
      end
  end.

(** [node.body] of a block. *)
Definition node_body (n : Node) : list Node :=
  match n with
  | Block _ _ body _ _ => body
  | Statement _ _ => []
  end.

(** What the walk does to a node or a body: the statement it ends at gets
    its line end, and nothing else changes. *)
Definition walk_ok (n : Node) : Prop :=
  ∀ n', ensure_last_eol_node n = Ok n' →
    statements n' = statements n
    ∧ ∃ tokens tokens', last_statement n = Some tokens
        ∧ ensure_last_eol tokens = Ok tokens'
        ∧ last_statement n' = Some tokens'.

(** The document parts only grow: a section that is there stays, with its
    class, and its statements stay, in their order. *)
Definition grows (parts parts' : gmap string (option Section)) : Prop :=
  ∀ k acc, parts !! k = Some (Some acc) →
    ∃ acc', parts' !! k = Some (Some acc')
            ∧ sec_class acc' = sec_class acc
            ∧ section_statements acc `sublist_of` section_statements acc'.

(** The keys of the document parts stay. *)
Definition keeps_keys (parts parts' : gmap string (option Section)) : Prop :=
  ∀ k, is_Some (parts !! k) → is_Some (parts' !! k).

(** The body the last step of a merge starts its walk from. *)
Definition merged_body (section : Section) (stored : option Section)
    : list Node :=
  match stored with
  | None => sec_body section
  | Some current =>
      if decide (sec_class current = "TestCaseSection") then
        match unsnoc (sec_body current) with
        | Some (_, Block _ _ body _ _) =>
            (body ++ flat_map node_body (sec_body section))%list
        | _ => []
        end
      else (sec_body current ++ sec_body section)%list
  end.

(** Where a successful merge into a stored section puts the statements of
    the new section: after the ones that were there. For test cases this
    is said for a last entry with a header and a body only, as a test case
    is. *)
Definition appended (current section acc' : Section) : Prop :=
  (sec_class current ≠ "TestCaseSection" →
     section_statements acc'
     = (section_statements current
        ++ flat_map statements (sec_body section))%list)
  ∧ (sec_class current = "TestCaseSection" →
     ∀ init cls header body,
       sec_body current = (init ++ [Block cls header body None None])%list →
       section_statements acc'
       = (section_statements current
          ++ flat_map statements (flat_map node_body (sec_body section)))%list).

(** The text of a stored section in the rendered document, when it has
    one. *)
Definition rendered (ast_to_code : Section → string)
    (parts : gmap string (option Section)) (name : string) : option string :=
  match parts !! name with
  | Some (Some part_as_ast) =>
      let as_code := Py.strip (ast_to_code part_as_ast) in
      if decide (as_code = "") then None else Some as_code
  | _ => None
  end.

(** The document in the fixed order of the section kinds. *)
Definition fixed_order_document (ast_to_code : Section → string)
    (parts : gmap string (option Section)) : string :=
  Py.strip (Py.join Py.LF
    (omap (rendered ast_to_code parts)
       ["CommentSection"; "SettingSection"; "VariableSection";
        "KeywordSection"; "TestCaseSection"])).

(** ** States and calls *)

Section Vocabulary.

Context {facade : RobotFrameworkFacade}.
Variable ast_to_code : Section → string.
Variable format_exc : Exception → string.

(** The states of an interpreter during a session: the state after
    [__init__], and the state after any call of [evaluate] or
    [compute_evaluate_text] in such a state. *)
Inductive reachable : RobotFrameworkInterpreter → Prop :=
| reachable_init rt : reachable (__init__ rt)
| reachable_evaluate code self :
    reachable self → reachable (evaluate format_exc code self).2
| reachable_compute code target_type self :
    reachable self →
    reachable (compute_evaluate_text ast_to_code code target_type self).2.

(** BlockModeState: the current section kind and block prefix. *)
Definition block_mode_state (self : RobotFrameworkInterpreter)
    : string * string :=
  (_last_section_name self, _last_block_mode self).

(** Two states that differ at most in the running suite and in what it
    wrote to the error stream since. *)
Definition same_but_runtime (s s' : RobotFrameworkInterpreter) : Prop :=
  _doc_parts s' = _doc_parts s ∧ block_mode_state s' = block_mode_state s
  ∧ on_stderr_calls s `prefix_of` on_stderr_calls s'.

(** Two states that differ at most in the document parts. *)
Definition same_but_doc (s s' : RobotFrameworkInterpreter) : Prop :=
  runtime s' = runtime s ∧ block_mode_state s' = block_mode_state s
  ∧ on_stderr_calls s' = on_stderr_calls s.

(** Two states that differ at most in what went to [on_stderr]. *)
Definition same_but_stderr (s s' : RobotFrameworkInterpreter) : Prop :=
  runtime s' = runtime s ∧ block_mode_state s' = block_mode_state s
  ∧ _doc_parts s' = _doc_parts s.

(** The state with other document parts. *)
Definition with_parts (self : RobotFrameworkInterpreter)
    (parts : gmap string (option Section)) : RobotFrameworkInterpreter :=
  mkInterpreter (_last_section_name self) (_last_block_mode self) parts
    (on_stderr_calls self) (runtime self).

(** Where a call of [evaluate] fails: the parser raised; the model has
    no sections; the error reporter raised; a builder, an import, a
    registration or a test body raised; the update of the document parts
    raised. *)
Inductive Phase : Type :=
| Parse
| EmptyInput
| Validation
| Execution
| Merge.

(** The state after the block mode was assigned in [_evaluate]. *)
Definition with_default_block_mode (self : RobotFrameworkInterpreter)
    : RobotFrameworkInterpreter :=
  (set_block_mode default_block_mode "TestCaseSection" self).2.

(** The phase in which [evaluate code] fails in state [self], if it does. *)
Definition failure_phase (code : string) (self : RobotFrameworkInterpreter)
    : option Phase :=
  let code := code_to_parse code self in
  match get_model code with
  | Raise _ => Some Parse
  | Ok model =>
      match sections model with
      | [] => Some EmptyInput
      | _ :: _ =>
          match _CustomErrorReporter.visit_File code model with
          | Raise _ => Some Validation
          | Ok _ =>
              match dispatch model (with_default_block_mode self) with
              | (Raise _, _) => Some Execution
              | (Ok _, self') =>
                  match for_each (sections model) merge_section self' with
                  | (Raise _, _) => Some Merge
                  | (Ok _, _) => None
                  end
              end
          end
      end
  end.

(** The answer of a method in a state. *)
Definition answer {A} (m : M A) (self : RobotFrameworkInterpreter) : Result A :=
  (m self).1.

(** Whether the current section has history. *)
Definition has_section (self : RobotFrameworkInterpreter) : Prop :=
  ∃ current, _doc_parts self !! _last_section_name self = Some (Some current).

(** [evaluate] on one fragment after the other. *)
Fixpoint evaluate_all (codes : list string) (self : RobotFrameworkInterpreter)
    : RobotFrameworkInterpreter :=
  match codes with
  | [] => self
  | code :: codes' => evaluate_all codes' (evaluate format_exc code self).2
  end.

(** Both, between two states. *)
Definition parts_grow (s s' : RobotFrameworkInterpreter) : Prop :=
  grows (_doc_parts s) (_doc_parts s')
  ∧ keeps_keys (_doc_parts s) (_doc_parts s').

End Vocabulary.

(** ** Concrete states *)

(** The state after ["Log    a"], and after ["Log    b"] then. *)
Definition after_log_a : RobotFrameworkInterpreter :=
  (Demo.eval "Log    a" Demo.new).2.
Definition after_log_b : RobotFrameworkInterpreter :=
  (Demo.eval "Log    b" after_log_a).2.

(** The document after ["Log    a"]. *)
Definition doc_log_a : string :=
  "*** Test Case ***" +:+ Py.LF +:+ "Default Task/Test" +:+ Py.LF
  +:+ "    Log    a".

(** The section the parser gives for ["Log    b"]. *)
Definition section_log_b : Section :=
  Demo.test_section "*** Test Case ***" "Default Task/Test" Py.LF Py.LF
    [Demo.keyword_call "Log" "b" ""].

(** The stored test cases after ["Log    a"]. *)
Definition stored_log_a : Section :=
  Demo.test_section "*** Test Case ***" "Default Task/Test" Py.LF Py.LF
    [Demo.keyword_call "Log" "a" Py.LF].

(** The state after a test case section whose lines end with carriage
    returns: its rendered document has no line feed. *)
Definition after_test_with_cr : RobotFrameworkInterpreter :=
  (Demo.eval Demo.test_with_cr Demo.new).2.

(** The operations of the monad, unfolded. *)
Ltac unfold_M :=
  unfold mbind, M_bind, mret, M_ret, lift, gets, raise, on_stderr,
    set_block_mode, set_doc_part, on_runtime in *.

(** ** A second instance

    The parser of this instance also knows: two fragments that start a
    settings section (a header without a line, and a header followed by a
    setting that does not exist, which the parser turns into an [Error]
    statement with a recoverable marker); a bare [FOR] loop whose [END]
    is the end of the text; a test case section with a comment line
    before its test; and a bare fragment that writes to the error stream
    and fails then. The running suite knows [Fail] and
    [Log To Console] with [stream=STDERR], which writes its message and a
    line feed to [sys.__stderr__]. *)

Module Probe.

Definition settings_header (eol : string) : Node :=
  Statement "SectionHeader"
    [Demo.tok "SETTING HEADER" "*** Settings ***" 1; Demo.tok "EOL" eol 1].

Definition settings_only : string := "*** Settings ***".
Definition settings_unknown : string :=
  "*** Settings ***" +:+ Py.LF +:+ "Foo    bar".

(** A loop: a block with a header, a body and an end. *)
Definition for_loop_text : string :=
  "FOR    ${i}    IN    1    2" +:+ Py.LF
  +:+ "        Log    ${i}" +:+ Py.LF
  +:+ "    END".
Definition for_loop : string := default_block_mode +:+ for_loop_text.
Definition for_block : Node :=
  Block "For"
    (Some (Statement "ForHeader"
             [Demo.tok "SEPARATOR" "    " 3; Demo.tok "FOR" "FOR" 3;
              Demo.tok "SEPARATOR" "    " 3; Demo.tok "VARIABLE" "${i}" 3;
              Demo.tok "SEPARATOR" "    " 3; Demo.tok "FOR SEPARATOR" "IN" 3;
              Demo.tok "SEPARATOR" "    " 3; Demo.tok "ARGUMENT" "1" 3;
              Demo.tok "SEPARATOR" "    " 3; Demo.tok "ARGUMENT" "2" 3;
              Demo.tok "EOL" Py.LF 3]))
    [Statement "KeywordCall"
       [Demo.tok "SEPARATOR" "        " 4; Demo.tok "KEYWORD" "Log" 4;
        Demo.tok "SEPARATOR" "    " 4; Demo.tok "ARGUMENT" "${i}" 4;
        Demo.tok "EOL" Py.LF 4]]
    None
    (Some (Statement "End"
             [Demo.tok "SEPARATOR" "    " 5; Demo.tok "END" "END" 5;
              Demo.tok "EOL" "" 5])).

(** A comment line between the header of the section and the test: the
    comment is an entry of the section, before the test. *)
Definition comment_before_test : string :=
  "*** Test Cases ***" +:+ Py.LF +:+ "# note" +:+ Py.LF
  +:+ "T" +:+ Py.LF +:+ "    Log    b".
Definition comment_line : Node :=
  Statement "Comment"
    [Demo.tok "COMMENT" "# note" 2; Demo.tok "EOL" Py.LF 2].
Definition test_after_comment : Node :=
  Block "TestCase"
    (Some (Statement "TestCaseName"
             [Demo.tok "TESTCASE NAME" "T" 3; Demo.tok "EOL" Py.LF 3]))
    [Statement "KeywordCall"
       [Demo.tok "SEPARATOR" "    " 4; Demo.tok "KEYWORD" "Log" 4;
        Demo.tok "SEPARATOR" "    " 4; Demo.tok "ARGUMENT" "b" 4;
        Demo.tok "EOL" "" 4]]
    None None.

(** A message to the error stream, and a failure after it. *)
Definition console_then_fail_text : string :=
  "Log To Console    x    stream=STDERR" +:+ Py.LF +:+ "    Fail    now".
Definition console_then_fail : string :=
  default_block_mode +:+ console_then_fail_text.
Definition console_call : Node :=
  Statement "KeywordCall"
    [Demo.tok "SEPARATOR" "    " 3; Demo.tok "KEYWORD" "Log To Console" 3;
     Demo.tok "SEPARATOR" "    " 3; Demo.tok "ARGUMENT" "x" 3;
     Demo.tok "SEPARATOR" "    " 3; Demo.tok "ARGUMENT" "stream=STDERR" 3;
     Demo.tok "EOL" Py.LF 3].
Definition fail_call : Node :=
  Statement "KeywordCall"
    [Demo.tok "SEPARATOR" "    " 4; Demo.tok "KEYWORD" "Fail" 4;
     Demo.tok "SEPARATOR" "    " 4; Demo.tok "ARGUMENT" "now" 4;
     Demo.tok "EOL" "" 4].

Definition parse (code : string) : File :=
  if decide (code = settings_only)
  then mkFile [mkSection "SettingSection" (Some (settings_header "")) []]
  else if decide (code = settings_unknown)
  then mkFile
         [mkSection "SettingSection" (Some (settings_header Py.LF))
            [Statement "Error"
               [unknown_setting; Demo.tok "SEPARATOR" "    " 2;
                Demo.tok "ARGUMENT" "bar" 2; Demo.tok "EOL" "" 2]]]
  else if decide (code = for_loop)
  then Demo.default_test [for_block]
  else if decide (code = comment_before_test)
  then mkFile
         [mkSection "TestCaseSection"
            (Some (Demo.section_header "*** Test Cases ***" Py.LF))
            [comment_line; test_after_comment]]
  else if decide (code = console_then_fail)
  then Demo.default_test [console_call; fail_call]
  else Demo.parse code.

(** The keyword a statement calls, and its arguments. *)
Definition called (n : Node) : option (string * list string) :=
  match n with
  | Statement _ tokens =>
      match get_token tokens "KEYWORD" with
      | Some keyword =>
          Some (value keyword, value <$> get_tokens tokens "ARGUMENT")
      | None => None
      end
  | Block _ _ _ _ _ => None
  end.

(** The statements of a test body, one after the other: what they wrote
    to the error stream, and whether one failed. *)
Fixpoint run_statements (body : list Node) (written : list string)
    : Result unit * list string :=
  match body with
  | [] => (Ok tt, written)
  | n :: rest =>
      match called n with
      | Some (keyword, args) =>
          if decide (keyword = "Fail")
          then (Raise (mkException "ExecutionFailed" (default "" (head args))),
                written)
          else if decide (keyword = "Log To Console"
                          ∧ "stream=STDERR" ∈ args)
          then run_statements rest
                 (written ++ [default "" (head args) +:+ Py.LF])%list
          else run_statements rest written
      | None => run_statements rest written
      end
  end.

Definition run (body : list Node) (rt : list string)
    : Result unit * list string * list string :=
  match run_statements body [] with
  | (Ok _, written) =>
      (Ok tt, (rt ++ [String.concat "" (List.map Demo.node_code body)])%list,
       written)
  | (Raise e, written) => (Raise e, rt, written)
  end.

#[export] Instance facade : RobotFrameworkFacade := {|
  Runtime := list string;
  ImportT := string;
  VariableT := string;
  UserKeywordT := string;
  HandlerT := string;
  TestT := list Node;
  get_model code := Ok (parse code);
  build_suite model :=
    (Ok (mkTestSuite [] [] [] (Demo.test_bodies model)), []);
  _import i rt := (Ok tt, rt, []);
  set_from_variable_table vs rt := (Ok tt, rt, []);
  _create_handler kw rt := (Ok kw, rt, []);
  is_embedded h := false;
  handlers_add h embedded rt := (Ok tt, rt, []);
  run_test_body := run
|}.

Definition new : RobotFrameworkInterpreter := __init__ [].

End Probe.

(** ** The shape of the document parts *)

(** The document parts as [__init__] and the merges keep them: the keys
    are the five section kinds, and a stored section is filed under its
    own class and has a body. *)
Definition doc_parts_ok (parts : gmap string (option Section)) : Prop :=
  (∀ k, is_Some (parts !! k) ↔ k ∈ default_sections)
  ∧ ∀ k s, parts !! k = Some (Some s) → sec_class s = k ∧ sec_body s ≠ [].

(** Whether a token carries a marker the error reporter looks for. *)
Definition is_marker (t : Token) : bool :=
  bool_decide (type t = TokenType.FATAL_ERROR)
  || bool_decide (type t = TokenType.ERROR).

(** The characters of the indentation: tabs and spaces. *)
Fixpoint only_tabs_and_spaces (s : string) : bool :=
  match s with
  | EmptyString => true
  | String c s' =>
      bool_decide (c = Py.tab ∨ c = " "%char) && only_tabs_and_spaces s'
  end.

(** Two states of which the second has document parts of this shape
    when the first has. *)
Definition keeps_shape {facade : RobotFrameworkFacade}
    (s s' : RobotFrameworkInterpreter) : Prop :=
  doc_parts_ok (_doc_parts s) → doc_parts_ok (_doc_parts s').

(** A node with a [body]: a block. *)
Definition is_block (n : Node) : bool :=
  match n with
  | Block _ _ _ _ _ => true
  | Statement _ _ => false
  end.

(** The section the parser gives for ["Log    a"]. *)
Definition section_log_a_parsed : Section :=
  Demo.test_section "*** Test Case ***" "Default Task/Test" Py.LF Py.LF
    [Demo.keyword_call "Log" "a" ""].

(** ** What a fragment adds to the document *)

(** An entry of a section as the parser builds it: a statement, or a
    block that has a header and a body only, as a test case and a
    keyword have. *)
Definition plain (n : Node) : Prop :=
  match n with
  | Block _ _ _ orelse end_ => orelse = None ∧ end_ = None
  | Statement _ _ => True
  end.

(** Every stored section has such entries only. *)
Definition entries_plain (parts : gmap string (option Section)) : Prop :=
  ∀ k acc, parts !! k = Some (Some acc) → Forall plain (sec_body acc).

(** The parser builds sections whose entries are statements, test cases
    and keywords. *)
Definition parser_ok {facade : RobotFrameworkFacade} : Prop :=
  ∀ text parsed s, get_model text = Ok parsed → s ∈ sections parsed →
                   Forall plain (sec_body s).

(** Whether a section is stored for a kind. *)
Definition is_stored (parts : gmap string (option Section)) (k : string)
    : bool :=
  match parts !! k with
  | Some (Some _) => true
  | _ => false
  end.

(** The statements of the section stored for a kind, in document order
    (each with its class and its tokens up to the line end); none when
    no section is stored. *)
Definition stored_statements (parts : gmap string (option Section))
    (k : string) : list (string * list Token) :=
  match parts !! k with
  | Some (Some acc) => section_statements acc
  | _ => []
  end.

(** Whether a section of a fragment has something for the kind [k]. *)
Definition adds (k : string) (s : Section) : bool :=
  match sec_body s with
  | [] => false
  | _ :: _ => bool_decide (sec_class s = k)
  end.

(** Modelled from the spec: what a section of a fragment adds to the
    accumulator of kind [k]. Without an accumulator the section becomes
    it, header and all; an accumulator of test cases gets the bodies of
    the tests of the section; any other accumulator gets the body of the
    section. *)
Definition new_statements (k : string) (stored : bool) (s : Section)
    : list (string * list Token) :=
  if adds k s then
    if stored then
      if decide (k = "TestCaseSection")
      then flat_map statements (flat_map node_body (sec_body s))
      else flat_map statements (sec_body s)
    else section_statements s
  else [].

(** Modelled from the spec: what the sections of a fragment add to the
    accumulator of kind [k], one section after the other. *)
Fixpoint added (k : string) (stored : bool) (l : list Section)
    : list (string * list Token) :=
  match l with
  | [] => []
  | s :: l' => new_statements k stored s ++ added k (stored || adds k s) l'
  end%list.

(** ** More concrete states *)

(** The state after the loop whose [END] ends the text, and after
    ["Log    b"] then. *)
Definition after_for_loop : RobotFrameworkInterpreter :=
  (evaluate Demo.format_exc Probe.for_loop_text Probe.new).2.
Definition after_for_loop_log_b : RobotFrameworkInterpreter :=
  (evaluate Demo.format_exc "Log    b" after_for_loop).2.

(** The state after ["Log    a"], and after the test case section with a
    comment line before its test then. *)
Definition after_first_log : RobotFrameworkInterpreter :=
  (evaluate Demo.format_exc "Log    a" Probe.new).2.
Definition after_comment_before_test : RobotFrameworkInterpreter :=
  (evaluate Demo.format_exc Probe.comment_before_test after_first_log).2.

(** A statement, as its class and the values of its tokens. *)
Definition shown (statement : string * list Token) : string * list string :=
  (statement.1, value <$> statement.2).

(** * Properties *)

(** ** What a call leaves of the state *)

Section Frames.

Context {facade : RobotFrameworkFacade}.
Variable ast_to_code : Section → string.
Variable format_exc : Exception → string.

Lemma _compute_full_doc_state name (self : RobotFrameworkInterpreter) :
  (_compute_full_doc ast_to_code name self).2 = self.
Proof.
  unfold _compute_full_doc. unfold_M. repeat case_match; simplify_eq; done.
Qed.

Lemma _compute_full_doc_inv name (self self' : RobotFrameworkInterpreter) r :
  _compute_full_doc ast_to_code name self = (r, self') → self' = self.
Proof.
  intros H. pose proof (_compute_full_doc_state name self) as H'.
  rewrite H in H'. done.
Qed.

Lemma compute_evaluate_text_state code target_type
    (self : RobotFrameworkInterpreter) :
  (compute_evaluate_text ast_to_code code target_type self).2 = self.
Proof.
  unfold compute_evaluate_text, full_doc. unfold_M.
  repeat case_match; simplify_eq; simpl;
    repeat match goal with
      | H : _compute_full_doc _ _ _ = _ |- _ =>
          apply _compute_full_doc_inv in H
      end; simplify_eq; done.
Qed.

End Frames.

Lemma block_mode_TestCaseSection :
  _settings_section_name_to_block_mode !! "TestCaseSection"
  = Some default_block_mode.
Proof. vm_compute. reflexivity. Qed.

Section FramesEvaluate.

Context {facade : RobotFrameworkFacade}.
Variable ast_to_code : Section → string.
Variable format_exc : Exception → string.

#[export] Instance same_but_runtime_pre : PreOrder same_but_runtime.
Proof.
  split; [done|]. intros x y z (?&?&?) (?&?&?).
  split; [congruence|]. split; [congruence|by etrans].
Qed.
#[export] Instance same_but_doc_pre : PreOrder same_but_doc.
Proof.
  split; [done|]. intros x y z (?&?&?) (?&?&?). repeat split; congruence.
Qed.
#[export] Instance same_but_stderr_pre : PreOrder same_but_stderr.
Proof.
  split; [done|]. intros x y z (?&?&?) (?&?&?). repeat split; congruence.
Qed.

Lemma for_each_preserves {A} (R : relation RobotFrameworkInterpreter)
    `{!PreOrder R} (l : list A) (body : A → M unit) :
  (∀ x s, R s (body x s).2) → ∀ s, R s (for_each l body s).2.
Proof.
  intros Hbody. induction l as [|x l IH]; intros s; simpl.
  - reflexivity.
  - unfold_M. specialize (Hbody x s).
    destruct (body x s) as [[[]|e] s1]; simpl in *; [|done].
    etrans; [exact Hbody|apply IH].
Qed.

Lemma on_runtime_frame {A}
    (op : Runtime → Result A * Runtime * list string) s :
  same_but_runtime s (on_runtime op s).2.
Proof.
  unfold on_runtime. destruct (op (runtime s)) as [[r rt] written].
  split; [done|]. split; [done|]. by apply prefix_app_r.
Qed.

Lemma on_builders_frame {A} (call : Result A * list string) s :
  same_but_runtime s (on_builders call s).2.
Proof. split; [done|]. split; [done|]. by apply prefix_app_r. Qed.

Lemma bind_preserves {A B} (R : relation RobotFrameworkInterpreter)
    `{!PreOrder R} (m : M A) (f : A → M B) :
  (∀ s, R s (m s).2) → (∀ a s, R s (f a s).2) → ∀ s, R s ((m ≫= f) s).2.
Proof.
  intros Hm Hf s. unfold mbind, M_bind. specialize (Hm s).
  destruct (m s) as [[a|e] s1]; simpl in *; [|done].
  etrans; [exact Hm|apply Hf].
Qed.

Lemma lift_preserves {A} (R : relation RobotFrameworkInterpreter)
    `{!PreOrder R} (r : Result A) s : R s (lift r s).2.
Proof. done. Qed.

Lemma dispatch_frame model s : same_but_runtime s (dispatch model s).2.
Proof.
  revert s. unfold dispatch.
  apply bind_preserves; [apply _|intros s; apply on_builders_frame|].
  intros suite.
  apply bind_preserves; [apply _| |intros _].
  { apply for_each_preserves; [apply _|]. intros; apply on_runtime_frame. }
  apply bind_preserves; [apply _| |intros _].
  { intros s. destruct (variables suite); [done|apply on_runtime_frame]. }
  apply bind_preserves; [apply _| |intros _].
  { apply for_each_preserves; [apply _|]. intros kw.
    apply bind_preserves; [apply _|intros; apply on_runtime_frame|].
    intros; apply on_runtime_frame. }
  apply for_each_preserves; [apply _|]. intros; apply on_runtime_frame.
Qed.

Lemma merge_section_frame section s :
  same_but_doc s (merge_section section s).2.
Proof.
  unfold merge_section. unfold_M.
  repeat case_match; simplify_eq; simpl; done.
Qed.

Lemma on_stderr_frame line s : same_but_stderr s (on_stderr line s).2.
Proof. done. Qed.

End FramesEvaluate.

(** ** The phases of a call of [evaluate] *)

Section Phases.

Context {facade : RobotFrameworkFacade}.
Variable ast_to_code : Section → string.
Variable format_exc : Exception → string.

(** [_evaluate], phase by phase. *)
Lemma _evaluate_phases code (self : RobotFrameworkInterpreter) :
  let code' := code_to_parse code self in
  _evaluate code self =
  match get_model code' with
  | Raise e => (Raise e, self)
  | Ok model =>
      match sections model with
      | [] =>
          (Ok (mkActionResult false
                 (Some ("Error while evaluating: " +:+ no_sections_msg)) None),
           (on_stderr no_sections_msg self).2)
      | _ :: _ =>
          match _CustomErrorReporter.visit_File code' model with
          | Raise e => (Raise e, self)
          | Ok _ =>
              match dispatch model (with_default_block_mode self) with
              | (Raise e, self') => (Raise e, self')
              | (Ok _, self') =>
                  match for_each (sections model) merge_section self' with
                  | (Raise e, self'') => (Raise e, self'')
                  | (Ok _, self'') =>
                      (Ok (mkActionResult true None None), self'')
                  end
              end
          end
      end
  end.
Proof.
  intros code'. unfold _evaluate.
  rewrite block_mode_TestCaseSection.
  unfold mbind, M_bind, gets, lift, mret, M_ret. fold code'.
  destruct (get_model code') as [model|e]; [|reflexivity].
  destruct (sections model) as [|s0 l]; [reflexivity|].
  destruct (_CustomErrorReporter.visit_File code' model) as [[]|e]; [|reflexivity].
  unfold with_default_block_mode. simpl.
  destruct (dispatch model _) as [[[]|e] s1]; [|reflexivity].
  destruct (for_each (s0 :: l) merge_section s1) as [[[]|e] s2]; reflexivity.
Qed.

Lemma stderr_lines_frame (lines : list string) (s : RobotFrameworkInterpreter) :
  same_but_stderr s (for_each lines on_stderr s).2.
Proof.
  apply for_each_preserves; [apply _|]. intros; apply on_stderr_frame.
Qed.

(** What [evaluate] adds to the state [_evaluate] leaves: lines on
    [on_stderr]. *)
Lemma evaluate_frame code (self : RobotFrameworkInterpreter) :
  same_but_stderr (_evaluate code self).2 (evaluate format_exc code self).2.
Proof.
  unfold evaluate. destruct (_evaluate code self) as [[r|e] s1]; simpl; [done|].
  destruct (decide (format_exc e = "")); [done|]. apply stderr_lines_frame.
Qed.

Lemma evaluate_success code (self : RobotFrameworkInterpreter) :
  success (evaluate format_exc code self).1 = true
  ↔ failure_phase code self = None.
Proof.
  unfold evaluate, failure_phase. rewrite _evaluate_phases.
  repeat case_match; simplify_eq; simpl; split; intros; simplify_eq; done.
Qed.

End Phases.

(** ** Strings *)

Lemma append_assoc (a b c : string) : (a +:+ b) +:+ c = a +:+ b +:+ c.
Proof.
  induction a as [|x a IH]; [done|].
  change (String x ((a +:+ b) +:+ c) = String x (a +:+ b +:+ c)).
  by rewrite IH.
Qed.

Lemma append_nil_r (a : string) : a +:+ "" = a.
Proof.
  induction a as [|x a IH]; [done|].
  change (String x (a +:+ "") = String x a). by rewrite IH.
Qed.

Lemma contains_append c a b :
  contains c (a +:+ b) = contains c a || contains c b.
Proof.
  induction a as [|x a IH]; [done|].
  change (bool_decide (x = c) || contains c (a +:+ b)
          = bool_decide (x = c) || contains c a || contains c b).
  rewrite IH. by rewrite orb_assoc.
Qed.

(** [rpartition] without a separator in the string. *)
Lemma rpartition_absent sep s :
  contains sep s = false → Py.rpartition sep s = ("", "", s).
Proof.
  induction s as [|x s IH]; [done|].
  intros [Hx Hs]%orb_false_elim. cbn [Py.rpartition]. rewrite (IH Hs).
  apply bool_decide_eq_false in Hx. by rewrite decide_False.
Qed.

(** [rpartition] splits at the last separator. *)
Lemma rpartition_last sep h t :
  contains sep t = false →
  Py.rpartition sep (h +:+ String sep t) = (h, String sep "", t).
Proof.
  intros Ht. induction h as [|x h IH].
  - change (Py.rpartition sep (String sep t) = ("", String sep "", t)).
    cbn [Py.rpartition]. rewrite (rpartition_absent _ _ Ht).
    by rewrite decide_True.
  - change (Py.rpartition sep (String x (h +:+ String sep t))
            = (String x h, String sep "", t)).
    cbn [Py.rpartition]. by rewrite IH.
Qed.

(** ** The evaluation text *)

Section EvaluateText.

Context {facade : RobotFrameworkFacade}.
Variable ast_to_code : Section → string.
Variable format_exc : Exception → string.

Lemma _compute_full_doc_run name (self : RobotFrameworkInterpreter) :
  _compute_full_doc ast_to_code name self
  = (answer (_compute_full_doc ast_to_code name) self, self).
Proof.
  unfold answer. pose proof (_compute_full_doc_state ast_to_code name self).
  destruct (_compute_full_doc ast_to_code name self); simpl in *; congruence.
Qed.

(** Everywhere but in one branch the full code is the prefix followed by
    the code; in that branch (a completion of a bare fragment, the current
    section has history, and the rendered document has no line feed) a
    line feed stands between them. *)
Lemma compute_evaluate_text_full_code code target_type
    (self : RobotFrameworkInterpreter) r :
  answer (compute_evaluate_text ast_to_code code target_type) self = Ok r →
  full_code r = prefix r +:+ code
  ∨ (target_type = "completions"
     ∧ Py.startswith (Py.strip code) "***" = false
     ∧ has_section self
     ∧ contains Py.lf (prefix r) = false
     ∧ full_code r = prefix r +:+ Py.LF +:+ code).
Proof.
  unfold answer, compute_evaluate_text, full_doc, has_section.
  destruct (decide (target_type = "completions")) as [->|Ht].
  - destruct (Py.startswith (Py.strip code) "***") eqn:Hc.
    + unfold mbind, M_bind, mret, M_ret. rewrite _compute_full_doc_run.
      destruct (answer _ self); simpl; intros; simplify_eq; by left.
    + unfold mbind, M_bind, mret, M_ret, gets.
      destruct (_doc_parts self !! _last_section_name self) as [[cur|]|] eqn:Hp;
        rewrite _compute_full_doc_run.
      * destruct (answer _ self) as [d|e]; simpl; [|intros; simplify_eq].
        destruct (Py.rpartition Py.lf d) as [[fp dl] ll] eqn:Hr.
        destruct (decide (dl ≠ "")) as [Hd|Hd]; simpl; intros; simplify_eq.
        { by left. }
        right. repeat split; eauto. simpl.
        destruct (contains Py.lf d) eqn:Hcd; [|done].
        exfalso. apply Hd. clear -Hr Hcd.
        revert fp dl ll Hr. induction d as [|x d IH]; [done|].
        intros fp dl ll. cbn [Py.rpartition].
        destruct (Py.rpartition Py.lf d) as [[fp' dl'] ll'].
        destruct dl' as [|y dl'].
        -- destruct (decide (x = Py.lf)); intros; simplify_eq; [done|].
           apply orb_true_elim in Hcd as [Hx%bool_decide_eq_true|Hcd]; [done|].
           exfalso. by eapply IH.
        -- intros; simplify_eq. done.
      * destruct (answer _ self); simpl; intros; simplify_eq; by left.
      * destruct (answer _ self); simpl; intros; simplify_eq; by left.
  - destruct (negb _); simpl; intros; simplify_eq; by left.
Qed.

(** C6: [compute_evaluate_text] changes nothing: for every code, target
    type and state, the state after the call is the state before it (the
    document parts and the block mode with it), and a second call with the
    same arguments returns what the first returned. *)
Theorem compute_evaluate_text_side_effect_free code target_type
    (self : RobotFrameworkInterpreter) :
  let first := compute_evaluate_text ast_to_code code target_type self in
  first.2 = self
  ∧ _doc_parts first.2 = _doc_parts self
  ∧ block_mode_state first.2 = block_mode_state self
  ∧ compute_evaluate_text ast_to_code code target_type first.2 = first.
Proof.
  intros first. subst first.
  rewrite compute_evaluate_text_state. done.
Qed.

(** C7, as the code has it: for a completion of a bare fragment when the
    current section has history, and [doc] the document rendered with the
    current section last: if [doc] is [h], a line feed and a last line
    [t], the prefix is [doc], a line feed and the tabs and spaces [t]
    starts with, and the full code is that prefix and the code; if [doc]
    has no line feed, the full code is [doc], a line feed and the code. *)
Theorem completion_prefix_reuses_leading_whitespace code
    (self : RobotFrameworkInterpreter) doc :
  Py.startswith (Py.strip code) "***" = false →
  has_section self →
  answer (_compute_full_doc ast_to_code (_last_section_name self)) self
    = Ok doc →
  let r := answer (compute_evaluate_text ast_to_code code "completions") self in
  (∀ h t, doc = h +:+ Py.LF +:+ t → contains Py.lf t = false →
     r = Ok (mkEvaluateText (doc +:+ Py.LF +:+ leading_whitespaces t)
               ((doc +:+ Py.LF +:+ leading_whitespaces t) +:+ code)))
  ∧ (contains Py.lf doc = false →
     ∃ res, r = Ok res ∧ full_code res = doc +:+ Py.LF +:+ code).
Proof.
  intros Hbare [cur Hcur] Hdoc r. subst r.
  unfold answer, compute_evaluate_text.
  destruct (decide ("completions" = "completions")) as [_|?]; [|done].
  rewrite Hbare. unfold mbind, M_bind, mret, M_ret, gets.
  rewrite Hcur, _compute_full_doc_run, Hdoc. simpl. split.
  - intros h t -> Ht. rewrite (rpartition_last _ _ _ Ht). simpl.
    by rewrite !append_assoc.
  - intros Hno. rewrite (rpartition_absent _ _ Hno). simpl. eauto.
Qed.

End EvaluateText.

(** ** Failed and successful calls *)

Section Evaluate.

Context {facade : RobotFrameworkFacade}.
Variable ast_to_code : Section → string.
Variable format_exc : Exception → string.

(** The rendered document depends on the document parts alone. *)
Lemma _compute_full_doc_parts name (s s' : RobotFrameworkInterpreter) :
  _doc_parts s' = _doc_parts s →
  answer (_compute_full_doc ast_to_code name) s'
  = answer (_compute_full_doc ast_to_code name) s.
Proof.
  intros H. unfold answer, _compute_full_doc.
  unfold mbind, M_bind, mret, M_ret, gets, lift. rewrite H.
  repeat case_match; simplify_eq; done.
Qed.

Lemma with_default_block_mode_parts (s : RobotFrameworkInterpreter) :
  _doc_parts (with_default_block_mode s) = _doc_parts s
  ∧ runtime (with_default_block_mode s) = runtime s
  ∧ on_stderr_calls (with_default_block_mode s) = on_stderr_calls s
  ∧ block_mode_state (with_default_block_mode s)
    = ("TestCaseSection", default_block_mode).
Proof. done. Qed.

(** The block mode after [_evaluate]: the one before, or the default one
    once the validation is passed. *)
Lemma _evaluate_block_mode code (s : RobotFrameworkInterpreter) :
  (block_mode_state (_evaluate code s).2 = block_mode_state s
   ∧ failure_phase code s ≠ None)
  ∨ block_mode_state (_evaluate code s).2
    = ("TestCaseSection", default_block_mode).
Proof.
  rewrite _evaluate_phases. unfold failure_phase. cbn zeta.
  destruct (get_model _) as [model|e0]; [|by left].
  destruct (sections _) as [|s0 l] eqn:Hs; [by left|].
  destruct (_CustomErrorReporter.visit_File _ _) as [[]|e]; [|by left].
  right.
  pose proof (dispatch_frame model
                (with_default_block_mode s)) as (_ & Hd & _).
  destruct (dispatch _ _) as [[[]|e] s1]; cbn [snd] in *; [|by rewrite Hd].
  pose proof (for_each_preserves same_but_doc (s0 :: l) merge_section
                merge_section_frame s1) as (_ & Hm & _).
  destruct (for_each (s0 :: l) merge_section s1) as [[[]|e] s2]; cbn [snd] in *;
    by rewrite Hm, Hd.
Qed.

(** The document parts after [_evaluate] when the failure is not in the
    merge. *)
Lemma _evaluate_parts_before_merge code (s : RobotFrameworkInterpreter) ph :
  failure_phase code s = Some ph → ph ≠ Merge →
  _doc_parts (_evaluate code s).2 = _doc_parts s.
Proof.
  rewrite _evaluate_phases. unfold failure_phase. cbn zeta.
  destruct (get_model _) as [model|e0]; [|done].
  destruct (sections _) as [|s0 l] eqn:Hs; [done|].
  destruct (_CustomErrorReporter.visit_File _ _) as [[]|e]; [|done].
  pose proof (dispatch_frame model
                (with_default_block_mode s)) as (Hd & _ & _).
  destruct (dispatch _ _) as [[[]|e] s1]; cbn [snd] in *; [|by rewrite Hd].
  destruct (for_each (s0 :: l) merge_section s1) as [[[]|e] s2]; cbn [snd] in *;
    intros; simplify_eq.
Qed.

(** Every reachable state has the default block mode. *)
Lemma reachable_block_mode (self : RobotFrameworkInterpreter) :
  reachable ast_to_code format_exc self →
  block_mode_state self = ("TestCaseSection", default_block_mode).
Proof.
  induction 1 as [rt|code self _ IH|code tt self _ IH].
  - reflexivity.
  - destruct (evaluate_frame format_exc code self) as (_ & -> & _).
    destruct (_evaluate_block_mode code self) as [[-> _]| ->]; done.
  - by rewrite compute_evaluate_text_state.
Qed.

(** C10: in every reachable state the block mode state is
    ["TestCaseSection"] with the default test header
    ["*** Test Case ***\nDefault Task/Test\n    "]; a successful [evaluate],
    from any state, leaves exactly these values; and in a reachable state
    the code parsed for a bare fragment is that header followed by the
    fragment. *)
Theorem block_mode_state_is_constant (self : RobotFrameworkInterpreter) :
  reachable ast_to_code format_exc self →
  block_mode_state self = ("TestCaseSection", default_block_mode)
  ∧ default_block_mode
    = "*** Test Case ***" +:+ Py.LF +:+ "Default Task/Test" +:+ Py.LF +:+ "    "
  ∧ (∀ code (any : RobotFrameworkInterpreter),
       success (evaluate format_exc code any).1 = true →
       block_mode_state (evaluate format_exc code any).2
       = ("TestCaseSection", default_block_mode))
  ∧ (∀ code, Py.startswith (Py.strip code) "***" = false →
       code_to_parse code self = default_block_mode +:+ code
       ∧ answer (compute_evaluate_text ast_to_code code "evaluate") self
         = Ok (mkEvaluateText default_block_mode (default_block_mode +:+ code))).
Proof.
  intros Hreach. pose proof (reachable_block_mode self Hreach) as Hbm.
  split; [done|]. split; [done|]. split.
  - intros code any Hok. apply evaluate_success in Hok.
    destruct (evaluate_frame format_exc code any) as (_ & -> & _).
    destruct (_evaluate_block_mode code any) as [[_ Hin]| ->]; done.
  - intros code Hbare. injection Hbm as Hn Hm.
    unfold code_to_parse, answer, compute_evaluate_text.
    rewrite Hbare. simpl. by rewrite Hm.
Qed.

(** C8: when the code handed to the parser gives a model without sections,
    [_evaluate] returns and does not raise, [evaluate] returns the failure
    with a message that starts with ["Error while evaluating:"] and no
    result, the problem went to [on_stderr], and nothing else of the state
    changed: the session goes on from the document parts and the block
    mode it had. *)
Theorem no_sections_is_reported code (self : RobotFrameworkInterpreter)
    model :
  get_model (code_to_parse code self) = Ok model →
  sections model = [] →
  let after := (evaluate format_exc code self).2 in
  answer (_evaluate code) self
  = Ok (mkActionResult false
          (Some ("Error while evaluating: " +:+ no_sections_msg)) None)
  ∧ (evaluate format_exc code self).1
    = mkActionResult false
        (Some ("Error while evaluating: " +:+ no_sections_msg)) None
  ∧ on_stderr_calls after = (on_stderr_calls self ++ [no_sections_msg])%list
  ∧ _doc_parts after = _doc_parts self
  ∧ block_mode_state after = block_mode_state self
  ∧ runtime after = runtime self.
Proof.
  intros Hg Hs after. subst after. unfold evaluate, answer.
  rewrite _evaluate_phases. cbn zeta. rewrite Hg, Hs. done.
Qed.

(** X21: a call of [evaluate] in a reachable state that fails before
    the merge (the parser raises, no sections, a validation error, or an
    exception while building, importing, registering or running) returns a
    failure and leaves the rendered document, the document parts and the
    block mode state as they were. *)
Theorem failure_before_merge_keeps_document code
    (self : RobotFrameworkInterpreter) ph :
  reachable ast_to_code format_exc self →
  failure_phase code self = Some ph → ph ≠ Merge →
  let after := (evaluate format_exc code self).2 in
  success (evaluate format_exc code self).1 = false
  ∧ answer (full_doc ast_to_code) after = answer (full_doc ast_to_code) self
  ∧ _doc_parts after = _doc_parts self
  ∧ block_mode_state after = block_mode_state self.
Proof.
  intros Hreach Hph Hnm after.
  assert (_doc_parts after = _doc_parts self) as Hparts.
  { subst after. destruct (evaluate_frame format_exc code self) as (_ & _ & ->).
    by eapply _evaluate_parts_before_merge. }
  split; [|split; [|split]].
  - destruct (success _) eqn:Hs; [|done].
    apply evaluate_success in Hs. congruence.
  - by apply _compute_full_doc_parts.
  - done.
  - subst after. destruct (evaluate_frame format_exc code self) as (_ & -> & _).
    rewrite (reachable_block_mode self Hreach).
    destruct (_evaluate_block_mode code self) as [[-> _]| ->];
      by rewrite ?(reachable_block_mode self Hreach).
Qed.

End Evaluate.

(** ** Validation *)

Section Validation.

Variable source : string.

Lemma visit_Error_marker tokens :
  _CustomErrorReporter.visit_Error source tokens
  = raise_marker source (reported_marker tokens).
Proof.
  unfold _CustomErrorReporter.visit_Error, reported_marker.
  destruct (get_token tokens TokenType.FATAL_ERROR); [done|].
  by destruct (get_tokens tokens TokenType.ERROR).
Qed.

Lemma first_reported_app l1 l2 :
  raise_marker source (first_reported (l1 ++ l2))
  = rbind (raise_marker source (first_reported l1))
      (λ _, raise_marker source (first_reported l2)).
Proof.
  induction l1 as [|t l1 IH]; simpl; [done|].
  destruct (reported_marker t); [done|exact IH].
Qed.

Lemma visit_all_flat_map body :
  Forall (λ n, _CustomErrorReporter.visit source n
               = raise_marker source (first_reported (error_statements n))) body →
  _CustomErrorReporter.visit_all source body
  = raise_marker source (first_reported (flat_map error_statements body)).
Proof.
  induction 1 as [|n l Hn _ IH]; simpl; [done|].
  rewrite first_reported_app, Hn, IH. done.
Qed.

Lemma visit_first_reported n :
  _CustomErrorReporter.visit source n
  = raise_marker source (first_reported (error_statements n)).
Proof.
  induction n as [cls tokens|cls header body orelse end_ Hh Hb Ho He]
    using Node_induction.
  - simpl. destruct (decide (cls = "Error")); [|done].
    rewrite visit_Error_marker. simpl. by destruct (reported_marker tokens).
  - change (_CustomErrorReporter.visit source (Block cls header body orelse end_))
      with (rbind (_CustomErrorReporter.visit_field source header) (λ _,
            rbind (_CustomErrorReporter.visit_all source body) (λ _,
            rbind (_CustomErrorReporter.visit_field source orelse) (λ _,
            _CustomErrorReporter.visit_field source end_)))).
    assert (∀ f, (∀ n, f = Some n →
                    _CustomErrorReporter.visit source n
                    = raise_marker source (first_reported (error_statements n))) →
              _CustomErrorReporter.visit_field source f
              = raise_marker source (first_reported (from_option error_statements [] f)))
      as Hfield.
    { intros [m|] Hf; simpl; [by apply Hf|done]. }
    cbn [error_statements]. rewrite !first_reported_app.
    rewrite (Hfield _ Hh), (Hfield _ Ho), (Hfield _ He).
    rewrite (visit_all_flat_map _ Hb). done.
Qed.

Lemma visit_Section_first_reported s :
  _CustomErrorReporter.visit_Section source s
  = raise_marker source (first_reported (section_error_statements s)).
Proof.
  unfold _CustomErrorReporter.visit_Section, section_error_statements.
  rewrite first_reported_app, visit_all_flat_map.
  - destruct (sec_header s); simpl; [|done]. by rewrite visit_first_reported.
  - apply Forall_forall. intros n _. apply visit_first_reported.
Qed.

(** C2, as the code has it: validation walks the tree in depth-first
    document order and raises at the first [Error] statement that carries a
    marker; the error is built from the first fatal marker of that
    statement, and from its first recoverable marker when it has no fatal
    one. The message holds the source label, the line number and the text
    of the marker. Without a marker nothing is raised. *)
Theorem validation_reports_first_marked_statement model :
  _CustomErrorReporter.visit_File source model
  = match first_reported (file_error_statements model) with
    | None => Ok tt
    | Some marker =>
        Raise (DataError
                 ("Error in file '" +:+ source +:+ "' on line "
                  +:+ pretty (lineno marker) +:+ ": "
                  +:+ Py.str_opt (error marker)))
    end.
Proof.
  change (_CustomErrorReporter.visit_File source model
          = raise_marker source (first_reported (file_error_statements model))).
  unfold _CustomErrorReporter.visit_File, file_error_statements.
  induction (sections model) as [|s l IH]; simpl; [done|].
  rewrite first_reported_app, visit_Section_first_reported, IH. done.
Qed.

End Validation.

(** C2 fails as stated: the tree has a fatal marker (line 3), and the
    error raised is built from the recoverable marker before it (line 2). *)
Lemma validation_reports_recoverable_before_fatal :
  first_fatal_anywhere recoverable_before_fatal = Some invalid_section
  ∧ _CustomErrorReporter.visit_File "src" recoverable_before_fatal
    = Raise (DataError
        "Error in file 'src' on line 2: Non-existing setting 'Foo'.")
  ∧ _CustomErrorReporter.visit_File "src" recoverable_before_fatal
    ≠ Raise (DataError
        (_CustomErrorReporter._format_message "src" invalid_section)).
Proof.
  split; [reflexivity|]. split; [vm_compute; reflexivity|].
  vm_compute. discriminate.
Qed.

(** ** The merge into the document parts *)

Lemma unsnoc_None {A} (l : list A) : unsnoc l = None ↔ l = [].
Proof.
  destruct l as [|x l]; simpl; [done|].
  destruct (unsnoc l) as [[i y]|]; done.
Qed.

Lemma unsnoc_snoc {A} (l : list A) x : unsnoc (l ++ [x]) = Some (l, x).
Proof. induction l as [|y l IH]; simpl; [done|]. by rewrite IH. Qed.

Lemma unsnoc_Some {A} (l : list A) init x :
  unsnoc l = Some (init, x) ↔ l = (init ++ [x])%list.
Proof.
  split; [|intros ->; apply unsnoc_snoc].
  revert init. induction l as [|y l IH]; intros init; simpl; [done|].
  destruct (unsnoc l) as [[i z]|] eqn:Hl.
  - intros; simplify_eq. by rewrite (IH i eq_refl).
  - apply unsnoc_None in Hl as ->. intros; simplify_eq. done.
Qed.

Lemma without_trailing_eol_snoc tokens t :
  type t = TokenType.EOL →
  without_trailing_eol (tokens ++ [t]) = without_trailing_eol tokens.
Proof.
  intros Ht. induction tokens as [|x l IH]; simpl.
  - by rewrite decide_True.
  - by rewrite IH.
Qed.

(** The two outcomes of [ensure_last_eol]. *)
Lemma ensure_last_eol_Ok tokens tokens' :
  ensure_last_eol tokens = Ok tokens' →
  (∃ init t, tokens = (init ++ [t])%list ∧ type t = TokenType.EOL
             ∧ value t = ""
             ∧ tokens' = (init ++ [mkToken (type t) Py.LF (lineno t) (error t)])%list)
  ∨ (tokens ≠ [] ∧ tokens' = (tokens ++ [Token_ "EOL" Py.LF])%list
     ∧ ∀ init t, tokens = (init ++ [t])%list →
         ¬ (type t = TokenType.EOL ∧ value t = "")).
Proof.
  unfold ensure_last_eol.
  destruct (unsnoc tokens) as [[init t]|] eqn:Hu; [|done].
  apply unsnoc_Some in Hu as ->.
  destruct (decide _) as [[Ht Hv]|Hn]; intros; simplify_eq.
  - left. eauto 10.
  - right. split; [by destruct init|]. split; [done|].
    intros init' t' [-> ->]%app_inj_tail. done.
Qed.

Lemma ensure_last_eol_statement tokens tokens' :
  ensure_last_eol tokens = Ok tokens' →
  without_trailing_eol tokens' = without_trailing_eol tokens.
Proof.
  intros [(init & t & -> & Ht & _ & ->)|(_ & -> & _)]%ensure_last_eol_Ok.
  - by rewrite !without_trailing_eol_snoc.
  - by rewrite without_trailing_eol_snoc.
Qed.

Lemma ensure_last_eol_last tokens tokens' :
  ensure_last_eol tokens = Ok tokens' →
  ∃ t, last tokens' = Some t ∧ type t = TokenType.EOL ∧ value t = Py.LF.
Proof.
  intros [(init & t & -> & Ht & _ & ->)|(_ & -> & _)]%ensure_last_eol_Ok;
    rewrite last_snoc; eauto.
Qed.

Lemma ensure_last_eol_node_Block cls header body orelse end_ :
  ensure_last_eol_node (Block cls header body orelse end_)
  = rbind (ensure_last_eol_body body)
      (λ body', Ok (Block cls header body' orelse end_)).
Proof. reflexivity. Qed.

Lemma last_statement_Block cls header body orelse end_ :
  last_statement (Block cls header body orelse end_) = last_statement_of body.
Proof. reflexivity. Qed.

Lemma ensure_last_eol_body_nodes body body' :
  Forall walk_ok body →
  ensure_last_eol_body body = Ok body' →
  length body' = length body
  ∧ flat_map statements body' = flat_map statements body
  ∧ ∃ tokens tokens', last_statement_of body = Some tokens
      ∧ ensure_last_eol tokens = Ok tokens'
      ∧ last_statement_of body' = Some tokens'.
Proof.
  intros Hall. revert body'.
  induction Hall as [|m l Hm Hl IH]; intros body'; [done|].
  cbn [ensure_last_eol_body]. destruct l as [|m2 l].
  - destruct (ensure_last_eol_node m) as [m'|] eqn:Hem; [|done].
    cbn [rbind]. intros; simplify_eq.
    destruct (Hm _ Hem) as (Hs & tk & tk' & ? & ? & ?).
    cbn [flat_map last_statement_of length]. rewrite Hs. eauto 10.
  - destruct (ensure_last_eol_body (m2 :: l)) as [r|] eqn:Her; [|done].
    cbn [rbind]. intros; simplify_eq.
    destruct (IH _ eq_refl) as (Hlen & Hs & tk & tk' & ? & ? & Hl').
    split; [cbn [length] in *; by rewrite Hlen|]. split.
    + cbn [flat_map] in *. by rewrite Hs.
    + exists tk, tk'. split; [done|]. split; [done|].
      destruct r; [done|]. exact Hl'.
Qed.

Lemma ensure_last_eol_node_Ok n : walk_ok n.
Proof.
  induction n as [cls tokens|cls header body orelse end_ _ Hb _ _]
    using Node_induction; intros n'.
  - cbn [ensure_last_eol_node].
    destruct (ensure_last_eol tokens) as [tokens'|] eqn:He; [|done].
    cbn [rbind]. intros; simplify_eq. cbn [statements last_statement].
    split; [by rewrite (ensure_last_eol_statement _ _ He)|eauto].
  - rewrite ensure_last_eol_node_Block.
    destruct (ensure_last_eol_body body) as [b'|] eqn:He; [|done].
    cbn [rbind]. intros; simplify_eq. rewrite !last_statement_Block.
    destruct (ensure_last_eol_body_nodes _ _ Hb He) as (_ & Hs & Hlast).
    cbn [statements]. by rewrite Hs.
Qed.

Lemma ensure_last_eol_body_Ok body body' :
  ensure_last_eol_body body = Ok body' →
  length body' = length body
  ∧ flat_map statements body' = flat_map statements body
  ∧ ∃ tokens tokens', last_statement_of body = Some tokens
      ∧ ensure_last_eol tokens = Ok tokens'
      ∧ last_statement_of body' = Some tokens'.
Proof.
  apply ensure_last_eol_body_nodes, Forall_forall.
  intros n _. apply ensure_last_eol_node_Ok.
Qed.

Lemma section_statements_with_body cur body :
  section_statements (with_body cur body)
  = (from_option statements [] (sec_header cur) ++ flat_map statements body)%list.
Proof. reflexivity. Qed.

Lemma extend_with_bodies_app body section_body r body1 :
  extend_with_bodies body section_body = (r, body1) →
  ∃ ext, body1 = (body ++ ext)%list
         ∧ (r = Ok tt → ext = flat_map node_body section_body).
Proof.
  revert body. induction section_body as [|n l IH]; intros body; simpl.
  - intros; simplify_eq. exists []. by rewrite app_nil_r.
  - destruct n as [cls tokens|cls h b o e].
    + intros; simplify_eq. exists []. by rewrite app_nil_r.
    + intros (ext & -> & Hext)%IH. exists (b ++ ext)%list.
      rewrite app_assoc. split; [done|]. intros ->%Hext. done.
Qed.

Lemma statements_Block_app cls h b ext o e :
  statements (Block cls h (b ++ ext) o e)
  = (from_option statements [] h ++ flat_map statements b
     ++ flat_map statements ext
     ++ from_option statements [] o ++ from_option statements [] e)%list.
Proof. cbn [statements]. by rewrite flat_map_app, <- !app_assoc. Qed.

Lemma statements_Block_sublist cls h b ext o e :
  statements (Block cls h b o e)
  `sublist_of` statements (Block cls h (b ++ ext) o e).
Proof.
  rewrite statements_Block_app. cbn [statements].
  apply sublist_app; [done|]. apply sublist_app; [done|].
  by apply sublist_inserts_l.
Qed.

Lemma flat_map_statements_snoc init n :
  flat_map statements (init ++ [n])
  = (flat_map statements init ++ statements n)%list.
Proof. rewrite flat_map_app. simpl. by rewrite app_nil_r. Qed.

Section MergeSection.

Context {facade : RobotFrameworkFacade}.

(** A section without a body, or of a class that is not tracked, is
    skipped. *)
Lemma merge_section_skip section (self : RobotFrameworkInterpreter) :
  sec_body section = [] ∨ _doc_parts self !! sec_class section = None →
  merge_section section self = (Ok tt, self).
Proof.
  unfold merge_section. intros [->| Hp]; [done|].
  destruct (sec_body section); [done|]. unfold_M. by rewrite Hp.
Qed.

(** The first section of a class becomes the stored section. *)
Lemma merge_section_first section (self : RobotFrameworkInterpreter) :
  sec_body section ≠ [] →
  _doc_parts self !! sec_class section = Some None →
  merge_section section self =
  match ensure_last_eol_body (sec_body section) with
  | Ok body' =>
      (Ok tt, with_parts self
                (<[sec_class section := Some (with_body section body')]>
                   (_doc_parts self)))
  | Raise e =>
      (Raise e, with_parts self
                  (<[sec_class section := Some section]> (_doc_parts self)))
  end.
Proof.
  intros Hb Hp. unfold merge_section.
  destruct (sec_body section) as [|n l] eqn:Hbody; [congruence|].
  unfold_M. rewrite Hp. cbn [fst snd].
  destruct (ensure_last_eol_body (n :: l)); [|reflexivity].
  unfold with_parts. cbn. by rewrite insert_insert_eq.
Qed.

(** A later section of a class other than the test cases. *)
Lemma merge_section_append section (self : RobotFrameworkInterpreter) current :
  sec_body section ≠ [] →
  _doc_parts self !! sec_class section = Some (Some current) →
  sec_class current ≠ "TestCaseSection" →
  merge_section section self =
  let body := (sec_body current ++ sec_body section)%list in
  match ensure_last_eol_body body with
  | Ok body' =>
      (Ok tt, with_parts self
                (<[sec_class section := Some (with_body current body')]>
                   (_doc_parts self)))
  | Raise e =>
      (Raise e, with_parts self
                  (<[sec_class section := Some (with_body current body)]>
                     (_doc_parts self)))
  end.
Proof.
  intros Hb Hp Hc. unfold merge_section.
  destruct (sec_body section) as [|n l] eqn:Hbody; [congruence|].
  unfold_M. rewrite Hp. rewrite decide_False by done. cbn [fst snd].
  destruct (ensure_last_eol_body _); [|reflexivity].
  unfold with_parts. cbn. by rewrite insert_insert_eq.
Qed.

(** A later section of test cases: its test bodies go to the last entry
    of the stored section. *)
Lemma merge_section_tests section (self : RobotFrameworkInterpreter) current
    init cls header body orelse end_ :
  sec_body section ≠ [] →
  _doc_parts self !! sec_class section = Some (Some current) →
  sec_class current = "TestCaseSection" →
  sec_body current = (init ++ [Block cls header body orelse end_])%list →
  merge_section section self =
  let stored body :=
    with_parts self
      (<[sec_class section :=
           Some (with_body current
                   (init ++ [Block cls header body orelse end_])%list)]>
         (_doc_parts self)) in
  match extend_with_bodies body (sec_body section) with
  | (Raise e, body1) => (Raise e, stored body1)
  | (Ok _, body1) =>
      match ensure_last_eol_body body1 with
      | Ok body' => (Ok tt, stored body')
      | Raise e => (Raise e, stored body1)
      end
  end.
Proof.
  intros Hb Hp Hc Hcur. unfold merge_section.
  destruct (sec_body section) as [|n l] eqn:Hbody; [congruence|].
  unfold_M. rewrite Hp. rewrite decide_True by done.
  rewrite Hcur, unsnoc_snoc.
  destruct (extend_with_bodies body (n :: l)) as [[[]|e] body1]; cbn [fst snd];
    [|reflexivity].
  destruct (ensure_last_eol_body body1); [|reflexivity].
  unfold with_parts. cbn. by rewrite insert_insert_eq.
Qed.

(** A stored section of test cases whose last entry is a statement, or
    that has no entry. *)
Lemma merge_section_tests_raise section (self : RobotFrameworkInterpreter)
    current :
  sec_body section ≠ [] →
  _doc_parts self !! sec_class section = Some (Some current) →
  sec_class current = "TestCaseSection" →
  (∀ init cls header body orelse end_,
     sec_body current ≠ (init ++ [Block cls header body orelse end_])%list) →
  ∃ e, merge_section section self = (Raise e, self).
Proof.
  intros Hb Hp Hc Hcur. unfold merge_section.
  destruct (sec_body section) as [|n l] eqn:Hbody; [congruence|].
  unfold_M. rewrite Hp. rewrite decide_True by done.
  destruct (unsnoc (sec_body current)) as [[init [c t|c h b o e]]|] eqn:Hu;
    eauto.
  apply unsnoc_Some in Hu. by apply Hcur in Hu.
Qed.

End MergeSection.

(** ** What a merge keeps and where it adds *)

Lemma last_statement_of_snoc init n :
  last_statement_of (init ++ [n]) = last_statement n.
Proof.
  induction init as [|m l IH]; [done|].
  change ((m :: l) ++ [n])%list with (m :: (l ++ [n]))%list.
  cbn [last_statement_of]. destruct (l ++ [n])%list eqn:Hl; [|done].
  by destruct l.
Qed.

#[export] Instance grows_pre : PreOrder grows.
Proof.
  split.
  - intros parts k acc Hk. eauto.
  - intros p1 p2 p3 H12 H23 k acc Hk.
    destruct (H12 _ _ Hk) as (acc2 & Hk2 & Hc2 & Hs2).
    destruct (H23 _ _ Hk2) as (acc3 & Hk3 & Hc3 & Hs3).
    exists acc3. split; [done|]. split; [congruence|by etrans].
Qed.

#[export] Instance keeps_keys_pre : PreOrder keeps_keys.
Proof. split; [by intros p k|]. intros p1 p2 p3 H12 H23 k Hk. eauto. Qed.

Lemma grows_insert parts name old new :
  parts !! name = Some old →
  (∀ acc, old = Some acc →
     sec_class new = sec_class acc
     ∧ section_statements acc `sublist_of` section_statements new) →
  grows parts (<[name := Some new]> parts).
Proof.
  intros Hold Hnew k acc Hk. destruct (decide (k = name)) as [->|Hne].
  - rewrite lookup_insert_eq. rewrite Hold in Hk. simplify_eq.
    destruct (Hnew acc eq_refl). eauto.
  - rewrite lookup_insert_ne by done. eauto.
Qed.

Lemma keeps_keys_insert parts name (new : option Section) :
  keeps_keys parts (<[name := new]> parts).
Proof.
  intros k Hk. destruct (decide (k = name)) as [->|Hne].
  - rewrite lookup_insert_eq. eauto.
  - by rewrite lookup_insert_ne.
Qed.

Section Grows.

Context {facade : RobotFrameworkFacade}.
Variable ast_to_code : Section → string.
Variable format_exc : Exception → string.

#[local] Instance parts_grow_pre : PreOrder parts_grow.
Proof.
  split; [by split|]. intros x y z [] []. split; by etrans.
Qed.

Lemma merge_section_grows section (self : RobotFrameworkInterpreter) :
  parts_grow self (merge_section section self).2.
Proof.
  destruct (sec_body section) as [|n0 l0] eqn:Hbody.
  { rewrite merge_section_skip by eauto. done. }
  assert (sec_body section ≠ []) as Hne by congruence.
  destruct (_doc_parts self !! sec_class section) as [[current|]|] eqn:Hp.
  - destruct (decide (sec_class current = "TestCaseSection")) as [Hc|Hc].
    + destruct (unsnoc (sec_body current)) as [[init [c t|c h b o e]]|] eqn:Hu.
      * destruct (merge_section_tests_raise section self current)
          as [e ->]; try done.
        intros ?????? Hcur. rewrite Hcur, unsnoc_snoc in Hu. simplify_eq.
      * apply unsnoc_Some in Hu.
        rewrite (merge_section_tests _ _ _ _ _ _ _ _ _ Hne Hp Hc Hu).
        cbn zeta.
        destruct (extend_with_bodies b (sec_body section)) as [r body1] eqn:He.
        apply extend_with_bodies_app in He as (ext & -> & _).
        assert (∀ body', flat_map statements body'
                         = flat_map statements (b ++ ext) →
          parts_grow self (with_parts self
            (<[sec_class section :=
                 Some (with_body current (init ++ [Block c h body' o e]))]>
               (_doc_parts self)))) as Hgrow.
        { intros body' Hs. split; [|apply keeps_keys_insert].
          eapply grows_insert; [done|]. intros ? [= <-]. split; [done|].
          rewrite section_statements_with_body. unfold section_statements.
          rewrite Hu, !flat_map_statements_snoc.
          apply sublist_app; [done|]. apply sublist_app; [done|].
          etrans; [apply (statements_Block_sublist _ _ _ ext)|].
          cbn [statements]. by rewrite Hs. }
        destruct r as [[]|e1]; [|by apply Hgrow].
        destruct (ensure_last_eol_body (b ++ ext)) as [body'|e1] eqn:Hw;
          [|by apply Hgrow].
        apply Hgrow. by apply ensure_last_eol_body_Ok in Hw as (_ & ? & _).
      * destruct (merge_section_tests_raise section self current)
          as [e ->]; try done.
        intros ?????? Hcur. rewrite Hcur, unsnoc_snoc in Hu. simplify_eq.
    + rewrite (merge_section_append _ _ _ Hne Hp Hc). cbn zeta.
      assert (∀ body', flat_map statements body'
                       = flat_map statements (sec_body current ++ sec_body section) →
        parts_grow self (with_parts self
          (<[sec_class section := Some (with_body current body')]>
             (_doc_parts self)))) as Hgrow.
      { intros body' Hs. split; [|apply keeps_keys_insert].
        eapply grows_insert; [done|]. intros ? [= <-]. split; [done|].
        rewrite section_statements_with_body, Hs, flat_map_app.
        unfold section_statements.
        apply sublist_app; [done|]. by apply sublist_inserts_r. }
      destruct (ensure_last_eol_body _) as [body'|e1] eqn:Hw; [|by apply Hgrow].
      apply Hgrow. by apply ensure_last_eol_body_Ok in Hw as (_ & ? & _).
  - rewrite (merge_section_first _ _ Hne Hp).
    destruct (ensure_last_eol_body _);
      (split; [|apply keeps_keys_insert]);
      (eapply grows_insert; [done|]); intros ? [=].
  - rewrite merge_section_skip by eauto. done.
Qed.

Lemma _evaluate_grows code (self : RobotFrameworkInterpreter) :
  parts_grow self (_evaluate code self).2.
Proof.
  rewrite _evaluate_phases. cbn zeta.
  destruct (get_model _) as [model|e0]; [|done].
  destruct (sections _) as [|s0 l]; [done|].
  destruct (_CustomErrorReporter.visit_File _ _) as [[]|e]; [|done].
  pose proof (dispatch_frame model
                (with_default_block_mode self)) as (Hd & _ & _).
  destruct (dispatch _ _) as [[[]|e] s1]; cbn [snd] in *.
  2:{ unfold parts_grow. rewrite Hd. done. }
  pose proof (for_each_preserves parts_grow (s0 :: l) merge_section
                merge_section_grows s1) as Hm.
  assert (parts_grow self s1) as H1.
  { unfold parts_grow. rewrite Hd. done. }
  destruct (for_each (s0 :: l) merge_section s1) as [[[]|e] s2]; cbn [snd] in *;
    by etrans.
Qed.

Lemma evaluate_grows code (self : RobotFrameworkInterpreter) :
  parts_grow self (evaluate format_exc code self).2.
Proof.
  etrans; [apply (_evaluate_grows code)|].
  destruct (evaluate_frame format_exc code self) as (_ & _ & Hp).
  unfold parts_grow. rewrite Hp. done.
Qed.

Lemma evaluate_all_grows codes (self : RobotFrameworkInterpreter) :
  parts_grow self (evaluate_all format_exc codes self).
Proof.
  revert self. induction codes as [|code codes IH]; intros self; [done|].
  etrans; [apply (evaluate_grows code)|apply IH].
Qed.

Lemma reachable_keys (self : RobotFrameworkInterpreter) :
  reachable ast_to_code format_exc self →
  ∀ k, k ∈ default_sections → is_Some (_doc_parts self !! k).
Proof.
  induction 1 as [rt|code self _ IH|code tt self _ IH]; intros k Hk.
  - unfold default_sections in Hk.
    repeat (apply elem_of_cons in Hk as [->|Hk]; [by eexists|]).
    by apply elem_of_nil in Hk.
  - by apply (evaluate_grows code self), IH.
  - rewrite compute_evaluate_text_state. by apply IH.
Qed.

Lemma reachable_evaluate_all codes (self : RobotFrameworkInterpreter) :
  reachable ast_to_code format_exc self →
  reachable ast_to_code format_exc (evaluate_all format_exc codes self).
Proof.
  revert self. induction codes as [|code codes IH]; intros self H; [done|].
  apply IH. by constructor.
Qed.

Lemma collect_parts_rendered parts names full_doc :
  (∀ k, k ∈ names → is_Some (parts !! k)) →
  collect_parts ast_to_code parts names full_doc
  = Ok (full_doc ++ omap (rendered ast_to_code parts) names)%list.
Proof.
  revert full_doc. induction names as [|name names IH]; intros full_doc Hk.
  - simpl. by rewrite app_nil_r.
  - cbn [collect_parts].
    change (omap (rendered ast_to_code parts) (name :: names))
      with (match rendered ast_to_code parts name with
            | Some y => y :: omap (rendered ast_to_code parts) names
            | None => omap (rendered ast_to_code parts) names
            end).
    assert (∀ k, k ∈ names → is_Some (parts !! k)) as Hk'.
    { intros; apply Hk. by right. }
    destruct (Hk name) as [[part|] Hp]; [by left|rewrite Hp..].
    + cbn zeta. destruct (decide (Py.strip (ast_to_code part) = "")) as [He|He].
      * assert (rendered ast_to_code parts name = None) as ->.
        { unfold rendered. rewrite Hp. cbn zeta. by rewrite decide_True. }
        by apply IH.
      * assert (rendered ast_to_code parts name
                = Some (Py.strip (ast_to_code part))) as ->.
        { unfold rendered. rewrite Hp. cbn zeta. by rewrite decide_False. }
        rewrite IH by done. by rewrite <- app_assoc.
    + assert (rendered ast_to_code parts name = None) as ->.
      { unfold rendered. by rewrite Hp. }
      by apply IH.
Qed.

Lemma full_doc_fixed_order (self : RobotFrameworkInterpreter) :
  (∀ k, k ∈ default_sections → is_Some (_doc_parts self !! k)) →
  answer (full_doc ast_to_code) self
  = Ok (fixed_order_document ast_to_code (_doc_parts self)).
Proof.
  intros Hk. unfold answer, full_doc, _compute_full_doc.
  unfold mbind, M_bind, mret, M_ret, gets, lift.
  rewrite decide_True by done. cbn [fst snd].
  rewrite (collect_parts_rendered _ _ [] Hk). done.
Qed.

(** With a section name, the document has that section last and the
    others in the fixed order. *)
Lemma _compute_full_doc_current_last (self : RobotFrameworkInterpreter) name :
  name ∈ default_sections →
  (∀ k, k ∈ default_sections → is_Some (_doc_parts self !! k)) →
  answer (_compute_full_doc ast_to_code name) self
  = Ok (Py.strip (Py.join Py.LF
          (omap (rendered ast_to_code (_doc_parts self))
             (filter (λ k, k ≠ name) default_sections ++ [name])%list))).
Proof.
  intros Hname Hk. unfold answer, _compute_full_doc.
  unfold mbind, M_bind, mret, M_ret, gets, lift.
  assert (name ≠ "" ∧ list_remove name default_sections
          = Ok (filter (λ k, k ≠ name) default_sections)) as [Hne Hrm].
  { unfold default_sections in Hname.
    repeat (apply elem_of_cons in Hname as [->|Hname]; [by vm_compute|]).
    by apply elem_of_nil in Hname. }
  rewrite decide_False by done. rewrite Hrm. cbn [rbind fst snd].
  rewrite collect_parts_rendered; [done|].
  intros k [Hin| ->%list_elem_of_singleton]%elem_of_app; [|by apply Hk].
  apply Hk. by apply list_elem_of_filter in Hin as [_ ?].
Qed.

End Grows.

Section MergeTheorems.

Context {facade : RobotFrameworkFacade}.
Variable ast_to_code : Section → string.
Variable format_exc : Exception → string.

(** A successful merge of test cases into stored test cases. *)
Lemma merge_section_tests_Ok section (self self' : RobotFrameworkInterpreter)
    current :
  sec_body section ≠ [] →
  _doc_parts self !! sec_class section = Some (Some current) →
  sec_class current = "TestCaseSection" →
  merge_section section self = (Ok tt, self') →
  ∃ init cls header body orelse end_ body',
    sec_body current = (init ++ [Block cls header body orelse end_])%list
    ∧ ensure_last_eol_body (body ++ flat_map node_body (sec_body section))
      = Ok body'
    ∧ self' = with_parts self
        (<[sec_class section :=
             Some (with_body current
                     (init ++ [Block cls header body' orelse end_]))]>
           (_doc_parts self)).
Proof.
  intros Hne Hp Hc Hm.
  destruct (unsnoc (sec_body current)) as [[init [c t|c h b o e]]|] eqn:Hu.
  - destruct (merge_section_tests_raise section self current) as [e He];
      try done; [|congruence].
    intros ?????? Hcur. rewrite Hcur, unsnoc_snoc in Hu. simplify_eq.
  - apply unsnoc_Some in Hu.
    rewrite (merge_section_tests _ _ _ _ _ _ _ _ _ Hne Hp Hc Hu) in Hm.
    cbn zeta in Hm.
    destruct (extend_with_bodies b (sec_body section)) as [r body1] eqn:He.
    apply extend_with_bodies_app in He as (ext & -> & Hext).
    destruct r as [[]|e1]; [|done]. rewrite (Hext eq_refl) in Hm.
    destruct (ensure_last_eol_body _) as [body'|e1] eqn:Hw; [|done].
    simplify_eq. eauto 10.
  - destruct (merge_section_tests_raise section self current) as [e He];
      try done; [|congruence].
    intros ?????? Hcur. rewrite Hcur, unsnoc_snoc in Hu. simplify_eq.
Qed.

Lemma merge_section_appended section (s s' : RobotFrameworkInterpreter)
    current :
  merge_section section s = (Ok tt, s') →
  sec_body section ≠ [] →
  _doc_parts s !! sec_class section = Some (Some current) →
  ∃ acc', _doc_parts s' !! sec_class section = Some (Some acc')
          ∧ sec_class acc' = sec_class current
          ∧ sec_header acc' = sec_header current
          ∧ appended current section acc'.
Proof.
  intros Hm Hne Hp.
  destruct (decide (sec_class current = "TestCaseSection")) as [Hc|Hc].
  - destruct (merge_section_tests_Ok _ _ _ _ Hne Hp Hc Hm)
      as (init & c & h & b & o & e & body' & Hcur & Hw & ->).
    eexists. split; [apply lookup_insert_eq|]. split; [done|]. split; [done|].
    split; [done|]. intros _ init0 c0 h0 b0 Hcur0.
    rewrite Hcur in Hcur0. apply app_inj_tail in Hcur0 as [-> [= -> -> -> -> ->]].
    apply ensure_last_eol_body_Ok in Hw as (_ & Hs & _).
    rewrite section_statements_with_body. unfold section_statements.
    rewrite Hcur, !flat_map_statements_snoc. cbn [statements from_option].
    rewrite Hs, flat_map_app, !app_nil_r, <- !app_assoc. done.
  - rewrite (merge_section_append _ _ _ Hne Hp Hc) in Hm. cbn zeta in Hm.
    destruct (ensure_last_eol_body _) as [body'|e1] eqn:Hw; [|done].
    simplify_eq.
    eexists. split; [apply lookup_insert_eq|]. split; [done|]. split; [done|].
    split; [|done]. intros _.
    apply ensure_last_eol_body_Ok in Hw as (_ & Hs & _).
    rewrite section_statements_with_body, Hs, flat_map_app.
    unfold section_statements. by rewrite <- app_assoc.
Qed.

(** The body a successful merge leaves, from the one its last step starts
    from. *)
Lemma merge_section_walk section (self self' : RobotFrameworkInterpreter)
    stored :
  sec_body section ≠ [] →
  _doc_parts self !! sec_class section = Some stored →
  merge_section section self = (Ok tt, self') →
  ∃ acc' tokens tokens',
    _doc_parts self' !! sec_class section = Some (Some acc')
    ∧ last_statement_of (merged_body section stored) = Some tokens
    ∧ ensure_last_eol tokens = Ok tokens'
    ∧ last_statement_of (sec_body acc') = Some tokens'.
Proof.
  intros Hne Hp Hm. destruct stored as [current|].
  - unfold merged_body.
    destruct (decide (sec_class current = "TestCaseSection")) as [Hc|Hc].
    + destruct (merge_section_tests_Ok _ _ _ _ Hne Hp Hc Hm)
        as (init & c & h & b & o & e & body' & Hcur & Hw & ->).
      rewrite Hcur, unsnoc_snoc.
      apply ensure_last_eol_body_Ok in Hw as (_ & _ & tk & tk' & ? & ? & ?).
      eexists _, tk, tk'. split; [apply lookup_insert_eq|].
      split; [done|]. split; [done|].
      cbn [with_body sec_body]. by rewrite last_statement_of_snoc.
    + rewrite (merge_section_append _ _ _ Hne Hp Hc) in Hm. cbn zeta in Hm.
      destruct (ensure_last_eol_body _) as [body'|e1] eqn:Hw; [|done].
      simplify_eq.
      apply ensure_last_eol_body_Ok in Hw as (_ & _ & tk & tk' & ? & ? & ?).
      eexists _, tk, tk'. split; [apply lookup_insert_eq|]. done.
  - rewrite (merge_section_first _ _ Hne Hp) in Hm.
    destruct (ensure_last_eol_body _) as [body'|e1] eqn:Hw; [|done].
    simplify_eq.
    apply ensure_last_eol_body_Ok in Hw as (_ & _ & tk & tk' & ? & ? & ?).
    eexists _, tk, tk'. split; [apply lookup_insert_eq|]. done.
Qed.

(** X22: after a successful merge of a section with a body into the
    document parts, the statement the walk from the last entry of the
    stored body ends at (the last statement of the innermost last body,
    not the end of a block) ends with a line-end token that holds one
    line feed: when the last token of that statement was an empty
    line-end token it now holds the line feed, and in every other case a
    line-end token with a line feed was added after the tokens that were
    there. *)
Theorem merge_ends_with_line_feed_token section
    (self self' : RobotFrameworkInterpreter) stored :
  sec_body section ≠ [] →
  _doc_parts self !! sec_class section = Some stored →
  merge_section section self = (Ok tt, self') →
  ∃ acc' tokens tokens' last_token,
    _doc_parts self' !! sec_class section = Some (Some acc')
    ∧ last_statement_of (merged_body section stored) = Some tokens
    ∧ last_statement_of (sec_body acc') = Some tokens'
    ∧ last tokens' = Some last_token
    ∧ type last_token = TokenType.EOL ∧ value last_token = Py.LF
    ∧ ((∃ init t, tokens = (init ++ [t])%list ∧ type t = TokenType.EOL
                  ∧ value t = ""
                  ∧ tokens' = (init ++ [mkToken (type t) Py.LF (lineno t)
                                          (error t)])%list)
       ∨ (tokens' = (tokens ++ [Token_ "EOL" Py.LF])%list
          ∧ ∀ init t, tokens = (init ++ [t])%list →
              ¬ (type t = TokenType.EOL ∧ value t = ""))).
Proof.
  intros Hne Hp Hm.
  destruct (merge_section_walk _ _ _ _ Hne Hp Hm)
    as (acc' & tokens & tokens' & Hacc & Hbefore & He & Hafter).
  destruct (ensure_last_eol_last _ _ He) as (t & Hlast & Hty & Hval).
  exists acc', tokens, tokens', t. repeat (split; [done|]).
  apply ensure_last_eol_Ok in He as [?|(_ & ? & ?)]; [by left|by right].
Qed.

End MergeTheorems.

Section TestCases.

Context {facade : RobotFrameworkFacade}.
Variable ast_to_code : Section → string.
Variable format_exc : Exception → string.

(** A successful call on a model of one section: the state before the
    merge has the document parts of the start, and the merge succeeds. *)
Lemma evaluate_one_section code (self : RobotFrameworkInterpreter) model
    section :
  get_model (code_to_parse code self) = Ok model →
  sections model = [section] →
  success (evaluate format_exc code self).1 = true →
  ∃ s1 s2 : RobotFrameworkInterpreter,
    _doc_parts s1 = _doc_parts self
    ∧ merge_section section s1 = (Ok tt, s2)
    ∧ _doc_parts (evaluate format_exc code self).2 = _doc_parts s2.
Proof.
  intros Hg Hs. unfold evaluate. rewrite _evaluate_phases. cbn zeta.
  rewrite Hg, Hs.
  destruct (_CustomErrorReporter.visit_File _ _) as [[]|e]; [|done].
  pose proof (dispatch_frame model
                (with_default_block_mode self)) as (Hd & _ & _).
  destruct (dispatch _ _) as [[[]|e] s1]; cbn [fst snd] in *; [|done].
  cbn [for_each]. unfold mbind, M_bind, mret, M_ret.
  destruct (merge_section section s1) as [[[]|e] s2] eqn:Hm; cbn [fst snd];
    [|done].
  intros _. exists s1, s2. done.
Qed.

Lemma init_parts (rt : Runtime) k :
  k ∈ default_sections → _doc_parts (__init__ rt) !! k = Some None.
Proof.
  unfold default_sections. intros Hk.
  repeat (apply elem_of_cons in Hk as [->|Hk]; [by vm_compute|]).
  by apply elem_of_nil in Hk.
Qed.

Lemma init_block_mode (rt : Runtime) :
  _last_block_mode (__init__ rt) = default_block_mode.
Proof. cbn. by rewrite block_mode_TestCaseSection. Qed.

(** X23: a successful merge of a section with test content into stored
    test cases puts the bodies of all its tests, in order, at the end of
    the body of the last stored test, and the stored section has as many
    entries as before. So after two bare fragments, each parsed to one
    test and evaluated successfully one after the other on a new
    interpreter, the stored test cases are one test, with the header of
    the first fragment and the statements of both fragments in its body,
    and [full_doc] is the text of that section. *)
Theorem tests_go_to_the_last_stored_test (rt : Runtime) code1 code2
    hdr1 c1 th1 body1 o1 e1 hdr2 c2 th2 body2 o2 e2 :
  Py.startswith (Py.strip code1) "***" = false →
  Py.startswith (Py.strip code2) "***" = false →
  get_model (default_block_mode +:+ code1)
  = Ok (mkFile [mkSection "TestCaseSection" hdr1
                  [Block c1 th1 body1 o1 e1]]) →
  get_model (default_block_mode +:+ code2)
  = Ok (mkFile [mkSection "TestCaseSection" hdr2
                  [Block c2 th2 body2 o2 e2]]) →
  let first := evaluate format_exc code1 (__init__ rt) in
  let second := evaluate format_exc code2 first.2 in
  success first.1 = true →
  success second.1 = true →
  (∀ section (self self' : RobotFrameworkInterpreter) current,
     sec_body section ≠ [] →
     _doc_parts self !! sec_class section = Some (Some current) →
     sec_class current = "TestCaseSection" →
     merge_section section self = (Ok tt, self') →
     ∃ init cls header body orelse end_ body' acc',
       sec_body current = (init ++ [Block cls header body orelse end_])%list
       ∧ ensure_last_eol_body (body ++ flat_map node_body (sec_body section))
         = Ok body'
       ∧ acc' = with_body current (init ++ [Block cls header body' orelse end_])
       ∧ _doc_parts self' !! sec_class section = Some (Some acc')
       ∧ length (sec_body acc') = length (sec_body current))
  ∧ ∃ body1' body',
      ensure_last_eol_body body1 = Ok body1'
      ∧ ensure_last_eol_body (body1' ++ body2) = Ok body'
      ∧ flat_map statements body'
        = (flat_map statements body1 ++ flat_map statements body2)%list
      ∧ let acc := mkSection "TestCaseSection" hdr1
                     [Block c1 th1 body' o1 e1] in
        _doc_parts second.2 !! "TestCaseSection" = Some (Some acc)
        ∧ answer (full_doc ast_to_code) second.2
          = Ok (Py.strip (Py.strip (ast_to_code acc))).
Proof.
  intros Hb1 Hb2 Hm1 Hm2 first second Hok1 Hok2. split.
  { intros section self self' current Hne Hp Hc Hm.
    destruct (merge_section_tests_Ok _ _ _ _ Hne Hp Hc Hm)
      as (init & c & h & b & o & e & body' & Hcur & Hw & ->).
    exists init, c, h, b, o, e, body'. eexists. split; [done|].
    split; [done|]. split; [done|]. split; [apply lookup_insert_eq|].
    cbn [with_body sec_body]. rewrite Hcur, !length_app. done. }
  assert (reachable ast_to_code format_exc first.2) as Hr1.
  { subst first. apply reachable_evaluate. constructor. }
  assert (reachable ast_to_code format_exc second.2) as Hr2.
  { subst second. by apply reachable_evaluate. }
  (* the first fragment *)
  assert (code_to_parse code1 (__init__ rt) = default_block_mode +:+ code1)
    as Hc1.
  { unfold code_to_parse. by rewrite Hb1, init_block_mode. }
  destruct (evaluate_one_section code1 (__init__ rt) _ _
              ltac:(rewrite Hc1; exact Hm1) eq_refl Hok1)
    as (s1 & s1' & Hp1 & Hmg1 & Hf1).
  assert (_doc_parts s1 !! "TestCaseSection" = Some None) as Hl1.
  { rewrite Hp1. apply init_parts. unfold default_sections.
    repeat first [apply list_elem_of_here|apply list_elem_of_further]. }
  rewrite merge_section_first in Hmg1 by done.
  cbn [sec_body sec_class] in Hmg1.
  destruct (ensure_last_eol_body [Block c1 th1 body1 o1 e1])
    as [b1|] eqn:Hw1; [|done].
  cbn [ensure_last_eol_body] in Hw1. rewrite ensure_last_eol_node_Block in Hw1.
  destruct (ensure_last_eol_body body1) as [body1'|] eqn:Hw1'; [|done].
  cbn [rbind] in Hw1. simplify_eq.
  (* the second fragment *)
  assert (code_to_parse code2 first.2 = default_block_mode +:+ code2) as Hc2.
  { unfold code_to_parse. rewrite Hb2.
    pose proof (reachable_block_mode _ _ _ Hr1) as [= _ ->]. done. }
  destruct (evaluate_one_section code2 first.2 _ _
              ltac:(rewrite Hc2; exact Hm2) eq_refl Hok2)
    as (s2 & s2' & Hp2 & Hmg2 & Hf2).
  subst second first. rewrite Hf1 in Hp2. cbn [with_parts _doc_parts] in Hp2.
  destruct (merge_section_tests_Ok
              (mkSection "TestCaseSection" hdr2 [Block c2 th2 body2 o2 e2])
              s2 s2'
              (with_body (mkSection "TestCaseSection" hdr1
                            [Block c1 th1 body1 o1 e1])
                 [Block c1 th1 body1' o1 e1])
              ltac:(done) ltac:(rewrite Hp2; apply lookup_insert_eq)
              ltac:(done) Hmg2)
    as (init & c & h & b & o & e & body' & Hcur & Hw & ->).
  cbn [with_body sec_body sec_class sec_header flat_map node_body] in *.
  destruct init as [|x init]; [|by destruct init].
  injection Hcur as <- <- <- <- <-. rewrite app_nil_r in Hw.
  exists body1', body'. split; [done|]. split; [done|]. split.
  { apply ensure_last_eol_body_Ok in Hw as (_ & -> & _).
    apply ensure_last_eol_body_Ok in Hw1' as (_ & Hs1 & _).
    by rewrite flat_map_app, Hs1. }
  cbn zeta. rewrite Hf2. cbn [with_parts _doc_parts].
  split; [apply lookup_insert_eq|].
  rewrite (full_doc_fixed_order ast_to_code)
    by (by apply (reachable_keys ast_to_code format_exc)).
  rewrite Hf2. cbn [with_parts _doc_parts]. rewrite Hp2.
  unfold fixed_order_document. cbn [omap list_omap].
  assert (∀ k acc, k ≠ "TestCaseSection" → k ∈ default_sections →
            rendered ast_to_code
              (<["TestCaseSection" := Some acc]>
                 (<["TestCaseSection" :=
                      Some (mkSection "TestCaseSection" hdr1
                              [Block c1 th1 body1' o1 e1])]>
                    (_doc_parts s1))) k = None) as Hother.
  { intros k acc Hk Hin. unfold rendered.
    rewrite !lookup_insert_ne by done. rewrite Hp1, init_parts; done. }
  rewrite !Hother
    by (done || unfold default_sections;
        repeat first [apply list_elem_of_here|apply list_elem_of_further]).
  unfold rendered. rewrite lookup_insert_eq.
  unfold with_body. cbn [app sec_class sec_header].
  destruct (decide _) as [He|Hne]; [by rewrite He|done].
Qed.

End TestCases.

(** * Properties of a session *)

(** ** Python strings *)

Lemma lstrip_not_space c s :
  Py.isspace c = false → Py.lstrip (String c s) = String c s.
Proof. intros H. cbn [Py.lstrip]. by rewrite H. Qed.

Lemma rstrip_not_space c s :
  Py.isspace c = false → Py.rstrip (String c s) = String c (Py.rstrip s).
Proof. intros H. cbn [Py.rstrip]. rewrite H. by destruct (Py.rstrip s). Qed.

(** What [lstrip] leaves starts with no whitespace. *)
Lemma lstrip_head s :
  match Py.lstrip s with
  | EmptyString => True
  | String c _ => Py.isspace c = false
  end.
Proof.
  induction s as [|c s IH]; [done|]. cbn [Py.lstrip].
  destruct (Py.isspace c) eqn:Hc; [exact IH|exact Hc].
Qed.

Lemma rstrip_idempotent s : Py.rstrip (Py.rstrip s) = Py.rstrip s.
Proof.
  induction s as [|c s IH]; [done|]. cbn [Py.rstrip].
  destruct (Py.rstrip s) as [|d r] eqn:Hr.
  - destruct (Py.isspace c) eqn:Hc; [done|]. cbn [Py.rstrip]. by rewrite Hc.
  - cbn [Py.rstrip]. cbn [Py.rstrip] in IH. rewrite IH. done.
Qed.

Lemma strip_lstrip s : Py.lstrip (Py.strip s) = Py.strip s.
Proof.
  unfold Py.strip. pose proof (lstrip_head s) as H.
  destruct (Py.lstrip s) as [|c r]; [done|].
  rewrite (rstrip_not_space _ _ H). by apply lstrip_not_space.
Qed.

Lemma strip_rstrip s : Py.rstrip (Py.strip s) = Py.strip s.
Proof. unfold Py.strip. apply rstrip_idempotent. Qed.

Lemma strip_idempotent s : Py.strip (Py.strip s) = Py.strip s.
Proof. unfold Py.strip at 1. by rewrite strip_lstrip, strip_rstrip. Qed.

(** The default block mode in front keeps a fragment a section. *)
Lemma default_block_mode_starts_section code :
  Py.startswith (Py.strip (default_block_mode +:+ code)) "***" = true.
Proof.
  unfold Py.strip.
  change (default_block_mode +:+ code)
    with (String "*" (String "*" (String "*"
            ((" Test Case ***" +:+ Py.LF +:+ "Default Task/Test" +:+ Py.LF
              +:+ "    ") +:+ code)))).
  rewrite lstrip_not_space by done.
  rewrite !rstrip_not_space by done. unfold Py.startswith.
  by destruct (Py.rstrip _).
Qed.

Section Session.

Context {facade : RobotFrameworkFacade}.
Variable ast_to_code : Section → string.
Variable format_exc : Exception → string.

(** In a reachable state the current section is the last of the fixed
    order. *)
Lemma reachable_current_last (self : RobotFrameworkInterpreter) :
  reachable ast_to_code format_exc self →
  _compute_full_doc ast_to_code (_last_section_name self) self
  = _compute_full_doc ast_to_code "" self.
Proof.
  intros Hr. pose proof (reachable_block_mode _ _ _ Hr) as [= -> _].
  reflexivity.
Qed.

(** X1: in a reachable state neither [full_doc] nor
    [compute_evaluate_text] raises, whatever the code and the target type:
    no key of the document parts is missing and the current section is in
    the list it is removed from. *)
Theorem rendering_never_raises code target_type
    (self : RobotFrameworkInterpreter) :
  reachable ast_to_code format_exc self →
  (∃ doc, answer (full_doc ast_to_code) self = Ok doc)
  ∧ ∃ r, answer (compute_evaluate_text ast_to_code code target_type) self
         = Ok r.
Proof.
  intros Hr.
  pose proof (full_doc_fixed_order ast_to_code self
                (reachable_keys _ _ _ Hr)) as Hdoc.
  split; [eauto|].
  unfold full_doc in Hdoc.
  unfold answer, compute_evaluate_text, full_doc.
  destruct (decide (target_type = "completions")).
  - destruct (Py.startswith _ _).
    + unfold mbind, M_bind, mret, M_ret. rewrite _compute_full_doc_run, Hdoc.
      eauto.
    + unfold mbind, M_bind, mret, M_ret, gets.
      destruct (_doc_parts self !! _last_section_name self) as [[cur|]|].
      * rewrite (reachable_current_last _ Hr).
        rewrite _compute_full_doc_run, Hdoc.
        destruct (Py.rpartition _ _) as [[fp dl] ll].
        destruct (decide _); eauto.
      * rewrite _compute_full_doc_run, Hdoc. eauto.
      * rewrite _compute_full_doc_run, Hdoc. eauto.
  - destruct (negb _); cbn; eauto.
Qed.

(** X2: in a reachable state a fragment that starts no section is
    evaluated as the same fragment typed under the default test header:
    the two calls return the same result and leave the same state. *)
Theorem bare_fragment_is_the_default_test code
    (self : RobotFrameworkInterpreter) :
  reachable ast_to_code format_exc self →
  Py.startswith (Py.strip code) "***" = false →
  evaluate format_exc code self
  = evaluate format_exc (default_block_mode +:+ code) self.
Proof.
  intros Hr Hbare.
  assert (code_to_parse code self
          = code_to_parse (default_block_mode +:+ code) self) as Hc.
  { unfold code_to_parse.
    rewrite Hbare, default_block_mode_starts_section. cbn [negb].
    pose proof (reachable_block_mode _ _ _ Hr) as [= _ ->]. done. }
  unfold evaluate. rewrite !_evaluate_phases. cbn zeta.
  unfold failure_phase. rewrite <- Hc. done.
Qed.

(** X3: the text [_compute_full_doc] returns is stripped: it starts and
    ends with no whitespace, so stripping it again changes nothing. *)
Theorem rendered_document_is_stripped name
    (self : RobotFrameworkInterpreter) doc :
  answer (_compute_full_doc ast_to_code name) self = Ok doc →
  Py.lstrip doc = doc ∧ Py.rstrip doc = doc ∧ Py.strip doc = doc.
Proof.
  unfold answer, _compute_full_doc.
  unfold mbind, M_bind, mret, M_ret, gets, lift. cbn [fst snd].
  destruct (if decide (name = "") then _ else _) as [names|]; [|done].
  cbn [fst snd]. destruct (collect_parts _ _ _ _) as [parts|]; [|done].
  cbn [fst snd]. intros [= <-].
  by rewrite strip_lstrip, strip_rstrip, strip_idempotent.
Qed.

(** X4: the result of [evaluate] has no [result]; it is a success
    exactly when no phase of the evaluation fails (the parser raises, the
    model has no sections, the validation raises, a builder or the
    running suite raises, the update of the document parts raises); a
    success has no message, and a failure has a message that starts with
    ["Error while evaluating: "]. *)
Theorem evaluate_result_shape code (self : RobotFrameworkInterpreter) :
  let r := (evaluate format_exc code self).1 in
  result r = None
  ∧ (success r = true ↔ failure_phase code self = None)
  ∧ (success r = true → message r = None)
  ∧ (success r = false →
     ∃ text, message r = Some ("Error while evaluating: " +:+ text)).
Proof.
  cbn zeta. unfold evaluate. rewrite _evaluate_phases. cbn zeta.
  unfold failure_phase.
  repeat case_match; simplify_eq; cbn;
    (split; [done|split; [done|split; [done|intros ?; by eauto]]]).
Qed.

End Session.

(** ** What goes to [on_stderr] *)

Lemma rev_app_append s1 s2 : String.rev_app s1 s2 = String.rev s1 +:+ s2.
Proof.
  unfold String.rev. revert s2.
  induction s1 as [|c s1 IH]; intros s2; [done|].
  cbn [String.rev_app]. rewrite (IH (String c s2)), (IH (String c "")).
  rewrite append_assoc. reflexivity.
Qed.

Lemma rev_cons c s : String.rev (String c s) = String.rev s +:+ String c "".
Proof. unfold String.rev at 1. cbn [String.rev_app]. apply rev_app_append. Qed.

Lemma concat_empty_cons x xs :
  String.concat "" (x :: xs) = x +:+ String.concat "" xs.
Proof.
  destruct xs; cbn [String.concat]; [by rewrite append_nil_r|reflexivity].
Qed.

Lemma splitlines_go_concat n s cur :
  (String.length s ≤ n)%nat →
  String.concat "" (Py.splitlines_go cur s) = String.rev cur +:+ s.
Proof.
  revert s cur. induction n as [|n IH]; intros s cur Hn.
  - destruct s; [|cbn in Hn; lia]. rewrite append_nil_r.
    by destruct cur.
  - destruct s as [|c s']; [rewrite append_nil_r; by destruct cur|].
    cbn [String.length] in Hn. cbn [Py.splitlines_go].
    destruct (Py.is_linebreak c).
    + destruct s' as [|c' s''].
      * cbn [String.concat]. by rewrite rev_cons.
      * cbn [String.length] in Hn. destruct (decide _).
        -- rewrite concat_empty_cons, IH by lia.
           rewrite !rev_cons, !append_assoc. reflexivity.
        -- rewrite concat_empty_cons, IH by (cbn [String.length]; lia).
           rewrite rev_cons, !append_assoc. reflexivity.
    + rewrite IH by lia. rewrite rev_cons, append_assoc. reflexivity.
Qed.

(** The lines [splitlines(keepends=True)] gives are the text, cut. *)
Lemma splitlines_keepends_concat s :
  String.concat "" (Py.splitlines_keepends s) = s.
Proof. apply (splitlines_go_concat (String.length s)). lia. Qed.

Section Forwarding.

Context {facade : RobotFrameworkFacade}.
Variable format_exc : Exception → string.

Lemma for_each_on_stderr lines (s : RobotFrameworkInterpreter) :
  on_stderr_calls (for_each lines on_stderr s).2
  = (on_stderr_calls s ++ lines)%list.
Proof.
  revert s. induction lines as [|x l IH]; intros s; cbn [for_each].
  - unfold mret, M_ret. cbn. by rewrite app_nil_r.
  - unfold mbind, M_bind. cbn [on_stderr]. rewrite IH. cbn.
    by rewrite <- app_assoc.
Qed.

(** [_evaluate] only adds calls of [on_stderr]; a failure of the parser
    or of the validation adds none. *)
Lemma _evaluate_stderr code (self : RobotFrameworkInterpreter) :
  on_stderr_calls self `prefix_of` on_stderr_calls (_evaluate code self).2
  ∧ (failure_phase code self = Some Parse
     ∨ failure_phase code self = Some Validation →
     (_evaluate code self).2 = self).
Proof.
  rewrite _evaluate_phases. unfold failure_phase. cbn zeta.
  destruct (get_model _) as [model|e0]; [|done].
  destruct (sections _) as [|s0 l] eqn:Hs.
  { split; [by apply prefix_app_r|]. by intros [|]. }
  destruct (_CustomErrorReporter.visit_File _ _) as [[]|e]; [|done].
  pose proof (dispatch_frame model
                (with_default_block_mode self)) as (_ & _ & Hd).
  destruct (dispatch _ _) as [[[]|e] s1]; cbn [snd] in *.
  2:{ split; [done|]. by intros [|]. }
  pose proof (for_each_preserves same_but_doc (s0 :: l) merge_section
                merge_section_frame s1) as (_ & _ & Hm).
  destruct (for_each (s0 :: l) merge_section s1) as [[[]|e] s2];
    cbn [snd] in *; (split; [by rewrite Hm|by intros [|]]).
Qed.


(** X5: when [_evaluate] raises, the message of the result is the text
    of the exception, and the traceback goes to [on_stderr] whole, after
    everything that went there while [_evaluate] ran: the last calls are
    the lines of [format_exc], cut after their line ends, and put together
    they are the traceback again. When the parser or the validation
    raised, nothing went there in between. *)
Theorem traceback_goes_to_stderr_whole code
    (self s1 : RobotFrameworkInterpreter) e :
  _evaluate code self = (Raise e, s1) →
  let r := evaluate format_exc code self in
  r.1 = mkActionResult false
          (Some ("Error while evaluating: " +:+ exc_str e)) None
  ∧ on_stderr_calls r.2
    = (on_stderr_calls s1 ++ Py.splitlines_keepends (format_exc e))%list
  ∧ on_stderr_calls self `prefix_of` on_stderr_calls s1
  ∧ (failure_phase code self = Some Parse
     ∨ failure_phase code self = Some Validation → s1 = self)
  ∧ String.concat "" (Py.splitlines_keepends (format_exc e)) = format_exc e.
Proof.
  intros He r. subst r.
  pose proof (_evaluate_stderr code self) as [Hs Hsame].
  rewrite He in Hs, Hsame. cbn [snd] in Hs, Hsame.
  unfold evaluate. rewrite He. cbn [fst snd].
  split; [done|]. split; [|split; [done|split; [done|]]].
  - destruct (decide (format_exc e = "")) as [->|_].
    + cbn. by rewrite app_nil_r.
    + by rewrite for_each_on_stderr.
  - apply splitlines_keepends_concat.
Qed.


(** X7: a fragment the parser raises on, that gives no section, or that
    the validation rejects, runs nothing and stores nothing: after the
    call the running suite, the block mode and the document parts are the
    ones before it; only [on_stderr] got calls. *)
Theorem nothing_runs_before_validation code
    (self : RobotFrameworkInterpreter) ph :
  failure_phase code self = Some ph →
  ph = Parse ∨ ph = EmptyInput ∨ ph = Validation →
  let after := (evaluate format_exc code self).2 in
  runtime after = runtime self
  ∧ _last_section_name after = _last_section_name self
  ∧ _last_block_mode after = _last_block_mode self
  ∧ _doc_parts after = _doc_parts self.
Proof.
  intros Hph Hor after. subst after.
  destruct (evaluate_frame format_exc code self) as (-> & Hb & ->).
  unfold block_mode_state in Hb. injection Hb as -> ->.
  revert Hph. rewrite _evaluate_phases. unfold failure_phase. cbn zeta.
  destruct (get_model _) as [model|e0]; [|done].
  destruct (sections _) as [|s0 l]; [done|].
  destruct (_CustomErrorReporter.visit_File _ _) as [[]|e]; [|done].
  intros Hph.
  assert (ph = Execution ∨ ph = Merge) as [->| ->];
    [|by destruct Hor as [|[|]]..].
  repeat case_match; simplify_eq; eauto.
Qed.

(** X8: a section without a body, and a section of a class that is not
    among the document parts, is not stored: when every section of the
    parsed fragment is one of these, the document parts after the call
    are the ones before it, and the merge does not fail. *)
Theorem sections_without_body_or_part_are_not_stored code
    (self : RobotFrameworkInterpreter) :
  (∀ model s, get_model (code_to_parse code self) = Ok model →
              s ∈ sections model →
              sec_body s = [] ∨ _doc_parts self !! sec_class s = None) →
  _doc_parts (evaluate format_exc code self).2 = _doc_parts self
  ∧ failure_phase code self ≠ Some Merge.
Proof.
  intros Hall.
  destruct (evaluate_frame format_exc code self) as (_ & _ & ->).
  rewrite _evaluate_phases. unfold failure_phase. cbn zeta.
  destruct (get_model _) as [model|e0]; [|done].
  specialize (Hall model).
  destruct (sections _) as [|s0 l] eqn:Hs; [done|].
  destruct (_CustomErrorReporter.visit_File _ _) as [[]|e]; [|done].
  pose proof (dispatch_frame model
                (with_default_block_mode self)) as (Hd & _ & _).
  destruct (dispatch _ _) as [[[]|e] s1]; cbn [snd] in *; [|by rewrite Hd].
  assert (for_each (s0 :: l) merge_section s1 = (Ok tt, s1)) as ->.
  { assert (∀ s, s ∈ s0 :: l →
              sec_body s = [] ∨ _doc_parts s1 !! sec_class s = None) as Hall1.
    { intros s Hin. rewrite Hd. by apply Hall. }
    clear -Hall1. induction (s0 :: l) as [|s l' IH]; [done|].
    cbn [for_each]. unfold mbind, M_bind.
    rewrite merge_section_skip by (apply Hall1; left).
    apply IH. intros s' Hin. apply Hall1. by right. }
  cbn [fst snd]. by rewrite Hd.
Qed.

End Forwarding.

(** ** What the validation accepts *)

Lemma reported_marker_None tokens :
  reported_marker tokens = None
  ↔ ∀ t, t ∈ tokens → is_marker t = false.
Proof.
  unfold reported_marker, get_token, get_tokens, is_marker.
  induction tokens as [|t l IH]; cbn [List.find List.filter].
  - split; [|done]. intros _ t Ht. by apply elem_of_nil in Ht.
  - destruct (bool_decide (type t = TokenType.FATAL_ERROR)) eqn:Hf.
    { split; [done|]. intros H. specialize (H t (list_elem_of_here _ _)).
      by rewrite Hf in H. }
    destruct (bool_decide (type t = TokenType.ERROR)) eqn:He.
    { destruct (List.find _ l).
      - split; [done|]. intros H. specialize (H t (list_elem_of_here _ _)).
        by rewrite Hf, He in H.
      - split; [done|]. intros H. specialize (H t (list_elem_of_here _ _)).
        by rewrite Hf, He in H. }
    rewrite IH. split.
    + intros H t' [->|Ht']%elem_of_cons; [by rewrite Hf, He|by apply H].
    + intros H t' Ht'. apply H. by right.
Qed.

Lemma first_reported_None l :
  first_reported l = None
  ↔ ∀ tokens, tokens ∈ l → reported_marker tokens = None.
Proof.
  induction l as [|tokens l IH]; cbn [first_reported].
  - split; [|done]. intros _ t Ht. by apply elem_of_nil in Ht.
  - destruct (reported_marker tokens) eqn:Hm.
    + split; [done|]. intros H.
      specialize (H tokens (list_elem_of_here _ _)). congruence.
    + rewrite IH. split.
      * intros H t' [->|Ht']%elem_of_cons; [done|by apply H].
      * intros H t' Ht'. apply H. by right.
Qed.

Lemma visit_File_first_reported source model :
  _CustomErrorReporter.visit_File source model
  = raise_marker source (first_reported (file_error_statements model)).
Proof.
  unfold _CustomErrorReporter.visit_File, file_error_statements.
  induction (sections model) as [|s l IH]; simpl; [done|].
  rewrite first_reported_app, visit_Section_first_reported, IH. done.
Qed.

(** X9: the validation accepts a model exactly when no [Error] statement
    of it has a token of type [FATAL ERROR] or [ERROR]; such tokens in
    statements of other classes are not looked at. What it raises is a
    [DataError]. *)
Theorem validation_accepts_iff_no_marked_error source model :
  (_CustomErrorReporter.visit_File source model = Ok tt
   ↔ ∀ tokens t, tokens ∈ file_error_statements model → t ∈ tokens →
       is_marker t = false)
  ∧ ∀ e, _CustomErrorReporter.visit_File source model = Raise e →
         exc_class e = "DataError".
Proof.
  rewrite visit_File_first_reported. split.
  - destruct (first_reported _) as [m|] eqn:Hf; cbn [raise_marker].
    + split; [done|]. intros H.
      assert (first_reported (file_error_statements model) = None) as Hn.
      { apply first_reported_None. intros tokens Hin.
        apply reported_marker_None. intros t Ht. by eapply H. }
      congruence.
    + split; [|done]. intros _ tokens t Hin Ht.
      pose proof (proj1 (first_reported_None _) Hf tokens Hin) as Hm.
      by apply (proj1 (reported_marker_None _) Hm).
  - intros e. destruct (first_reported _); cbn [raise_marker]; [|done].
    by intros [= <-].
Qed.

Section ValidationMessage.

Context {facade : RobotFrameworkFacade}.
Variable ast_to_code : Section → string.
Variable format_exc : Exception → string.

(** X10: the message of a call the validation rejects names the whole
    code that was parsed (the fragment, after the block mode when it is
    bare) as the file, and the line and the text of the marker of the
    first marked [Error] statement. *)
Theorem validation_error_names_the_code_as_file code
    (self : RobotFrameworkInterpreter) :
  failure_phase code self = Some Validation →
  ∃ model marker,
    get_model (code_to_parse code self) = Ok model
    ∧ first_reported (file_error_statements model) = Some marker
    ∧ (evaluate format_exc code self).1
      = mkActionResult false
          (Some ("Error while evaluating: Error in file '"
                 +:+ code_to_parse code self +:+ "' on line "
                 +:+ pretty (lineno marker) +:+ ": "
                 +:+ Py.str_opt (error marker))) None.
Proof.
  unfold evaluate, failure_phase. rewrite _evaluate_phases. cbn zeta.
  destruct (get_model _) as [model|e0]; [|done].
  destruct (sections _) as [|s0 l]; [done|].
  rewrite visit_File_first_reported.
  destruct (first_reported _) as [m|] eqn:Hm; cbn [raise_marker].
  - intros _. exists model, m. split; [done|]. split; [done|]. reflexivity.
  - repeat case_match; intros; simplify_eq.
Qed.

(** X11: with a target type other than ["completions"],
    [compute_evaluate_text] gives as full code exactly the code
    [_evaluate] parses for the fragment, and as prefix what was put in
    front of it. *)
Theorem evaluate_text_is_the_code_parsed code target_type
    (self : RobotFrameworkInterpreter) :
  target_type ≠ "completions" →
  ∃ r, answer (compute_evaluate_text ast_to_code code target_type) self = Ok r
       ∧ full_code r = code_to_parse code self
       ∧ full_code r = prefix r +:+ code.
Proof.
  intros Ht. unfold answer, compute_evaluate_text, code_to_parse.
  rewrite decide_False by done.
  destruct (negb _); cbn; eauto.
Qed.

End ValidationMessage.

(** ** When the merge raises *)

Lemma ensure_last_eol_is_Ok tokens :
  tokens ≠ [] → ∃ tokens', ensure_last_eol tokens = Ok tokens'.
Proof.
  intros Hne. unfold ensure_last_eol.
  destruct (unsnoc tokens) as [[init t]|] eqn:Hu.
  - destruct (decide _); eauto.
  - by apply unsnoc_None in Hu.
Qed.

Lemma ensure_last_eol_Raise tokens e :
  ensure_last_eol tokens = Raise e → exc_class e = "IndexError".
Proof.
  unfold ensure_last_eol. destruct (unsnoc tokens) as [[init t]|].
  - by destruct (decide _).
  - by intros [= <-].
Qed.

(** The walk on a body, from the walk on its nodes. *)
Lemma ensure_last_eol_body_walk (P : Node → Prop) body :
  Forall P body →
  (∀ n, P n →
     (∀ tokens, last_statement n = Some tokens → tokens ≠ [] →
        ∃ n', ensure_last_eol_node n = Ok n')
     ∧ ∀ e, ensure_last_eol_node n = Raise e → exc_class e = "IndexError") →
  (∀ tokens, last_statement_of body = Some tokens → tokens ≠ [] →
     ∃ body', ensure_last_eol_body body = Ok body')
  ∧ ∀ e, ensure_last_eol_body body = Raise e → exc_class e = "IndexError".
Proof.
  intros Hall HP. induction Hall as [|m l Hm Hl IH].
  - split; [done|]. by intros e [= <-].
  - cbn [ensure_last_eol_body last_statement_of]. destruct l as [|m2 l].
    + destruct (HP _ Hm) as [Hok Hraise]. split.
      * intros tokens Hlast Hne. destruct (Hok _ Hlast Hne) as [n' ->].
        cbn. eauto.
      * intros e. destruct (ensure_last_eol_node m) eqn:He; [done|].
        cbn. intros [= <-]. by eapply Hraise.
    + destruct IH as [Hok Hraise]. split.
      * intros tokens Hlast Hne. destruct (Hok _ Hlast Hne) as [b' ->].
        cbn. eauto.
      * intros e. destruct (ensure_last_eol_body (m2 :: l)) eqn:He; [done|].
        cbn. intros [= <-]. by eapply Hraise.
Qed.

Lemma ensure_last_eol_node_walk n :
  (∀ tokens, last_statement n = Some tokens → tokens ≠ [] →
     ∃ n', ensure_last_eol_node n = Ok n')
  ∧ ∀ e, ensure_last_eol_node n = Raise e → exc_class e = "IndexError".
Proof.
  induction n as [cls tokens|cls header body orelse end_ _ Hb _ _]
    using Node_induction.
  - cbn [ensure_last_eol_node last_statement]. split.
    + intros tk [= <-] Hne. destruct (ensure_last_eol_is_Ok _ Hne) as [t' ->].
      cbn. eauto.
    + intros e. destruct (ensure_last_eol tokens) eqn:He; [done|].
      cbn. intros [= <-]. by eapply ensure_last_eol_Raise.
  - rewrite ensure_last_eol_node_Block, last_statement_Block.
    destruct (ensure_last_eol_body_walk _ body Hb (λ n H, H)) as [Hok Hraise].
    split.
    + intros tokens Hlast Hne. destruct (Hok _ Hlast Hne) as [b' ->].
      cbn. eauto.
    + intros e. destruct (ensure_last_eol_body body) eqn:He; [done|].
      cbn. intros [= <-]. by eapply Hraise.
Qed.

Lemma ensure_last_eol_body_walk_all body :
  (∀ tokens, last_statement_of body = Some tokens → tokens ≠ [] →
     ∃ body', ensure_last_eol_body body = Ok body')
  ∧ ∀ e, ensure_last_eol_body body = Raise e → exc_class e = "IndexError".
Proof.
  apply (ensure_last_eol_body_walk (λ _, True)).
  - by apply Forall_forall.
  - intros n _. apply ensure_last_eol_node_walk.
Qed.

(** X12: the end of the merge, which gives the last statement its line
    feed, returns exactly when the walk from the last entry of the body
    ends at a statement that has a token; with an empty body, an empty
    block on the way, or a statement without tokens it raises an
    [IndexError]. *)
Theorem line_end_walk_returns_iff_last_statement_has_token body :
  (is_Ok (ensure_last_eol_body body) = true
   ↔ ∃ tokens, last_statement_of body = Some tokens ∧ tokens ≠ [])
  ∧ ∀ e, ensure_last_eol_body body = Raise e → exc_class e = "IndexError".
Proof.
  destruct (ensure_last_eol_body_walk_all body) as [Hok Hraise].
  split; [|done]. split.
  - destruct (ensure_last_eol_body body) as [body'|] eqn:He; [|done].
    intros _.
    destruct (ensure_last_eol_body_Ok _ _ He)
      as (_ & _ & tokens & tokens' & Hlast & Het & _).
    exists tokens. split; [done|]. intros ->. done.
  - intros (tokens & Hlast & Hne). by destruct (Hok _ Hlast Hne) as [b' ->].
Qed.

Lemma extend_with_bodies_Raise body section_body e body1 :
  extend_with_bodies body section_body = (Raise e, body1) →
  exc_class e = "AttributeError".
Proof.
  revert body. induction section_body as [|n l IH]; intros body; [done|].
  cbn [extend_with_bodies]. destruct n; [by intros [= <- _]|apply IH].
Qed.

Section MergeRaises.

Context {facade : RobotFrameworkFacade}.
Variable format_exc : Exception → string.

Lemma merge_section_Raise section (s s' : RobotFrameworkInterpreter) e :
  merge_section section s = (Raise e, s') →
  exc_class e = "IndexError" ∨ exc_class e = "AttributeError".
Proof.
  unfold merge_section. unfold_M.
  repeat case_match; intros; simplify_eq; cbn; eauto;
    try (left; by eapply ensure_last_eol_body_walk_all);
    try (right; by eapply extend_with_bodies_Raise).
Qed.

Lemma for_each_merge_section_Raise l (s s' : RobotFrameworkInterpreter) e :
  for_each l merge_section s = (Raise e, s') →
  exc_class e = "IndexError" ∨ exc_class e = "AttributeError".
Proof.
  revert s. induction l as [|x l IH]; intros s; [done|].
  cbn [for_each]. unfold mbind, M_bind.
  destruct (merge_section x s) as [[[]|e1] s1] eqn:Hm.
  - apply IH.
  - intros [= <- <-]. by eapply merge_section_Raise.
Qed.

(** X13: when the update of the document parts fails, what was raised is
    an [IndexError] or an [AttributeError], and its text is the message
    of the result. *)
Theorem merge_failure_is_index_or_attribute_error code
    (self : RobotFrameworkInterpreter) :
  failure_phase code self = Some Merge →
  ∃ e, (_evaluate code self).1 = Raise e
       ∧ (exc_class e = "IndexError" ∨ exc_class e = "AttributeError")
       ∧ message (evaluate format_exc code self).1
         = Some ("Error while evaluating: " +:+ exc_str e).
Proof.
  unfold evaluate, failure_phase. rewrite _evaluate_phases. cbn zeta.
  destruct (get_model _) as [model|e0]; [|done].
  destruct (sections _) as [|s0 l]; [done|].
  destruct (_CustomErrorReporter.visit_File _ _) as [[]|e]; [|done].
  destruct (dispatch _ _) as [[[]|e] s1]; [|done].
  destruct (for_each (s0 :: l) merge_section s1) as [[[]|e] s2] eqn:Hm;
    [done|].
  intros _. exists e. split; [done|]. split; [|done].
  by eapply for_each_merge_section_Raise.
Qed.

End MergeRaises.

(** ** The shape of the document parts in a session *)

Lemma doc_parts_ok_insert parts name (new : Section) :
  doc_parts_ok parts → is_Some (parts !! name) →
  sec_class new = name → sec_body new ≠ [] →
  doc_parts_ok (<[name := Some new]> parts).
Proof.
  intros [Hkeys Hstored] Hname Hc Hb. split.
  - intros k. destruct (decide (k = name)) as [->|Hne].
    + rewrite lookup_insert_eq. split; [intros _; by apply Hkeys|eauto].
    + by rewrite lookup_insert_ne.
  - intros k s. destruct (decide (k = name)) as [->|Hne].
    + rewrite lookup_insert_eq. by intros [= <-].
    + rewrite lookup_insert_ne by done. apply Hstored.
Qed.

Lemma ensure_last_eol_body_not_empty body body' :
  ensure_last_eol_body body = Ok body' → body' ≠ [].
Proof.
  intros He. destruct (ensure_last_eol_body_Ok _ _ He) as (Hlen & _).
  destruct body; [done|]. by destruct body'.
Qed.

Lemma snoc_not_empty {A} (l : list A) x : (l ++ [x])%list ≠ [].
Proof. by destruct l. Qed.

Section Shape.

Context {facade : RobotFrameworkFacade}.
Variable ast_to_code : Section → string.
Variable format_exc : Exception → string.

#[local] Instance keeps_shape_pre : PreOrder keeps_shape.
Proof.
  split; [intros s H; exact H|].
  intros s1 s2 s3 H12 H23 H. exact (H23 (H12 H)).
Qed.

Lemma merge_section_shape section (s : RobotFrameworkInterpreter) :
  keeps_shape s (merge_section section s).2.
Proof.
  intros Hok. unfold merge_section.
  destruct (sec_body section) as [|n l] eqn:Hbody; [done|].
  unfold_M.
  destruct (_doc_parts s !! sec_class section) as [[current|]|] eqn:Hp;
    [| |done].
  - destruct (proj2 Hok _ _ Hp) as [Hc Hb].
    assert (is_Some (_doc_parts s !! sec_class section)) as Hsome by eauto.
    destruct (decide (sec_class current = "TestCaseSection")).
    + destruct (unsnoc (sec_body current)) as [[init [c t|c h b o e']]|];
        [done| |done].
      destruct (extend_with_bodies b (n :: l)) as [[[]|e1] b1]; cbn.
      * destruct (ensure_last_eol_body b1) as [b2|]; cbn;
          repeat (apply doc_parts_ok_insert;
                  [|by rewrite ?lookup_insert_eq|done|apply snoc_not_empty]);
          done.
      * apply doc_parts_ok_insert; [done|done|done|apply snoc_not_empty].
    + cbn [fst snd].
      destruct (ensure_last_eol_body _) as [b2|] eqn:He; cbn.
      * apply doc_parts_ok_insert;
          [|by rewrite lookup_insert_eq|done
           |cbn; by eapply ensure_last_eol_body_not_empty].
        apply doc_parts_ok_insert; [done|done|done|].
        cbn. by destruct (sec_body current).
      * apply doc_parts_ok_insert; [done|done|done|].
        cbn. by destruct (sec_body current).
  - assert (is_Some (_doc_parts s !! sec_class section)) as Hsome by eauto.
    cbn [fst snd].
    destruct (ensure_last_eol_body (n :: l)) as [b2|] eqn:He; cbn.
    + apply doc_parts_ok_insert;
        [|by rewrite lookup_insert_eq|done
         |cbn; by eapply ensure_last_eol_body_not_empty].
      apply doc_parts_ok_insert; [done|done|done|by rewrite Hbody].
    + apply doc_parts_ok_insert; [done|done|done|by rewrite Hbody].
Qed.

Lemma evaluate_shape code (self : RobotFrameworkInterpreter) :
  keeps_shape self (evaluate format_exc code self).2.
Proof.
  intros Hok.
  destruct (evaluate_frame format_exc code self) as (_ & _ & ->).
  rewrite _evaluate_phases. cbn zeta.
  destruct (get_model _) as [model|e0] eqn:Hg; [|done].
  destruct (sections _) as [|s0 l] eqn:Hs; [done|].
  destruct (_CustomErrorReporter.visit_File _ _) as [[]|e]; [|done].
  pose proof (dispatch_frame model
                (with_default_block_mode self)) as (Hd & _ & _).
  destruct (dispatch _ _) as [[[]|e] s1]; cbn [snd] in *; [|by rewrite Hd].
  pose proof (for_each_preserves keeps_shape (s0 :: l) merge_section
                merge_section_shape s1) as Hm.
  assert (doc_parts_ok (_doc_parts s1)) as Hok1 by (by rewrite Hd).
  specialize (Hm Hok1).
  by destruct (for_each (s0 :: l) merge_section s1) as [[[]|e] s2].
Qed.

Lemma init_doc_parts_ok (rt : Runtime) :
  doc_parts_ok (_doc_parts (__init__ rt)).
Proof.
  assert (∀ k, is_Some (_doc_parts (__init__ rt) !! k) →
               k ∈ default_sections) as Hkeys.
  { intros k. cbn [__init__ _doc_parts].
    rewrite !lookup_insert_is_Some', lookup_singleton_is_Some.
    unfold default_sections. rewrite !elem_of_cons.
    intros [<-|[<-|[<-|[<-|<-]]]]; auto 10. }
  split.
  - intros k. split; [apply Hkeys|].
    intros Hk. rewrite init_parts by done. eauto.
  - intros k s Hk. exfalso.
    assert (k ∈ default_sections) as Hin by (apply Hkeys; eauto).
    rewrite init_parts in Hk by done. done.
Qed.

(** X14: in every reachable state the document parts have the five
    section kinds as keys and no other; a section that is stored is
    filed under its own class and has at least one entry in its body. *)
Theorem document_parts_keep_their_shape (self : RobotFrameworkInterpreter) :
  reachable ast_to_code format_exc self →
  (∀ k, is_Some (_doc_parts self !! k) ↔ k ∈ default_sections)
  ∧ ∀ k s, _doc_parts self !! k = Some (Some s) →
           sec_class s = k ∧ sec_body s ≠ [].
Proof.
  change (reachable ast_to_code format_exc self →
          doc_parts_ok (_doc_parts self)).
  induction 1 as [rt|code self _ IH|code tt self _ IH].
  - apply init_doc_parts_ok.
  - by apply evaluate_shape.
  - by rewrite compute_evaluate_text_state.
Qed.

End Shape.

(** ** The text for a completion *)

Lemma rpartition_parts sep s h d t :
  Py.rpartition sep s = (h, d, t) → s = h +:+ d +:+ t ∧ (d = "" → h = "").
Proof.
  revert h d t. induction s as [|c s IH]; intros h d t.
  - by intros [= <- <- <-].
  - cbn [Py.rpartition].
    destruct (Py.rpartition sep s) as [[h' d'] t'].
    destruct (IH _ _ _ eq_refl) as [-> Hh]. destruct d' as [|x d'].
    + rewrite (Hh eq_refl).
      destruct (decide (c = sep)) as [->|_]; by intros [= <- <- <-].
    + by intros [= <- <- <-].
Qed.

Lemma leading_whitespaces_only s :
  only_tabs_and_spaces (leading_whitespaces s) = true.
Proof.
  induction s as [|c s IH]; [done|]. cbn [leading_whitespaces].
  destruct (decide _) as [Hc|Hc]; [|done].
  cbn [only_tabs_and_spaces]. by rewrite bool_decide_eq_true_2.
Qed.

Section Completion.

Context {facade : RobotFrameworkFacade}.
Variable ast_to_code : Section → string.
Variable format_exc : Exception → string.

(** X15: in a reachable state the full code for a completion is always
    the document in its fixed order, a line feed, an indentation and the
    code. The indentation is empty for a fragment that starts a section,
    the default test header for a bare fragment before any test was
    stored, and tabs and spaces only for a bare fragment after that. *)
Theorem completion_text_is_document_then_code code
    (self : RobotFrameworkInterpreter) :
  reachable ast_to_code format_exc self →
  ∃ r indent,
    answer (compute_evaluate_text ast_to_code code "completions") self = Ok r
    ∧ full_code r
      = fixed_order_document ast_to_code (_doc_parts self)
        +:+ Py.LF +:+ indent +:+ code
    ∧ (if Py.startswith (Py.strip code) "***" then indent = ""
       else match _doc_parts self !! "TestCaseSection" with
            | Some None => indent = default_block_mode
            | _ => only_tabs_and_spaces indent = true
            end).
Proof.
  intros Hr.
  pose proof (full_doc_fixed_order ast_to_code self
                (reachable_keys _ _ _ Hr)) as Hdoc.
  pose proof (reachable_keys _ _ _ Hr "TestCaseSection") as Hkey.
  pose proof (reachable_block_mode _ _ _ Hr) as [= Hname Hmode].
  unfold full_doc in Hdoc.
  unfold answer, compute_evaluate_text, full_doc.
  rewrite decide_True by done.
  destruct (Py.startswith _ _).
  - unfold mbind, M_bind, mret, M_ret. rewrite _compute_full_doc_run, Hdoc.
    cbn. eexists _, "". split; [done|]. split; [|done].
    by rewrite append_assoc.
  - unfold mbind, M_bind, mret, M_ret, gets. rewrite Hname.
    destruct (_doc_parts self !! "TestCaseSection") as [[cur|]|] eqn:Hp.
    + change (_compute_full_doc ast_to_code "TestCaseSection" self)
        with (_compute_full_doc ast_to_code "" self).
      rewrite _compute_full_doc_run, Hdoc. cbn [fst snd].
      destruct (Py.rpartition Py.lf _) as [[fp dl] ll] eqn:Hrp.
      apply rpartition_parts in Hrp as [Hrp _].
      destruct (decide (dl ≠ "")).
      * cbn [fst snd]. eexists _, (leading_whitespaces ll).
        split; [done|]. split; [|apply leading_whitespaces_only].
        cbn [full_code]. rewrite Hrp. by rewrite !append_assoc.
      * cbn. eexists _, "". by split.
    + rewrite _compute_full_doc_run, Hdoc. cbn. rewrite Hmode.
      eexists _, default_block_mode. split; [done|]. split; [|done].
      by rewrite !append_assoc.
    + exfalso. destruct Hkey as [x Hx]; [|congruence].
      unfold default_sections.
      repeat first [apply list_elem_of_here|apply list_elem_of_further].
Qed.

End Completion.

(** ** Which document parts a call changes *)

Section OtherParts.

Context {facade : RobotFrameworkFacade}.
Variable format_exc : Exception → string.

Lemma merge_section_other_parts section (s : RobotFrameworkInterpreter) k :
  sec_class section ≠ k →
  _doc_parts (merge_section section s).2 !! k = _doc_parts s !! k.
Proof.
  intros Hk. unfold merge_section. unfold_M.
  repeat case_match; simplify_eq; cbn;
    rewrite ?lookup_insert_ne by done; done.
Qed.

Lemma for_each_merge_section_other_parts l (s : RobotFrameworkInterpreter) k :
  (∀ x, x ∈ l → sec_class x ≠ k) →
  _doc_parts (for_each l merge_section s).2 !! k = _doc_parts s !! k.
Proof.
  revert s. induction l as [|x l IH]; intros s Hl; [done|].
  cbn [for_each]. unfold mbind, M_bind.
  pose proof (merge_section_other_parts x s k
                (Hl x (list_elem_of_here _ _))) as Hx.
  destruct (merge_section x s) as [[[]|e] s1]; cbn [snd] in *; [|done].
  rewrite IH; [done|]. intros y Hy. apply Hl. by right.
Qed.

(** X16: a call of [evaluate] changes the document parts of the section
    kinds of its fragment only: the part of a kind that no section of the
    parsed model has is after the call what it was before. *)
Theorem evaluate_keeps_parts_of_other_kinds code
    (self : RobotFrameworkInterpreter) k :
  (∀ model s, get_model (code_to_parse code self) = Ok model →
              s ∈ sections model → sec_class s ≠ k) →
  _doc_parts (evaluate format_exc code self).2 !! k = _doc_parts self !! k.
Proof.
  intros Hall.
  destruct (evaluate_frame format_exc code self) as (_ & _ & ->).
  rewrite _evaluate_phases. cbn zeta.
  destruct (get_model _) as [model|e0] eqn:Hg; [|done].
  destruct (sections _) as [|s0 l] eqn:Hs; [done|].
  destruct (_CustomErrorReporter.visit_File _ _) as [[]|e]; [|done].
  pose proof (dispatch_frame model
                (with_default_block_mode self)) as (Hd & _ & _).
  destruct (dispatch _ _) as [[[]|e] s1]; cbn [snd] in *; [|by rewrite Hd].
  assert (∀ x, x ∈ s0 :: l → sec_class x ≠ k) as Hall1.
  { intros x Hx. apply (Hall model x eq_refl). by rewrite Hs. }
  pose proof (for_each_merge_section_other_parts (s0 :: l) s1 k Hall1) as Hm.
  destruct (for_each (s0 :: l) merge_section s1) as [[[]|e] s2];
    cbn [snd] in *; by rewrite Hm, Hd.
Qed.

End OtherParts.

(** X17: the loop that adds the bodies of new tests to the last stored
    test stops at the first entry of the new section that is a statement:
    the bodies of the blocks before it are added, in order, also when the
    loop then raises the [AttributeError] for the statement; without a
    statement all bodies are added and nothing is raised. *)
Theorem test_bodies_are_added_up_to_the_first_statement body section_body :
  ∃ blocks rest,
    section_body = (blocks ++ rest)%list
    ∧ forallb is_block blocks = true
    ∧ (extend_with_bodies body section_body).2
      = (body ++ flat_map node_body blocks)%list
    ∧ match rest with
      | [] => (extend_with_bodies body section_body).1 = Ok tt
      | Statement cls _ :: _ =>
          (extend_with_bodies body section_body).1
          = Raise (AttributeError cls "body")
      | Block _ _ _ _ _ :: _ => False
      end.
Proof.
  revert body. induction section_body as [|n l IH]; intros body.
  - exists [], []. cbn. by rewrite app_nil_r.
  - destruct n as [cls tokens|cls h b o e].
    + exists [], (Statement cls tokens :: l). cbn. by rewrite app_nil_r.
    + destruct (IH (body ++ b)%list) as (blocks & rest & -> & Hb & He & Hr).
      exists (Block cls h b o e :: blocks), rest.
      cbn [extend_with_bodies]. split; [done|]. split; [done|].
      split; [|done]. rewrite He. cbn. by rewrite app_assoc.
Qed.


(** ** A section name that is not a section kind *)

Lemma list_remove_absent x l :
  x ∉ l → list_remove x l = Raise (ValueError "list.remove(x): x not in list").
Proof.
  induction l as [|y l IH]; [done|].
  intros [Hy Hl]%not_elem_of_cons. cbn [list_remove].
  rewrite decide_False by done. by rewrite IH.
Qed.

Section UnknownName.

Context {facade : RobotFrameworkFacade}.
Variable ast_to_code : Section → string.

(** X18: [_compute_full_doc] with a name that is not empty and not one of
    the five section kinds raises the [ValueError] of [list.remove],
    whatever the document parts hold, and changes nothing. *)
Theorem unknown_section_name_raises_ValueError name
    (self : RobotFrameworkInterpreter) :
  name ≠ "" → name ∉ default_sections →
  _compute_full_doc ast_to_code name self
  = (Raise (ValueError "list.remove(x): x not in list"), self).
Proof.
  intros Hne Hnot. unfold _compute_full_doc.
  unfold mbind, M_bind, lift. rewrite decide_False by done.
  by rewrite (list_remove_absent _ _ Hnot).
Qed.

End UnknownName.

(** ** What the walk to the last statement changes *)

(** X19: when the walk that gives the last statement its line feed
    returns, the body it returns is the body it got but for the last
    entry, which is what the walk returns for that entry. *)
Theorem line_end_walk_changes_the_last_entry_only body body' :
  ensure_last_eol_body body = Ok body' →
  ∃ init n n',
    body = (init ++ [n])%list ∧ body' = (init ++ [n'])%list
    ∧ ensure_last_eol_node n = Ok n'.
Proof.
  revert body'. induction body as [|m l IH]; intros body'; [done|].
  cbn [ensure_last_eol_body]. destruct l as [|m2 l].
  - destruct (ensure_last_eol_node m) as [m'|] eqn:Hm; [|done].
    cbn. intros [= <-]. by exists [], m, m'.
  - destruct (ensure_last_eol_body (m2 :: l)) as [r|]; [|done].
    cbn. intros [= <-].
    destruct (IH _ eq_refl) as (init & n & n' & -> & -> & Hn).
    by exists (m :: init), n, n'.
Qed.

(** ** What a successful call stores *)

Section Stores.

Context {facade : RobotFrameworkFacade}.
Variable ast_to_code : Section → string.
Variable format_exc : Exception → string.

#[local] Existing Instance parts_grow_pre.

Lemma merge_section_stores section (s s' : RobotFrameworkInterpreter) :
  merge_section section s = (Ok tt, s') →
  sec_body section ≠ [] → is_Some (_doc_parts s !! sec_class section) →
  ∃ stored, _doc_parts s' !! sec_class section = Some (Some stored).
Proof.
  unfold merge_section. unfold_M. intros H Hb [x Hx]. revert H.
  repeat case_match; intros; simplify_eq; cbn;
    rewrite ?lookup_insert_eq; eauto.
Qed.

Lemma for_each_merge_section_stores l (s s' : RobotFrameworkInterpreter) x :
  for_each l merge_section s = (Ok tt, s') →
  x ∈ l → sec_body x ≠ [] → is_Some (_doc_parts s !! sec_class x) →
  ∃ stored, _doc_parts s' !! sec_class x = Some (Some stored).
Proof.
  revert s. induction l as [|y l IH]; intros s Hrun Hin Hb Hk.
  { by apply elem_of_nil in Hin. }
  revert Hrun. cbn [for_each]. unfold mbind, M_bind.
  pose proof (merge_section_grows y s) as [Hg Hkeys].
  destruct (merge_section y s) as [[[]|e] s1] eqn:Hm; [|done].
  cbn [snd] in *. intros Hrun.
  apply elem_of_cons in Hin as [->|Hin].
  - destruct (merge_section_stores _ _ _ Hm Hb Hk) as [stored Hst].
    pose proof (for_each_preserves parts_grow l merge_section
                  merge_section_grows s1) as [Hg' _].
    rewrite Hrun in Hg'. cbn [snd] in Hg'.
    destruct (Hg' _ _ Hst) as (acc' & Hacc & _). eauto.
  - apply (IH s1); [done|done|done|]. by apply Hkeys.
Qed.

(** X20: after a successful call of [evaluate], every section of the
    parsed fragment that has a body and whose class is a key of the
    document parts has a stored section of its class. *)
Theorem successful_evaluate_stores_its_sections code
    (self : RobotFrameworkInterpreter) model s :
  success (evaluate format_exc code self).1 = true →
  get_model (code_to_parse code self) = Ok model →
  s ∈ sections model →
  sec_body s ≠ [] → is_Some (_doc_parts self !! sec_class s) →
  ∃ stored,
    _doc_parts (evaluate format_exc code self).2 !! sec_class s
    = Some (Some stored).
Proof.
  intros Hok Hg Hin Hb Hk.
  destruct (evaluate_frame format_exc code self) as (_ & _ & ->).
  apply evaluate_success in Hok. revert Hok Hin.
  rewrite _evaluate_phases. unfold failure_phase. cbn zeta. rewrite Hg.
  destruct (sections _) as [|s0 l] eqn:Hs; [done|].
  destruct (_CustomErrorReporter.visit_File _ _) as [[]|e]; [|done].
  pose proof (dispatch_frame model
                (with_default_block_mode self)) as (Hd & _ & _).
  destruct (dispatch _ _) as [[[]|e] s1]; cbn [snd] in *; [|done].
  destruct (for_each (s0 :: l) merge_section s1) as [[[]|e] s2] eqn:Hm;
    [|done].
  intros _ Hin. cbn [snd].
  eapply for_each_merge_section_stores; [exact Hm|done|done|].
  by rewrite Hd.
Qed.

End Stores.

(** ** What a successful call adds *)

Lemma ensure_last_eol_node_plain n n' :
  ensure_last_eol_node n = Ok n' → plain n → plain n'.
Proof.
  destruct n as [cls tokens|cls header body orelse end_].
  - cbn [ensure_last_eol_node]. destruct (ensure_last_eol tokens); [|done].
    by intros [= <-].
  - rewrite ensure_last_eol_node_Block.
    destruct (ensure_last_eol_body body); [|done]. by intros [= <-].
Qed.

Lemma ensure_last_eol_body_plain body body' :
  ensure_last_eol_body body = Ok body' →
  Forall plain body → Forall plain body'.
Proof.
  revert body'. induction body as [|m l IH]; intros body'; [done|].
  cbn [ensure_last_eol_body]. destruct l as [|m2 l].
  - destruct (ensure_last_eol_node m) as [m'|] eqn:Hm; [|done].
    cbn. intros [= <-]. rewrite !Forall_singleton.
    by apply ensure_last_eol_node_plain.
  - destruct (ensure_last_eol_body (m2 :: l)) as [r|]; [|done].
    cbn. intros [= <-]. rewrite !(Forall_cons plain m).
    intros [? ?]. split; [done|]. by apply IH.
Qed.

Lemma entries_plain_insert parts name (new : Section) :
  entries_plain parts → Forall plain (sec_body new) →
  entries_plain (<[name := Some new]> parts).
Proof.
  intros Hp Hn k acc. destruct (decide (k = name)) as [->|Hne].
  - rewrite lookup_insert_eq. by intros [= <-].
  - rewrite lookup_insert_ne by done. apply Hp.
Qed.

Lemma init_nothing_stored {facade : RobotFrameworkFacade} (rt : Runtime) k :
  is_stored (_doc_parts (__init__ rt)) k = false.
Proof.
  unfold is_stored.
  destruct (_doc_parts (__init__ rt) !! k) as [[acc|]|] eqn:Hk; [|done..].
  assert (k ∈ default_sections) as Hin.
  { apply (proj1 (init_doc_parts_ok rt)). eauto. }
  rewrite init_parts in Hk by done. done.
Qed.

Section Added.

Context {facade : RobotFrameworkFacade}.
Variable ast_to_code : Section → string.
Variable format_exc : Exception → string.

Lemma merge_section_plain section (s : RobotFrameworkInterpreter) :
  Forall plain (sec_body section) →
  entries_plain (_doc_parts s) →
  entries_plain (_doc_parts (merge_section section s).2).
Proof.
  intros Hsec Hok. unfold merge_section.
  destruct (sec_body section) as [|n l] eqn:Hbody; [done|].
  unfold_M.
  destruct (_doc_parts s !! sec_class section) as [[current|]|] eqn:Hp;
    [| |done].
  - pose proof (Hok _ _ Hp) as Hcur.
    destruct (decide (sec_class current = "TestCaseSection")).
    + destruct (unsnoc (sec_body current)) as [[init [c t|c h b o e']]|] eqn:Hu;
        [done| |done].
      apply unsnoc_Some in Hu. rewrite Hu in Hcur.
      apply Forall_app in Hcur as [Hinit Hlast].
      rewrite Forall_singleton in Hlast.
      assert (∀ b', Forall plain (init ++ [Block c h b' o e'])%list) as Hany.
      { intros b'. apply Forall_app. split; [done|].
        apply Forall_singleton. exact Hlast. }
      destruct (extend_with_bodies b (n :: l)) as [[[]|e1] b1]; cbn.
      * destruct (ensure_last_eol_body b1) as [b2|]; cbn;
          repeat (apply entries_plain_insert; [|apply Hany]); done.
      * apply entries_plain_insert; [done|apply Hany].
    + cbn [fst snd].
      assert (Forall plain (sec_body current ++ n :: l)%list) as Hall.
      { by apply Forall_app. }
      destruct (ensure_last_eol_body _) as [b2|] eqn:He; cbn.
      * apply entries_plain_insert;
          [|cbn; by eapply ensure_last_eol_body_plain].
        by apply entries_plain_insert.
      * by apply entries_plain_insert.
  - cbn [fst snd].
    destruct (ensure_last_eol_body (n :: l)) as [b2|] eqn:He; cbn.
    + apply entries_plain_insert;
        [|cbn; by eapply ensure_last_eol_body_plain].
      apply entries_plain_insert; [done|by rewrite Hbody].
    + apply entries_plain_insert; [done|by rewrite Hbody].
Qed.

Lemma for_each_merge_section_inv l (s : RobotFrameworkInterpreter) :
  (∀ x, x ∈ l → Forall plain (sec_body x)) →
  doc_parts_ok (_doc_parts s) ∧ entries_plain (_doc_parts s) →
  doc_parts_ok (_doc_parts (for_each l merge_section s).2)
  ∧ entries_plain (_doc_parts (for_each l merge_section s).2).
Proof.
  revert s. induction l as [|x l IH]; intros s Hl [Hok Hpl]; [done|].
  cbn [for_each]. unfold mbind, M_bind.
  pose proof (merge_section_shape x s Hok) as Hok1.
  pose proof (merge_section_plain x s (Hl x (list_elem_of_here _ _)) Hpl)
    as Hpl1.
  destruct (merge_section x s) as [[[]|e] s1]; cbn [snd] in *; [|done].
  apply IH; [|done]. intros y Hy. apply Hl. by right.
Qed.

Lemma evaluate_inv code (self : RobotFrameworkInterpreter) :
  parser_ok →
  doc_parts_ok (_doc_parts self) ∧ entries_plain (_doc_parts self) →
  doc_parts_ok (_doc_parts (evaluate format_exc code self).2)
  ∧ entries_plain (_doc_parts (evaluate format_exc code self).2).
Proof.
  intros Hparser Hinv.
  destruct (evaluate_frame format_exc code self) as (_ & _ & ->).
  rewrite _evaluate_phases. cbn zeta.
  destruct (get_model _) as [model|e0] eqn:Hg; [|done].
  destruct (sections model) as [|s0 l] eqn:Hs; [done|].
  destruct (_CustomErrorReporter.visit_File _ _) as [[]|e]; [|done].
  pose proof (dispatch_frame model
                (with_default_block_mode self)) as (Hd & _ & _).
  destruct (dispatch _ _) as [[[]|e] s1]; cbn [snd] in *; [|by rewrite Hd].
  assert (∀ x, x ∈ s0 :: l → Forall plain (sec_body x)) as Hl.
  { intros x Hx. apply (Hparser _ _ _ Hg). by rewrite Hs. }
  pose proof (for_each_merge_section_inv (s0 :: l) s1 Hl
                ltac:(by rewrite Hd)) as Hm.
  by destruct (for_each (s0 :: l) merge_section s1) as [[[]|e] s2].
Qed.

Lemma reachable_inv (self : RobotFrameworkInterpreter) :
  parser_ok → reachable ast_to_code format_exc self →
  doc_parts_ok (_doc_parts self) ∧ entries_plain (_doc_parts self).
Proof.
  intros Hparser. induction 1 as [rt|code self _ IH|code tt self _ IH].
  - split; [apply init_doc_parts_ok|]. intros k acc Hk.
    pose proof (init_nothing_stored rt k) as Hn. unfold is_stored in Hn.
    by rewrite Hk in Hn.
  - by apply evaluate_inv.
  - by rewrite compute_evaluate_text_state.
Qed.

(** One successful merge: the statements stored for a kind are the ones
    before and, after them, what the section adds. *)
Lemma merge_section_adds section (s s' : RobotFrameworkInterpreter) k :
  merge_section section s = (Ok tt, s') →
  doc_parts_ok (_doc_parts s) → entries_plain (_doc_parts s) →
  k ∈ default_sections →
  stored_statements (_doc_parts s') k
  = (stored_statements (_doc_parts s) k
     ++ new_statements k (is_stored (_doc_parts s) k) section)%list
  ∧ is_stored (_doc_parts s') k
    = is_stored (_doc_parts s) k || adds k section.
Proof.
  intros Hm [Hkeys Hfiled] Hpl Hk.
  unfold new_statements, adds.
  destruct (sec_body section) as [|n0 l0] eqn:Hbody.
  { rewrite merge_section_skip in Hm by (by left). simplify_eq.
    by rewrite app_nil_r, orb_false_r. }
  assert (sec_body section ≠ []) as Hne by (by rewrite Hbody).
  case_bool_decide as Hc.
  2:{ pose proof (merge_section_other_parts section s k Hc) as Ho.
      rewrite Hm in Ho. cbn [snd] in Ho.
      unfold stored_statements, is_stored. rewrite Ho.
      by rewrite app_nil_r, orb_false_r. }
  subst k. apply Hkeys in Hk as [stored Hp].
  unfold stored_statements, is_stored. rewrite Hp.
  destruct stored as [current|].
  - destruct (merge_section_appended _ _ _ _ Hm Hne Hp)
      as (acc' & -> & Hcls & _ & Happ).
    rewrite orb_true_l. split; [|done]. rewrite <- Hbody.
    destruct (Hfiled _ _ Hp) as [Hcur _].
    destruct (decide (sec_class section = "TestCaseSection")) as [Ht|Ht].
    + assert (sec_class current = "TestCaseSection") as Hct by congruence.
      destruct (merge_section_tests_Ok _ _ _ _ Hne Hp Hct Hm)
        as (init & c & h & b & o & e & body' & Hbc & _ & _).
      pose proof (Hpl _ _ Hp) as Hplain. rewrite Hbc in Hplain.
      apply Forall_app in Hplain as [_ Hlast].
      rewrite Forall_singleton in Hlast. destruct Hlast as [-> ->].
      by apply (proj2 Happ Hct init c h b).
    + apply (proj1 Happ). congruence.
  - rewrite (merge_section_first _ _ Hne Hp) in Hm.
    destruct (ensure_last_eol_body (sec_body section)) as [body'|] eqn:Hw;
      [|done].
    simplify_eq. cbn [with_parts _doc_parts]. rewrite lookup_insert_eq.
    split; [|done]. cbn [app].
    apply ensure_last_eol_body_Ok in Hw as (_ & Hs & _).
    rewrite section_statements_with_body, Hs. done.
Qed.

Lemma for_each_merge_section_adds l (s s' : RobotFrameworkInterpreter) k :
  for_each l merge_section s = (Ok tt, s') →
  (∀ x, x ∈ l → Forall plain (sec_body x)) →
  doc_parts_ok (_doc_parts s) → entries_plain (_doc_parts s) →
  k ∈ default_sections →
  stored_statements (_doc_parts s') k
  = (stored_statements (_doc_parts s) k
     ++ added k (is_stored (_doc_parts s) k) l)%list.
Proof.
  revert s. induction l as [|x l IH]; intros s Hrun Hl Hok Hpl Hk.
  { cbn [for_each] in Hrun. unfold mret, M_ret in Hrun. simplify_eq.
    cbn [added]. by rewrite app_nil_r. }
  revert Hrun. cbn [for_each]. unfold mbind, M_bind.
  pose proof (merge_section_shape x s Hok) as Hok1.
  pose proof (merge_section_plain x s (Hl x (list_elem_of_here _ _)) Hpl)
    as Hpl1.
  destruct (merge_section x s) as [[[]|e] s1] eqn:Hm; [|done].
  cbn [snd] in *. intros Hrun.
  destruct (merge_section_adds _ _ _ k Hm Hok Hpl Hk) as [Hst Hflag].
  rewrite (IH s1 Hrun) by (done || intros y Hy; apply Hl; by right).
  rewrite Hst, Hflag. cbn [added]. by rewrite <- app_assoc.
Qed.

(** C3: after any sequence of fragments evaluated from a reachable state,
    a fragment that is evaluated successfully reaches the document: for
    every section kind, the statements stored after the call are the
    statements stored before it, in their order, and after them what the
    sections of the fragment add, in the order of the fragment (the text
    of a statement up to its line end). [full_doc] is the stored sections
    in the fixed order Comment, Settings, Variables, Keywords, Test cases,
    whatever the order in which the fragments brought them; and every
    section stored at the start is still there with all its statements
    in their order. The parser is taken to build sections whose entries
    are statements, test cases and keywords. *)
Theorem document_keeps_kind_order_and_statements codes code model
    (self : RobotFrameworkInterpreter) :
  parser_ok →
  reachable ast_to_code format_exc self →
  let before := evaluate_all format_exc codes self in
  get_model (code_to_parse code before) = Ok model →
  success (evaluate format_exc code before).1 = true →
  let after := (evaluate format_exc code before).2 in
  answer (full_doc ast_to_code) after
  = Ok (Py.strip (Py.join Py.LF
          (omap (rendered ast_to_code (_doc_parts after))
             ["CommentSection"; "SettingSection"; "VariableSection";
              "KeywordSection"; "TestCaseSection"])))
  ∧ (∀ k, k ∈ default_sections →
       stored_statements (_doc_parts after) k
       = (stored_statements (_doc_parts before) k
          ++ added k (is_stored (_doc_parts before) k) (sections model))%list)
  ∧ grows (_doc_parts self) (_doc_parts after).
Proof.
  intros Hparser Hreach before Hg Hok after.
  assert (reachable ast_to_code format_exc before) as Hrb.
  { by apply reachable_evaluate_all. }
  assert (reachable ast_to_code format_exc after) as Hra.
  { by apply reachable_evaluate. }
  split; [|split].
  - apply full_doc_fixed_order.
    by apply (reachable_keys ast_to_code format_exc).
  - intros k Hk. subst after.
    destruct (reachable_inv before Hparser Hrb) as [Hshape Hplain].
    destruct (evaluate_frame format_exc code before) as (_ & _ & ->).
    apply evaluate_success in Hok. revert Hok.
    rewrite _evaluate_phases. unfold failure_phase. cbn zeta. rewrite Hg.
    destruct (sections model) as [|s0 l] eqn:Hs; [done|].
    destruct (_CustomErrorReporter.visit_File _ _) as [[]|e]; [|done].
    pose proof (dispatch_frame model
                  (with_default_block_mode before)) as (Hd & _ & _).
    destruct (dispatch _ _) as [[[]|e] s1]; cbn [snd] in *; [|done].
    destruct (for_each (s0 :: l) merge_section s1) as [[[]|e] s2] eqn:Hm;
      [|done].
    intros _. cbn [snd].
    assert (_doc_parts s1 = _doc_parts before) as Hd' by done.
    rewrite <- Hd'.
    apply (for_each_merge_section_adds _ _ _ _ Hm); [|by rewrite Hd'..|done].
    intros x Hx. apply (Hparser _ _ _ Hg). by rewrite Hs.
  - etrans; [apply (evaluate_all_grows format_exc codes)|].
    apply (evaluate_grows format_exc code).
Qed.

End Added.
(** * The properties on concrete calls *)

(** ** Two bare fragments *)

Example full_doc_after_two_fragments :
  Demo.doc after_log_b
  = Ok ("*** Test Case ***" +:+ Py.LF +:+ "Default Task/Test" +:+ Py.LF
        +:+ "    Log    a" +:+ Py.LF +:+ "    Log    b").
Proof. vm_compute. reflexivity. Qed.

Example runtime_after_two_fragments :
  runtime after_log_b = ["    Log    a"; "    Log    b"].
Proof. vm_compute. reflexivity. Qed.

(** ** C1 *)

(** C1 fails on the code: a test case section whose test has no body
    passes the validation and the execution, and the merge stores it
    before the walk to its last statement raises the [IndexError] of
    [last_in_body.body[-1]]. The call returns the failure, and the
    rendered document is no longer the one before the call. *)
Lemma failed_merge_changes_document :
  failure_phase Demo.test_without_body Demo.new = Some Merge
  ∧ _doc_parts Demo.new !! "TestCaseSection" = Some None
  ∧ _doc_parts (Demo.eval Demo.test_without_body Demo.new).2
      !! "TestCaseSection"
    = Some (Some (Demo.test_section "*** Test Cases ***" "T" Py.LF "" []))
  ∧ (Demo.eval Demo.test_without_body Demo.new).1
    = mkActionResult false
        (Some "Error while evaluating: list index out of range") None
  ∧ Demo.doc Demo.new = Ok ""
  ∧ Demo.doc (Demo.eval Demo.test_without_body Demo.new).2
    = Ok ("*** Test Cases ***" +:+ Py.LF +:+ "T")
  ∧ Demo.doc (Demo.eval Demo.test_without_body Demo.new).2
    ≠ Demo.doc Demo.new.
Proof.
  split; [vm_compute; reflexivity|]. split; [vm_compute; reflexivity|].
  split; [vm_compute; reflexivity|]. split; [vm_compute; reflexivity|].
  split; [vm_compute; reflexivity|]. split; [vm_compute; reflexivity|].
  vm_compute. discriminate.
Qed.

(** A test body that calls [Fail] raises in the execution: the call fails
    and the document stays. *)
Lemma failure_before_merge_keeps_document_witness :
  reachable Demo.ast_to_code Demo.format_exc after_log_a
  ∧ failure_phase "Fail    now" after_log_a = Some Execution
  ∧ Execution ≠ Merge
  ∧ success (evaluate Demo.format_exc "Fail    now" after_log_a).1 = false
  ∧ answer (full_doc Demo.ast_to_code)
      (evaluate Demo.format_exc "Fail    now" after_log_a).2
    = answer (full_doc Demo.ast_to_code) after_log_a
  ∧ _doc_parts (evaluate Demo.format_exc "Fail    now" after_log_a).2
    = _doc_parts after_log_a
  ∧ block_mode_state (evaluate Demo.format_exc "Fail    now" after_log_a).2
    = block_mode_state after_log_a.
Proof.
  assert (reachable Demo.ast_to_code Demo.format_exc after_log_a) as H1.
  { apply reachable_evaluate, reachable_init. }
  assert (failure_phase "Fail    now" after_log_a = Some Execution) as H2.
  { vm_compute. reflexivity. }
  assert (Execution ≠ Merge) as H3.
  { discriminate. }
  exact (conj H1 (conj H2 (conj H3
    (failure_before_merge_keeps_document Demo.ast_to_code Demo.format_exc
       "Fail    now" after_log_a Execution H1 H2 H3)))).
Defined.

(** ** C3 *)

Lemma Demo_parser_ok : @parser_ok Demo.facade.
Proof.
  intros text parsed s [= <-]. unfold Demo.parse.
  repeat case_decide; cbn [sections Demo.default_test];
    intros Hs; try (by apply elem_of_nil in Hs);
    apply list_elem_of_singleton in Hs; subst s;
    cbn [sec_body Demo.test_section]; apply Forall_singleton; done.
Qed.

Example statements_after_two_fragments :
  shown <$> stored_statements (_doc_parts after_log_b) "TestCaseSection"
  = [("SectionHeader", ["*** Test Case ***"]);
     ("TestCaseName", ["Default Task/Test"]);
     ("KeywordCall", ["    "; "Log"; "    "; "a"]);
     ("KeywordCall", ["    "; "Log"; "    "; "b"])].
Proof. vm_compute. reflexivity. Qed.

Lemma document_keeps_kind_order_and_statements_witness :
  @parser_ok Demo.facade
  ∧ reachable Demo.ast_to_code Demo.format_exc after_log_a
  ∧ @get_model Demo.facade
      (code_to_parse "Log    a"
         (evaluate_all Demo.format_exc ["Log    b"] after_log_a))
    = Ok (Demo.default_test [Demo.keyword_call "Log" "a" ""])
  ∧ success (evaluate Demo.format_exc "Log    a"
               (evaluate_all Demo.format_exc ["Log    b"] after_log_a)).1
    = true
  ∧ answer (full_doc Demo.ast_to_code)
      (evaluate Demo.format_exc "Log    a"
         (evaluate_all Demo.format_exc ["Log    b"] after_log_a)).2
    = Ok (Py.strip (Py.join Py.LF
        (omap (rendered Demo.ast_to_code
                 (_doc_parts
                    (evaluate Demo.format_exc "Log    a"
                       (evaluate_all Demo.format_exc ["Log    b"]
                          after_log_a)).2))
           ["CommentSection"; "SettingSection"; "VariableSection";
            "KeywordSection"; "TestCaseSection"])))
  ∧ (∀ k, k ∈ default_sections →
       stored_statements
         (_doc_parts
            (evaluate Demo.format_exc "Log    a"
               (evaluate_all Demo.format_exc ["Log    b"] after_log_a)).2) k
       = (stored_statements
            (_doc_parts
               (evaluate_all Demo.format_exc ["Log    b"] after_log_a)) k
          ++ added k
               (is_stored
                  (_doc_parts
                     (evaluate_all Demo.format_exc ["Log    b"] after_log_a))
                  k)
               (sections
                  (Demo.default_test [Demo.keyword_call "Log" "a" ""])))%list)
  ∧ grows (_doc_parts after_log_a)
      (_doc_parts
         (evaluate Demo.format_exc "Log    a"
            (evaluate_all Demo.format_exc ["Log    b"] after_log_a)).2).
Proof.
  assert (reachable Demo.ast_to_code Demo.format_exc after_log_a) as H1.
  { apply reachable_evaluate, reachable_init. }
  assert (@get_model Demo.facade
            (code_to_parse "Log    a"
               (evaluate_all Demo.format_exc ["Log    b"] after_log_a))
          = Ok (Demo.default_test [Demo.keyword_call "Log" "a" ""])) as H2.
  { vm_compute. reflexivity. }
  assert (success (evaluate Demo.format_exc "Log    a"
                     (evaluate_all Demo.format_exc ["Log    b"]
                        after_log_a)).1
          = true) as H3.
  { vm_compute. reflexivity. }
  exact (conj Demo_parser_ok (conj H1 (conj H2 (conj H3
    (document_keeps_kind_order_and_statements Demo.ast_to_code
       Demo.format_exc ["Log    b"] "Log    a"
       (Demo.default_test [Demo.keyword_call "Log" "a" ""]) after_log_a
       Demo_parser_ok H1 H2 H3))))).
Defined.

(** The statements stored after ["Log    a"], ["Log    b"] and
    ["Log    a"] again: one section, one test, the three calls in the
    order of their arrival. *)
Example statements_after_three_fragments :
  shown <$> stored_statements
              (_doc_parts
                 (evaluate Demo.format_exc "Log    a"
                    (evaluate_all Demo.format_exc ["Log    b"]
                       after_log_a)).2)
              "TestCaseSection"
  = [("SectionHeader", ["*** Test Case ***"]);
     ("TestCaseName", ["Default Task/Test"]);
     ("KeywordCall", ["    "; "Log"; "    "; "a"]);
     ("KeywordCall", ["    "; "Log"; "    "; "b"]);
     ("KeywordCall", ["    "; "Log"; "    "; "a"])].
Proof. vm_compute. reflexivity. Qed.

(** ** C4 *)

(** C4 fails on the code: when the text of a fragment ends with the
    [END] of a loop, the walk goes into the loop and gives the last
    statement of its body the line feed; the [END] keeps its empty line
    end. The merge succeeds, the text of the stored section ends with no
    line break at all, and the text of the next fragment lands on the
    line of the [END]. *)
Lemma line_feed_goes_inside_the_last_block :
  success (evaluate Demo.format_exc Probe.for_loop_text Probe.new).1 = true
  ∧ (∃ acc tokens,
       _doc_parts after_for_loop !! "TestCaseSection" = Some (Some acc)
       ∧ last_statement_of (sec_body acc) = Some tokens
       ∧ value <$> tokens = ["        "; "Log"; "    "; "${i}"; Py.LF; Py.LF]
       ∧ line_feeds_at_end (Demo.ast_to_code acc) = 0)
  ∧ success (evaluate Demo.format_exc "Log    b" after_for_loop).1 = true
  ∧ answer (full_doc Demo.ast_to_code) after_for_loop_log_b
    = Ok ("*** Test Case ***" +:+ Py.LF +:+ "Default Task/Test" +:+ Py.LF
          +:+ "    FOR    ${i}    IN    1    2" +:+ Py.LF
          +:+ "        Log    ${i}" +:+ Py.LF +:+ Py.LF
          +:+ "    END    Log    b").
Proof.
  split; [vm_compute; reflexivity|]. split.
  { eexists _, _. split; [vm_compute; reflexivity|].
    split; [vm_compute; reflexivity|].
    split; vm_compute; reflexivity. }
  split; vm_compute; reflexivity.
Qed.

(** A fragment that ends with a line feed has a last line-end token that
    is not empty, so a second line-end token is added and the last
    statement ends with two line feeds. *)
Example merge_leaves_two_line_feeds :
  ∃ acc tokens,
    _doc_parts (Demo.eval ("Log    a" +:+ Py.LF) Demo.new).2
      !! "TestCaseSection" = Some (Some acc)
    ∧ last_statement_of (sec_body acc) = Some tokens
    ∧ value <$> tokens = ["    "; "Log"; "    "; "a"; Py.LF; Py.LF]
    ∧ line_feeds_at_end (statement_text tokens) = 2
    ∧ line_feeds_at_end (Demo.ast_to_code acc) = 2.
Proof.
  eexists _, _. split; [vm_compute; reflexivity|].
  split; [vm_compute; reflexivity|].
  split; [vm_compute; reflexivity|].
  split; vm_compute; reflexivity.
Qed.

(** The merge of ["Log    b"] after ["Log    a"]. *)
Lemma merge_ends_with_line_feed_token_witness :
  sec_body section_log_b ≠ []
  ∧ _doc_parts after_log_a !! sec_class section_log_b = Some (Some stored_log_a)
  ∧ merge_section section_log_b after_log_a
    = (Ok tt, (merge_section section_log_b after_log_a).2)
  ∧ ∃ acc' tokens tokens' last_token,
      _doc_parts (merge_section section_log_b after_log_a).2
        !! sec_class section_log_b = Some (Some acc')
      ∧ last_statement_of (merged_body section_log_b (Some stored_log_a))
        = Some tokens
      ∧ last_statement_of (sec_body acc') = Some tokens'
      ∧ last tokens' = Some last_token
      ∧ type last_token = TokenType.EOL ∧ value last_token = Py.LF
      ∧ ((∃ init t, tokens = (init ++ [t])%list ∧ type t = TokenType.EOL
                    ∧ value t = ""
                    ∧ tokens' = (init ++ [mkToken (type t) Py.LF (lineno t)
                                            (error t)])%list)
         ∨ (tokens' = (tokens ++ [Token_ "EOL" Py.LF])%list
            ∧ ∀ init t, tokens = (init ++ [t])%list →
                ¬ (type t = TokenType.EOL ∧ value t = ""))).
Proof.
  assert (sec_body section_log_b ≠ []) as H1.
  { discriminate. }
  assert (_doc_parts after_log_a !! sec_class section_log_b
          = Some (Some stored_log_a)) as H2.
  { vm_compute. reflexivity. }
  assert (merge_section section_log_b after_log_a
          = (Ok tt, (merge_section section_log_b after_log_a).2)) as H3.
  { vm_compute. reflexivity. }
  exact (conj H1 (conj H2 (conj H3
    (merge_ends_with_line_feed_token section_log_b after_log_a
       (merge_section section_log_b after_log_a).2 (Some stored_log_a)
       H1 H2 H3)))).
Defined.

(** ** C5 *)

(** C5 fails on the code: a test case section with a comment line before
    its test has the comment as first entry. With test cases stored, the
    test of the fragment runs, and the loop over the entries of the
    section then raises the [AttributeError] of [test_case.body] at the
    comment: the call returns the failure and the body of the test is
    not added to the stored test. *)
Lemma test_after_a_comment_is_not_added :
  success (evaluate Demo.format_exc "Log    a" Probe.new).1 = true
  ∧ is_stored (_doc_parts after_first_log) "TestCaseSection" = true
  ∧ @get_model Probe.facade
      (code_to_parse Probe.comment_before_test after_first_log)
    = Ok (mkFile
            [mkSection "TestCaseSection"
               (Some (Demo.section_header "*** Test Cases ***" Py.LF))
               [Probe.comment_line; Probe.test_after_comment]])
  ∧ (evaluate Demo.format_exc Probe.comment_before_test after_first_log).1
    = mkActionResult false
        (Some "Error while evaluating: 'Comment' object has no attribute 'body'")
        None
  ∧ runtime after_first_log = ["    Log    a"]
  ∧ runtime after_comment_before_test = ["    Log    a"; "    Log    b"]
  ∧ _doc_parts after_comment_before_test = _doc_parts after_first_log
  ∧ answer (full_doc Demo.ast_to_code) after_comment_before_test
    = Ok doc_log_a.
Proof.
  split; [vm_compute; reflexivity|]. split; [vm_compute; reflexivity|].
  split; [vm_compute; reflexivity|]. split; [vm_compute; reflexivity|].
  split; [vm_compute; reflexivity|]. split; [vm_compute; reflexivity|].
  split; vm_compute; reflexivity.
Qed.

(** Two bare fragments, one test. *)
Lemma tests_go_to_the_last_stored_test_witness :
  Py.startswith (Py.strip "Log    a") "***" = false
  ∧ Py.startswith (Py.strip "Log    b") "***" = false
  ∧ success (evaluate Demo.format_exc "Log    a" Demo.new).1 = true
  ∧ success (evaluate Demo.format_exc "Log    b"
               (evaluate Demo.format_exc "Log    a" Demo.new).2).1 = true
  ∧ ∃ body1' body',
      ensure_last_eol_body [Demo.keyword_call "Log" "a" ""] = Ok body1'
      ∧ ensure_last_eol_body (body1' ++ [Demo.keyword_call "Log" "b" ""])
        = Ok body'
      ∧ flat_map statements body'
        = (flat_map statements [Demo.keyword_call "Log" "a" ""]
           ++ flat_map statements [Demo.keyword_call "Log" "b" ""])%list
      ∧ _doc_parts
          (evaluate Demo.format_exc "Log    b"
             (evaluate Demo.format_exc "Log    a" Demo.new).2).2
          !! "TestCaseSection"
        = Some (Some (mkSection "TestCaseSection"
                        (Some (Demo.section_header "*** Test Case ***" Py.LF))
                        [Block "TestCase"
                           (Some (Demo.test_name "Default Task/Test" Py.LF))
                           body' None None]))
      ∧ answer (full_doc Demo.ast_to_code)
          (evaluate Demo.format_exc "Log    b"
             (evaluate Demo.format_exc "Log    a" Demo.new).2).2
        = Ok (Py.strip (Py.strip (Demo.ast_to_code
                (mkSection "TestCaseSection"
                   (Some (Demo.section_header "*** Test Case ***" Py.LF))
                   [Block "TestCase"
                      (Some (Demo.test_name "Default Task/Test" Py.LF))
                      body' None None])))).
Proof.
  assert (Py.startswith (Py.strip "Log    a") "***" = false) as H1.
  { vm_compute. reflexivity. }
  assert (Py.startswith (Py.strip "Log    b") "***" = false) as H2.
  { vm_compute. reflexivity. }
  assert (@get_model Demo.facade (default_block_mode +:+ "Log    a")
          = Ok (mkFile
                  [mkSection "TestCaseSection"
                     (Some (Demo.section_header "*** Test Case ***" Py.LF))
                     [Block "TestCase"
                        (Some (Demo.test_name "Default Task/Test" Py.LF))
                        [Demo.keyword_call "Log" "a" ""] None None]])) as H3.
  { vm_compute. reflexivity. }
  assert (@get_model Demo.facade (default_block_mode +:+ "Log    b")
          = Ok (mkFile
                  [mkSection "TestCaseSection"
                     (Some (Demo.section_header "*** Test Case ***" Py.LF))
                     [Block "TestCase"
                        (Some (Demo.test_name "Default Task/Test" Py.LF))
                        [Demo.keyword_call "Log" "b" ""] None None]])) as H4.
  { vm_compute. reflexivity. }
  assert (success (evaluate Demo.format_exc "Log    a" Demo.new).1
          = true) as H5.
  { vm_compute. reflexivity. }
  assert (success (evaluate Demo.format_exc "Log    b"
                     (evaluate Demo.format_exc "Log    a" Demo.new).2).1
          = true) as H6.
  { vm_compute. reflexivity. }
  exact (conj H1 (conj H2 (conj H5 (conj H6
    (proj2 (tests_go_to_the_last_stored_test Demo.ast_to_code Demo.format_exc
              ([] : @Runtime Demo.facade) "Log    a" "Log    b"
              _ _ _ _ _ _ _ _ _ _ _ _
              H1 H2 H3 H4 H5 H6)))))).
Defined.

(** ** C7 *)

(** C7 fails as stated: the last line of the document after ["Log    a"]
    ends with no tab or space and starts with four spaces; the prefix ends
    with a line feed and these four spaces, not with a line feed and the
    trailing whitespace of the line. *)
Lemma completion_prefix_is_not_trailing_whitespace :
  answer (_compute_full_doc Demo.ast_to_code (_last_section_name after_log_a))
    after_log_a = Ok doc_log_a
  ∧ trailing_whitespace "    Log    a" = ""
  ∧ ∃ r, answer (compute_evaluate_text Demo.ast_to_code "Log" "completions")
           after_log_a = Ok r
         ∧ prefix r = doc_log_a +:+ Py.LF +:+ "    "
         ∧ prefix r
           ≠ doc_log_a +:+ Py.LF +:+ trailing_whitespace "    Log    a".
Proof.
  split; [vm_compute; reflexivity|]. split; [vm_compute; reflexivity|].
  eexists. split; [vm_compute; reflexivity|].
  split; [vm_compute; reflexivity|]. vm_compute. discriminate.
Qed.

Lemma completion_prefix_reuses_leading_whitespace_witness :
  Py.startswith (Py.strip "Log") "***" = false
  ∧ has_section after_log_a
  ∧ answer (_compute_full_doc Demo.ast_to_code
              (_last_section_name after_log_a)) after_log_a = Ok doc_log_a
  ∧ answer (compute_evaluate_text Demo.ast_to_code "Log" "completions")
      after_log_a
    = Ok (mkEvaluateText
            (doc_log_a +:+ Py.LF +:+ leading_whitespaces "    Log    a")
            ((doc_log_a +:+ Py.LF +:+ leading_whitespaces "    Log    a")
             +:+ "Log")).
Proof.
  assert (Py.startswith (Py.strip "Log") "***" = false) as H1.
  { vm_compute. reflexivity. }
  assert (has_section after_log_a) as H2.
  { eexists. vm_compute. reflexivity. }
  assert (answer (_compute_full_doc Demo.ast_to_code
                    (_last_section_name after_log_a)) after_log_a
          = Ok doc_log_a) as H3.
  { vm_compute. reflexivity. }
  exact (conj H1 (conj H2 (conj H3
    (proj1 (completion_prefix_reuses_leading_whitespace Demo.ast_to_code
              "Log" after_log_a doc_log_a H1 H2 H3)
       ("*** Test Case ***" +:+ Py.LF +:+ "Default Task/Test")
       "    Log    a" eq_refl eq_refl)))).
Defined.

(** ** C8 *)

Lemma no_sections_is_reported_witness :
  @get_model Demo.facade (code_to_parse "***" Demo.new) = Ok (mkFile [])
  ∧ sections (mkFile []) = []
  ∧ answer (_evaluate "***") Demo.new
    = Ok (mkActionResult false
            (Some ("Error while evaluating: " +:+ no_sections_msg)) None)
  ∧ (evaluate Demo.format_exc "***" Demo.new).1
    = mkActionResult false
        (Some ("Error while evaluating: " +:+ no_sections_msg)) None
  ∧ on_stderr_calls (evaluate Demo.format_exc "***" Demo.new).2
    = (on_stderr_calls Demo.new ++ [no_sections_msg])%list
  ∧ _doc_parts (evaluate Demo.format_exc "***" Demo.new).2
    = _doc_parts Demo.new
  ∧ block_mode_state (evaluate Demo.format_exc "***" Demo.new).2
    = block_mode_state Demo.new
  ∧ runtime (evaluate Demo.format_exc "***" Demo.new).2 = runtime Demo.new.
Proof.
  assert (@get_model Demo.facade (code_to_parse "***" Demo.new)
          = Ok (mkFile [])) as H1.
  { vm_compute. reflexivity. }
  assert (sections (mkFile []) = []) as H2.
  { reflexivity. }
  exact (conj H1 (conj H2
    (no_sections_is_reported Demo.format_exc "***" Demo.new (mkFile [])
       H1 H2))).
Defined.

(** ** C9 *)

(** C9 fails on the code: with a rendered document without a line feed,
    the completion of a bare fragment gets the document as prefix, and a
    full code with a line feed between the prefix and the code. *)
Lemma full_code_has_line_feed_after_prefix :
  success (Demo.eval Demo.test_with_cr Demo.new).1 = true
  ∧ ∃ r, answer (compute_evaluate_text Demo.ast_to_code "Log" "completions")
           after_test_with_cr = Ok r
         ∧ prefix r = "*** Test Cases ***" +:+ Demo.CR +:+ "T" +:+ Demo.CR
                      +:+ "    Log    x"
         ∧ full_code r = prefix r +:+ Py.LF +:+ "Log"
         ∧ full_code r ≠ prefix r +:+ "Log".
Proof.
  split; [vm_compute; reflexivity|].
  eexists. split; [vm_compute; reflexivity|].
  split; [vm_compute; reflexivity|]. split; [vm_compute; reflexivity|].
  vm_compute. discriminate.
Qed.

(** ** C10 *)

Lemma block_mode_state_is_constant_witness :
  reachable Demo.ast_to_code Demo.format_exc after_log_b
  ∧ block_mode_state after_log_b = ("TestCaseSection", default_block_mode).
Proof.
  assert (reachable Demo.ast_to_code Demo.format_exc after_log_b) as H1.
  { apply reachable_evaluate, reachable_evaluate, reachable_init. }
  exact (conj H1
    (proj1 (block_mode_state_is_constant Demo.ast_to_code Demo.format_exc
              after_log_b H1))).
Defined.

(** ** Further properties *)

Lemma rendering_never_raises_witness :
  reachable Demo.ast_to_code Demo.format_exc after_log_a
  ∧ (∃ doc, answer (full_doc Demo.ast_to_code) after_log_a = Ok doc)
  ∧ ∃ r, answer (compute_evaluate_text Demo.ast_to_code "Log    b"
                   "completions") after_log_a = Ok r.
Proof.
  assert (reachable Demo.ast_to_code Demo.format_exc after_log_a) as H1.
  { apply reachable_evaluate, reachable_init. }
  exact (conj H1
    (rendering_never_raises Demo.ast_to_code Demo.format_exc
       "Log    b" "completions" after_log_a H1)).
Defined.

Lemma bare_fragment_is_the_default_test_witness :
  reachable Demo.ast_to_code Demo.format_exc Demo.new
  ∧ Py.startswith (Py.strip "Log    a") "***" = false
  ∧ evaluate Demo.format_exc "Log    a" Demo.new
    = evaluate Demo.format_exc (default_block_mode +:+ "Log    a") Demo.new.
Proof.
  assert (reachable Demo.ast_to_code Demo.format_exc Demo.new) as H1.
  { apply reachable_init. }
  assert (Py.startswith (Py.strip "Log    a") "***" = false) as H2.
  { vm_compute. reflexivity. }
  exact (conj H1 (conj H2
    (bare_fragment_is_the_default_test Demo.ast_to_code Demo.format_exc
       "Log    a" Demo.new H1 H2))).
Defined.

Lemma rendered_document_is_stripped_witness :
  answer (_compute_full_doc Demo.ast_to_code "") after_log_a = Ok doc_log_a
  ∧ Py.lstrip doc_log_a = doc_log_a
  ∧ Py.rstrip doc_log_a = doc_log_a
  ∧ Py.strip doc_log_a = doc_log_a.
Proof.
  assert (answer (_compute_full_doc Demo.ast_to_code "") after_log_a
          = Ok doc_log_a) as H1.
  { vm_compute. reflexivity. }
  exact (conj H1
    (rendered_document_is_stripped Demo.ast_to_code "" after_log_a
       doc_log_a H1)).
Defined.

(** A message to the error stream and a failure after it: the message
    is on [on_stderr] before the lines of the traceback. *)
Example stderr_after_console_then_fail :
  on_stderr_calls
    (evaluate Demo.format_exc Probe.console_then_fail_text Probe.new).2
  = ["x" +:+ Py.LF;
     "Traceback (most recent call last):" +:+ Py.LF;
     "ExecutionFailed: now" +:+ Py.LF].
Proof. vm_compute. reflexivity. Qed.

Lemma traceback_goes_to_stderr_whole_witness :
  @_evaluate Probe.facade Probe.console_then_fail_text Probe.new
  = (Raise (mkException "ExecutionFailed" "now"),
     (@_evaluate Probe.facade Probe.console_then_fail_text Probe.new).2)
  ∧ (evaluate Demo.format_exc Probe.console_then_fail_text Probe.new).1
    = mkActionResult false
        (Some ("Error while evaluating: "
               +:+ exc_str (mkException "ExecutionFailed" "now"))) None
  ∧ on_stderr_calls
      (evaluate Demo.format_exc Probe.console_then_fail_text Probe.new).2
    = (on_stderr_calls
         (@_evaluate Probe.facade Probe.console_then_fail_text Probe.new).2
       ++ Py.splitlines_keepends
            (Demo.format_exc (mkException "ExecutionFailed" "now")))%list
  ∧ on_stderr_calls Probe.new
      `prefix_of`
      on_stderr_calls
        (@_evaluate Probe.facade Probe.console_then_fail_text Probe.new).2
  ∧ (failure_phase Probe.console_then_fail_text Probe.new = Some Parse
     ∨ failure_phase Probe.console_then_fail_text Probe.new = Some Validation
     → (@_evaluate Probe.facade Probe.console_then_fail_text Probe.new).2
       = Probe.new)
  ∧ String.concat ""
      (Py.splitlines_keepends
         (Demo.format_exc (mkException "ExecutionFailed" "now")))
    = Demo.format_exc (mkException "ExecutionFailed" "now").
Proof.
  assert (@_evaluate Probe.facade Probe.console_then_fail_text Probe.new
          = (Raise (mkException "ExecutionFailed" "now"),
             (@_evaluate Probe.facade Probe.console_then_fail_text
                Probe.new).2)) as H1.
  { vm_compute. reflexivity. }
  exact (conj H1
    (traceback_goes_to_stderr_whole Demo.format_exc
       Probe.console_then_fail_text Probe.new
       (@_evaluate Probe.facade Probe.console_then_fail_text Probe.new).2
       (mkException "ExecutionFailed" "now") H1)).
Defined.

Lemma nothing_runs_before_validation_witness :
  failure_phase Probe.settings_unknown Probe.new = Some Validation
  ∧ (Validation = Parse ∨ Validation = EmptyInput ∨ Validation = Validation)
  ∧ runtime (evaluate Demo.format_exc Probe.settings_unknown Probe.new).2
    = runtime Probe.new
  ∧ _last_section_name
      (evaluate Demo.format_exc Probe.settings_unknown Probe.new).2
    = _last_section_name Probe.new
  ∧ _last_block_mode
      (evaluate Demo.format_exc Probe.settings_unknown Probe.new).2
    = _last_block_mode Probe.new
  ∧ _doc_parts (evaluate Demo.format_exc Probe.settings_unknown Probe.new).2
    = _doc_parts Probe.new.
Proof.
  assert (failure_phase Probe.settings_unknown Probe.new = Some Validation)
    as H1.
  { vm_compute. reflexivity. }
  assert (Validation = Parse ∨ Validation = EmptyInput
          ∨ Validation = Validation) as H2.
  { right. right. reflexivity. }
  exact (conj H1 (conj H2
    (nothing_runs_before_validation Demo.format_exc Probe.settings_unknown
       Probe.new Validation H1 H2))).
Defined.

Lemma sections_without_body_or_part_are_not_stored_witness :
  (∀ model s,
     @get_model Probe.facade (code_to_parse Probe.settings_only Probe.new)
     = Ok model →
     s ∈ sections model →
     sec_body s = [] ∨ _doc_parts Probe.new !! sec_class s = None)
  ∧ _doc_parts (evaluate Demo.format_exc Probe.settings_only Probe.new).2
    = _doc_parts Probe.new
  ∧ failure_phase Probe.settings_only Probe.new ≠ Some Merge.
Proof.
  assert (∀ model s,
            @get_model Probe.facade
              (code_to_parse Probe.settings_only Probe.new) = Ok model →
            s ∈ sections model →
            sec_body s = [] ∨ _doc_parts Probe.new !! sec_class s = None)
    as H1.
  { intros model s Hg Hs. left.
    change (Ok (mkFile [mkSection "SettingSection"
                          (Some (Probe.settings_header "")) []])
            = Ok model) in Hg.
    injection Hg as <-. cbn [sections] in Hs.
    apply list_elem_of_singleton in Hs. by subst s. }
  exact (conj H1
    (sections_without_body_or_part_are_not_stored Demo.format_exc
       Probe.settings_only Probe.new H1)).
Defined.

Lemma validation_error_names_the_code_as_file_witness :
  failure_phase Probe.settings_unknown Probe.new = Some Validation
  ∧ ∃ model marker,
      @get_model Probe.facade
        (code_to_parse Probe.settings_unknown Probe.new) = Ok model
      ∧ first_reported (file_error_statements model) = Some marker
      ∧ (evaluate Demo.format_exc Probe.settings_unknown Probe.new).1
        = mkActionResult false
            (Some ("Error while evaluating: Error in file '"
                   +:+ code_to_parse Probe.settings_unknown Probe.new
                   +:+ "' on line " +:+ pretty (lineno marker) +:+ ": "
                   +:+ Py.str_opt (error marker))) None.
Proof.
  assert (failure_phase Probe.settings_unknown Probe.new = Some Validation)
    as H1.
  { vm_compute. reflexivity. }
  exact (conj H1
    (validation_error_names_the_code_as_file Demo.format_exc
       Probe.settings_unknown Probe.new H1)).
Defined.

Lemma evaluate_text_is_the_code_parsed_witness :
  "evaluate" ≠ "completions"
  ∧ ∃ r, answer (compute_evaluate_text Demo.ast_to_code "Log    a"
                   "evaluate") Demo.new = Ok r
         ∧ full_code r = code_to_parse "Log    a" Demo.new
         ∧ full_code r = prefix r +:+ "Log    a".
Proof.
  assert ("evaluate" ≠ "completions") as H1.
  { discriminate. }
  exact (conj H1
    (evaluate_text_is_the_code_parsed Demo.ast_to_code "Log    a"
       "evaluate" Demo.new H1)).
Defined.

Lemma merge_failure_is_index_or_attribute_error_witness :
  failure_phase Demo.test_without_body Demo.new = Some Merge
  ∧ ∃ e, (@_evaluate Demo.facade Demo.test_without_body Demo.new).1 = Raise e
         ∧ (exc_class e = "IndexError" ∨ exc_class e = "AttributeError")
         ∧ message (evaluate Demo.format_exc Demo.test_without_body
                      Demo.new).1
           = Some ("Error while evaluating: " +:+ exc_str e).
Proof.
  assert (failure_phase Demo.test_without_body Demo.new = Some Merge) as H1.
  { vm_compute. reflexivity. }
  exact (conj H1
    (merge_failure_is_index_or_attribute_error Demo.format_exc
       Demo.test_without_body Demo.new H1)).
Defined.

Lemma document_parts_keep_their_shape_witness :
  reachable Demo.ast_to_code Demo.format_exc after_log_b
  ∧ (∀ k, is_Some (_doc_parts after_log_b !! k) ↔ k ∈ default_sections)
  ∧ ∀ k s, _doc_parts after_log_b !! k = Some (Some s) →
           sec_class s = k ∧ sec_body s ≠ [].
Proof.
  assert (reachable Demo.ast_to_code Demo.format_exc after_log_b) as H1.
  { apply reachable_evaluate, reachable_evaluate, reachable_init. }
  exact (conj H1
    (document_parts_keep_their_shape Demo.ast_to_code Demo.format_exc
       after_log_b H1)).
Defined.

Lemma completion_text_is_document_then_code_witness :
  reachable Demo.ast_to_code Demo.format_exc after_log_a
  ∧ ∃ r indent,
      answer (compute_evaluate_text Demo.ast_to_code "Log    b"
                "completions") after_log_a = Ok r
      ∧ full_code r
        = fixed_order_document Demo.ast_to_code (_doc_parts after_log_a)
          +:+ Py.LF +:+ indent +:+ "Log    b"
      ∧ (if Py.startswith (Py.strip "Log    b") "***" then indent = ""
         else match _doc_parts after_log_a !! "TestCaseSection" with
              | Some None => indent = default_block_mode
              | _ => only_tabs_and_spaces indent = true
              end).
Proof.
  assert (reachable Demo.ast_to_code Demo.format_exc after_log_a) as H1.
  { apply reachable_evaluate, reachable_init. }
  exact (conj H1
    (completion_text_is_document_then_code Demo.ast_to_code Demo.format_exc
       "Log    b" after_log_a H1)).
Defined.

Lemma evaluate_keeps_parts_of_other_kinds_witness :
  (∀ model s,
     @get_model Demo.facade (code_to_parse "Log    a" Demo.new) = Ok model →
     s ∈ sections model → sec_class s ≠ "SettingSection")
  ∧ _doc_parts (evaluate Demo.format_exc "Log    a" Demo.new).2
      !! "SettingSection"
    = _doc_parts Demo.new !! "SettingSection".
Proof.
  assert (∀ model s,
            @get_model Demo.facade (code_to_parse "Log    a" Demo.new)
            = Ok model →
            s ∈ sections model → sec_class s ≠ "SettingSection") as H1.
  { intros model s Hg Hs.
    change (Ok (Demo.default_test [Demo.keyword_call "Log" "a" ""])
            = Ok model) in Hg.
    injection Hg as <-. cbn [sections Demo.default_test] in Hs.
    apply list_elem_of_singleton in Hs. subst s. discriminate. }
  exact (conj H1
    (evaluate_keeps_parts_of_other_kinds Demo.format_exc "Log    a"
       Demo.new "SettingSection" H1)).
Defined.

Lemma unknown_section_name_raises_ValueError_witness :
  "Foo" ≠ ""
  ∧ ("Foo" ∉ default_sections)
  ∧ _compute_full_doc Demo.ast_to_code "Foo" Demo.new
    = (Raise (ValueError "list.remove(x): x not in list"), Demo.new).
Proof.
  assert ("Foo" ≠ "") as H1.
  { discriminate. }
  assert ("Foo" ∉ default_sections) as H2.
  { unfold default_sections. intros H.
    repeat (apply elem_of_cons in H as [H|H]; [discriminate|]).
    by apply elem_of_nil in H. }
  exact (conj H1 (conj H2
    (unknown_section_name_raises_ValueError Demo.ast_to_code "Foo"
       Demo.new H1 H2))).
Defined.

Lemma line_end_walk_changes_the_last_entry_only_witness :
  ensure_last_eol_body
    [Demo.keyword_call "Log" "a" Py.LF; Demo.keyword_call "Log" "b" ""]
  = Ok [Demo.keyword_call "Log" "a" Py.LF; Demo.keyword_call "Log" "b" Py.LF]
  ∧ ∃ init n n',
      [Demo.keyword_call "Log" "a" Py.LF; Demo.keyword_call "Log" "b" ""]
      = (init ++ [n])%list
      ∧ [Demo.keyword_call "Log" "a" Py.LF; Demo.keyword_call "Log" "b" Py.LF]
        = (init ++ [n'])%list
      ∧ ensure_last_eol_node n = Ok n'.
Proof.
  assert (ensure_last_eol_body
            [Demo.keyword_call "Log" "a" Py.LF; Demo.keyword_call "Log" "b" ""]
          = Ok [Demo.keyword_call "Log" "a" Py.LF;
                Demo.keyword_call "Log" "b" Py.LF]) as H1.
  { vm_compute. reflexivity. }
  exact (conj H1
    (line_end_walk_changes_the_last_entry_only _ _ H1)).
Defined.

Lemma successful_evaluate_stores_its_sections_witness :
  success (evaluate Demo.format_exc "Log    a" Demo.new).1 = true
  ∧ @get_model Demo.facade (code_to_parse "Log    a" Demo.new)
    = Ok (mkFile [section_log_a_parsed])
  ∧ section_log_a_parsed ∈ sections (mkFile [section_log_a_parsed])
  ∧ sec_body section_log_a_parsed ≠ []
  ∧ is_Some (_doc_parts Demo.new !! sec_class section_log_a_parsed)
  ∧ ∃ stored,
      _doc_parts (evaluate Demo.format_exc "Log    a" Demo.new).2
        !! sec_class section_log_a_parsed
      = Some (Some stored).
Proof.
  assert (success (evaluate Demo.format_exc "Log    a" Demo.new).1 = true)
    as H1.
  { vm_compute. reflexivity. }
  assert (@get_model Demo.facade (code_to_parse "Log    a" Demo.new)
          = Ok (mkFile [section_log_a_parsed])) as H0.
  { vm_compute. reflexivity. }
  assert (section_log_a_parsed ∈ sections (mkFile [section_log_a_parsed]))
    as H2.
  { apply list_elem_of_here. }
  assert (sec_body section_log_a_parsed ≠ []) as H3.
  { discriminate. }
  assert (is_Some (_doc_parts Demo.new !! sec_class section_log_a_parsed))
    as H4.
  { exists None. vm_compute. reflexivity. }
  exact (conj H1 (conj H0 (conj H2 (conj H3 (conj H4
    (successful_evaluate_stores_its_sections Demo.format_exc "Log    a"
       Demo.new (mkFile [section_log_a_parsed]) section_log_a_parsed
       H1 H0 H2 H3 H4)))))).
Defined.
